(** * CIFAR-10 ResNet9 notebook: data pipelines, model, training loop, evaluation

    A shallow embedding of the notebook's cells.  Python objects that the
    notebook mutates (the model, the optimizer, the scheduler, the global
    random generator) are threaded explicitly.  Everything the notebook
    delegates to torch / torchvision / numpy kernels is an operation of the
    [Torch] interface below; real-valued quantities (parameters, gradients,
    learning rates) are real numbers, i.e. floating point is idealised,
    except for the conversion of the clip value to the dtype of the
    gradients, which decides the bound the clipping enforces.
    Python exceptions are values of [result].  The [print] calls are not
    modelled. *)

From Stdlib Require Import List Arith ZArith Lia Bool Permutation.
From Stdlib Require Import Reals Lra.
Import ListNotations.

Set Implicit Arguments.

(** ** Exceptions *)

Inductive exn := IndexError | ValueError | RuntimeError.

Inductive result (A : Type) :=
| Ok (a : A)
| Raise (e : exn).
Arguments Ok {A} a.
Arguments Raise {A} e.

Definition bind {A B} (r : result A) (k : A -> result B) : result B :=
  match r with
  | Ok a => k a
  | Raise e => Raise e
  end.

Notation "x <- r ;; k" := (bind r (fun x => k))
  (at level 61, r at next level, right associativity).
Notation "' pat <- r ;; k" := (bind r (fun x => match x with pat => k end))
  (at level 61, pat pattern, r at next level, right associativity).

(** ** The numerical framework *)

(** Per-channel statistics: a 3-vector. *)
Definition stats := list R.

Class Torch : Type := {
  (** float tensors: images, activations, class scores, losses *)
  tensor : Type;
  (** one raw picture of [dataset.data] *)
  image : Type;
  (** state of the global random number generator *)
  generator : Type;
  (** [t.size(0)] *)
  size0 : tensor -> nat;

  (** numpy: [data.mean(axis=(0,1,2))/255] and [data.std(axis=(0,1,2))/255] *)
  np_mean_255 : list image -> stats;
  np_std_255 : list image -> stats;

  (** torchvision.transforms *)
  RandomCrop : nat -> nat -> image -> generator -> image * generator;
  RandomHorizontalFlip : image -> generator -> image * generator;
  ToTensor : image -> tensor;
  Normalize : stats -> stats -> tensor -> tensor;

  (** torch.utils.data *)
  randperm : nat -> generator -> list nat * generator;
  collate : list tensor -> tensor;

  (** layer kernels *)
  conv2d : list R -> list R -> tensor -> tensor;
  batch_norm_batch : list R -> list R -> tensor -> tensor;
  batch_norm_running : list R -> list R -> list R -> list R -> tensor -> tensor;
  running_update : list R -> list R -> tensor -> list R * list R;
  relu : tensor -> tensor;
  max_pool2d : nat -> tensor -> tensor;
  flatten : tensor -> tensor;
  linear : list R -> list R -> tensor -> tensor;
  tadd : tensor -> tensor -> tensor;
  dropout_mask : R -> tensor -> generator -> tensor * generator;

  (** [torch.max(t, 1)] indices, the loss, [.item()], autograd *)
  argmax1 : tensor -> list nat;
  cross_entropy : tensor -> list nat -> tensor;
  item : tensor -> R;
  autograd : tensor -> nat -> list R;

  (** what the notebook relies on *)
  randperm_perm : forall n g, Permutation (fst (randperm n g)) (seq 0 n);
  size0_collate : forall l, size0 (collate l) = length l;
  size0_conv2d : forall w b x, size0 (conv2d w b x) = size0 x;
  size0_bn_batch : forall w b x, size0 (batch_norm_batch w b x) = size0 x;
  size0_bn_running : forall m v w b x,
      size0 (batch_norm_running m v w b x) = size0 x;
  size0_relu : forall x, size0 (relu x) = size0 x;
  size0_max_pool2d : forall k x, size0 (max_pool2d k x) = size0 x;
  size0_flatten : forall x, size0 (flatten x) = size0 x;
  size0_linear : forall w b x, size0 (linear w b x) = size0 x;
  size0_tadd : forall x y, size0 x = size0 y -> size0 (tadd x y) = size0 x;
  size0_dropout_mask : forall p x g, size0 (fst (dropout_mask p x g)) = size0 x;
  length_argmax1 : forall x, length (argmax1 x) = size0 x
}.

(** ** Hyperparameters (cells 5 and 10) *)

Definition batch_size : nat := 100.
Definition num_epochs : nat := 40.
Definition lr : R := 0.01%R.
Definition momentum : R := 0.9%R.
Definition weight_decay : R := 0.0005%R.
Definition grad_clip : R := 0.1%R.

Section Notebook.

Context {T : Torch}.

(** ** Modules (cell 8) *)

(** A [torch.nn.Parameter] ([Param]): its identity, its values, its [.grad]. *)
Record Param := {
  pid : nat;
  data : list R;
  grad : option (list R)
}.

Definition mk_param (init : nat -> list R) (k : nat) : Param :=
  {| pid := k; data := init k; grad := None |}.

(** [nn.Conv2d(in_channels, out_channels, kernel_size, padding)] *)
Record Conv2d := {
  in_channels : nat;
  out_channels : nat;
  kernel_size : nat;
  padding : nat;
  conv_weight : Param;
  conv_bias : Param
}.

Record BatchNorm2d := {
  num_features : nat;
  bn_weight : Param;
  bn_bias : Param;
  running_mean : list R;
  running_var : list R;
  num_batches_tracked : nat;
  bn_training : bool
}.

Record Linear := {
  in_features : nat;
  out_features : nat;
  lin_weight : Param;
  lin_bias : Param
}.

Record Dropout := { drop_p : R; drop_training : bool }.

(** [nn.Module.__init__] sets [training = True]. *)
Definition Dropout_new (p : R) : Dropout :=
  {| drop_p := p; drop_training := true |}.

Definition BatchNorm2d_new (init : nat -> list R) (k : nat) (c : nat)
  : BatchNorm2d :=
  {| num_features := c;
     bn_weight := mk_param init k;
     bn_bias := mk_param init (k + 1);
     running_mean := repeat 0%R c;
     running_var := repeat 1%R c;
     num_batches_tracked := 0;
     bn_training := true |}.

(** [conv_block(in_channels, out_channels, pool)]:
    Conv2d, BatchNorm2d, ReLU and, when [pool], MaxPool2d(2). *)
Record ConvBlock := {
  conv : Conv2d;
  bn : BatchNorm2d;
  pool : bool
}.

Definition conv_block (init : nat -> list R) (k : nat)
    (in_channels out_channels : nat) (pool : bool) : ConvBlock :=
  {| conv := {| in_channels := in_channels;
                out_channels := out_channels;
                kernel_size := 3;
                padding := 1;
                conv_weight := mk_param init k;
                conv_bias := mk_param init (k + 1) |};
     bn := BatchNorm2d_new init (k + 2) out_channels;
     pool := pool |}.

(** [nn.Sequential(conv_block, conv_block, nn.Dropout(p=0.3))] *)
Record ResBlock := {
  rb1 : ConvBlock;
  rb2 : ConvBlock;
  rdrop : Dropout
}.

Record Classifier := {
  cdrop1 : Dropout;
  fc1 : Linear;
  fc2 : Linear;
  cdrop2 : Dropout;
  fc3 : Linear
}.

Record ResNet9 := {
  conv1 : ConvBlock;
  conv2 : ConvBlock;
  res1 : ResBlock;
  conv3 : ConvBlock;
  conv4 : ConvBlock;
  res2 : ResBlock;
  classifier : Classifier
}.

Definition Linear_new (init : nat -> list R) (k : nat)
    (in_features out_features : nat) : Linear :=
  {| in_features := in_features;
     out_features := out_features;
     lin_weight := mk_param init k;
     lin_bias := mk_param init (k + 1) |}.

(** [ResNet9(in_channels, num_classes)]; [init] gives the initial values of
    the parameters, numbered in registration order. *)
Definition ResNet9_new (init : nat -> list R)
    (in_channels num_classes : nat) : ResNet9 :=
  {| conv1 := conv_block init 0 in_channels 64 false;
     conv2 := conv_block init 4 64 128 true;
     res1 := {| rb1 := conv_block init 8 128 128 false;
                rb2 := conv_block init 12 128 128 false;
                rdrop := Dropout_new 0.3%R |};
     conv3 := conv_block init 16 128 256 true;
     conv4 := conv_block init 20 256 512 true;
     res2 := {| rb1 := conv_block init 24 512 512 false;
                rb2 := conv_block init 28 512 512 false;
                rdrop := Dropout_new 0.3%R |};
     classifier := {| cdrop1 := Dropout_new 0.5%R;
                      fc1 := Linear_new init 32 512 256;
                      fc2 := Linear_new init 34 256 128;
                      cdrop2 := Dropout_new 0.5%R;
                      fc3 := Linear_new init 36 128 num_classes |} |}.

(** *** Forward passes *)

Definition Conv2d_forward (m : Conv2d) (x : tensor) : tensor :=
  conv2d (data (conv_weight m)) (data (conv_bias m)) x.

Definition Linear_forward (m : Linear) (x : tensor) : tensor :=
  linear (data (lin_weight m)) (data (lin_bias m)) x.

(** In training mode the batch statistics normalise the input and the running
    statistics are updated in place; otherwise the running statistics
    normalise it. *)
Definition BatchNorm2d_forward (m : BatchNorm2d) (x : tensor)
  : tensor * BatchNorm2d :=
  if bn_training m then
    let '(rm, rv) := running_update (running_mean m) (running_var m) x in
    (batch_norm_batch (data (bn_weight m)) (data (bn_bias m)) x,
     {| num_features := num_features m;
        bn_weight := bn_weight m;
        bn_bias := bn_bias m;
        running_mean := rm;
        running_var := rv;
        num_batches_tracked := S (num_batches_tracked m);
        bn_training := bn_training m |})
  else
    (batch_norm_running (running_mean m) (running_var m)
       (data (bn_weight m)) (data (bn_bias m)) x, m).

(** [F.dropout(input, p, self.training)] *)
Definition Dropout_forward (m : Dropout) (x : tensor) (g : generator)
  : tensor * generator :=
  if drop_training m then dropout_mask (drop_p m) x g else (x, g).

Definition ConvBlock_forward (m : ConvBlock) (x : tensor)
  : tensor * ConvBlock :=
  let out := Conv2d_forward (conv m) x in
  let '(out, bn') := BatchNorm2d_forward (bn m) out in
  let out := relu out in
  let out := if pool m then max_pool2d 2 out else out in
  (out, {| conv := conv m; bn := bn'; pool := pool m |}).

Definition ResBlock_forward (m : ResBlock) (x : tensor) (g : generator)
  : tensor * ResBlock * generator :=
  let '(out, b1) := ConvBlock_forward (rb1 m) x in
  let '(out, b2) := ConvBlock_forward (rb2 m) out in
  let '(out, g) := Dropout_forward (rdrop m) out g in
  (out, {| rb1 := b1; rb2 := b2; rdrop := rdrop m |}, g).

Definition Classifier_forward (m : Classifier) (x : tensor) (g : generator)
  : tensor * generator :=
  let '(out, g) := Dropout_forward (cdrop1 m) x g in
  let out := max_pool2d 4 out in
  let out := flatten out in
  let out := relu (Linear_forward (fc1 m) out) in
  let out := relu (Linear_forward (fc2 m) out) in
  let '(out, g) := Dropout_forward (cdrop2 m) out g in
  (Linear_forward (fc3 m) out, g).

(** [ResNet9.forward] *)
Definition forward (self : ResNet9) (xb : tensor) (g : generator)
  : tensor * ResNet9 * generator :=
  let '(out, c1) := ConvBlock_forward (conv1 self) xb in
  let '(out, c2) := ConvBlock_forward (conv2 self) out in
  let '(r, r1, g) := ResBlock_forward (res1 self) out g in
  let out := tadd r out in
  let '(out, c3) := ConvBlock_forward (conv3 self) out in
  let '(out, c4) := ConvBlock_forward (conv4 self) out in
  let '(r, r2, g) := ResBlock_forward (res2 self) out g in
  let out := tadd r out in
  let '(out, g) := Classifier_forward (classifier self) out g in
  (out,
   {| conv1 := c1; conv2 := c2; res1 := r1; conv3 := c3; conv4 := c4;
      res2 := r2; classifier := classifier self |},
   g).

(** *** Shapes

    What each layer does to the shape of its input, with the shape errors
    it raises.  [Linear] is taken on 2-D inputs, as it is used here. *)

Definition shape := list nat.

Definition conv_out (size kernel padding : nat) : result nat :=
  if size + 2 * padding <? kernel then Raise RuntimeError
  else Ok (size + 2 * padding - kernel + 1).

Definition Conv2d_shape (m : Conv2d) (s : shape) : result shape :=
  match s with
  | [n; c; h; w] =>
      if c =? in_channels m then
        h <- conv_out h (kernel_size m) (padding m) ;;
        w <- conv_out w (kernel_size m) (padding m) ;;
        Ok [n; out_channels m; h; w]
      else Raise RuntimeError
  | _ => Raise RuntimeError
  end.

(** In training mode batch statistics need more than one value per
    channel. *)
Definition BatchNorm2d_shape (m : BatchNorm2d) (s : shape) : result shape :=
  match s with
  | [n; c; h; w] =>
      if negb (c =? num_features m) then Raise RuntimeError
      else if bn_training m && (n * h * w <=? 1) then Raise ValueError
      else Ok s
  | _ => Raise ValueError
  end.

Definition MaxPool2d_shape (k : nat) (s : shape) : result shape :=
  match s with
  | [n; c; h; w] =>
      if (h / k =? 0) || (w / k =? 0) then Raise RuntimeError
      else Ok [n; c; h / k; w / k]
  | _ => Raise RuntimeError
  end.

Definition Flatten_shape (s : shape) : result shape :=
  match s with
  | n :: d :: rest => Ok [n; fold_right Nat.mul 1 (d :: rest)]
  | _ => Raise IndexError
  end.

Definition Linear_shape (m : Linear) (s : shape) : result shape :=
  match s with
  | [n; f] =>
      if f =? in_features m then Ok [n; out_features m]
      else Raise RuntimeError
  | _ => Raise RuntimeError
  end.

(** [a + b] on two tensors of the same shape *)
Definition add_shape (a b : shape) : result shape :=
  if list_eq_dec Nat.eq_dec a b then Ok a else Raise RuntimeError.

Definition ConvBlock_shape (m : ConvBlock) (s : shape) : result shape :=
  out <- Conv2d_shape (conv m) s ;;
  out <- BatchNorm2d_shape (bn m) out ;;
  if pool m then MaxPool2d_shape 2 out else Ok out.

Definition ResBlock_shape (m : ResBlock) (s : shape) : result shape :=
  out <- ConvBlock_shape (rb1 m) s ;;
  ConvBlock_shape (rb2 m) out.

Definition Classifier_shape (m : Classifier) (s : shape) : result shape :=
  out <- MaxPool2d_shape 4 s ;;
  out <- Flatten_shape out ;;
  out <- Linear_shape (fc1 m) out ;;
  out <- Linear_shape (fc2 m) out ;;
  Linear_shape (fc3 m) out.

(** The shape of [self.forward(xb)] for an input of shape [s]. *)
Definition forward_shape (self : ResNet9) (s : shape) : result shape :=
  out <- ConvBlock_shape (conv1 self) s ;;
  out <- ConvBlock_shape (conv2 self) out ;;
  r <- ResBlock_shape (res1 self) out ;;
  out <- add_shape r out ;;
  out <- ConvBlock_shape (conv3 self) out ;;
  out <- ConvBlock_shape (conv4 self) out ;;
  r <- ResBlock_shape (res2 self) out ;;
  out <- add_shape r out ;;
  Classifier_shape (classifier self) out.

(** [model.parameters()], in registration order *)
Definition ConvBlock_parameters (m : ConvBlock) : list Param :=
  [conv_weight (conv m); conv_bias (conv m); bn_weight (bn m); bn_bias (bn m)].

Definition ResBlock_parameters (m : ResBlock) : list Param :=
  ConvBlock_parameters (rb1 m) ++ ConvBlock_parameters (rb2 m).

Definition Linear_parameters (m : Linear) : list Param :=
  [lin_weight m; lin_bias m].

Definition parameters (m : ResNet9) : list Param :=
  ConvBlock_parameters (conv1 m) ++ ConvBlock_parameters (conv2 m) ++
  ResBlock_parameters (res1 m) ++
  ConvBlock_parameters (conv3 m) ++ ConvBlock_parameters (conv4 m) ++
  ResBlock_parameters (res2 m) ++
  Linear_parameters (fc1 (classifier m)) ++
  Linear_parameters (fc2 (classifier m)) ++
  Linear_parameters (fc3 (classifier m)).

(** In-place update of every parameter, as the optimizer and the gradient
    utilities do through the references they hold. *)
Definition ConvBlock_map (f : Param -> Param) (m : ConvBlock) : ConvBlock :=
  {| conv := {| in_channels := in_channels (conv m);
                out_channels := out_channels (conv m);
                kernel_size := kernel_size (conv m);
                padding := padding (conv m);
                conv_weight := f (conv_weight (conv m));
                conv_bias := f (conv_bias (conv m)) |};
     bn := {| num_features := num_features (bn m);
              bn_weight := f (bn_weight (bn m));
              bn_bias := f (bn_bias (bn m));
              running_mean := running_mean (bn m);
              running_var := running_var (bn m);
              num_batches_tracked := num_batches_tracked (bn m);
              bn_training := bn_training (bn m) |};
     pool := pool m |}.

Definition ResBlock_map (f : Param -> Param) (m : ResBlock) : ResBlock :=
  {| rb1 := ConvBlock_map f (rb1 m);
     rb2 := ConvBlock_map f (rb2 m);
     rdrop := rdrop m |}.

Definition Linear_map (f : Param -> Param) (m : Linear) : Linear :=
  {| in_features := in_features m;
     out_features := out_features m;
     lin_weight := f (lin_weight m);
     lin_bias := f (lin_bias m) |}.

Definition map_parameters (f : Param -> Param) (m : ResNet9) : ResNet9 :=
  {| conv1 := ConvBlock_map f (conv1 m);
     conv2 := ConvBlock_map f (conv2 m);
     res1 := ResBlock_map f (res1 m);
     conv3 := ConvBlock_map f (conv3 m);
     conv4 := ConvBlock_map f (conv4 m);
     res2 := ResBlock_map f (res2 m);
     classifier :=
       {| cdrop1 := cdrop1 (classifier m);
          fc1 := Linear_map f (fc1 (classifier m));
          fc2 := Linear_map f (fc2 (classifier m));
          cdrop2 := cdrop2 (classifier m);
          fc3 := Linear_map f (fc3 (classifier m)) |} |}.

(** [nn.Module.train(mode)]: sets the flag of the module and of every
    sub-module; [model.eval()] is [train false]. *)
Definition ConvBlock_train (mode : bool) (m : ConvBlock) : ConvBlock :=
  {| conv := conv m;
     bn := {| num_features := num_features (bn m);
              bn_weight := bn_weight (bn m);
              bn_bias := bn_bias (bn m);
              running_mean := running_mean (bn m);
              running_var := running_var (bn m);
              num_batches_tracked := num_batches_tracked (bn m);
              bn_training := mode |};
     pool := pool m |}.

Definition Dropout_train (mode : bool) (m : Dropout) : Dropout :=
  {| drop_p := drop_p m; drop_training := mode |}.

Definition ResBlock_train (mode : bool) (m : ResBlock) : ResBlock :=
  {| rb1 := ConvBlock_train mode (rb1 m);
     rb2 := ConvBlock_train mode (rb2 m);
     rdrop := Dropout_train mode (rdrop m) |}.

Definition train (mode : bool) (m : ResNet9) : ResNet9 :=
  {| conv1 := ConvBlock_train mode (conv1 m);
     conv2 := ConvBlock_train mode (conv2 m);
     res1 := ResBlock_train mode (res1 m);
     conv3 := ConvBlock_train mode (conv3 m);
     conv4 := ConvBlock_train mode (conv4 m);
     res2 := ResBlock_train mode (res2 m);
     classifier :=
       {| cdrop1 := Dropout_train mode (cdrop1 (classifier m));
          fc1 := fc1 (classifier m);
          fc2 := fc2 (classifier m);
          cdrop2 := Dropout_train mode (cdrop2 (classifier m));
          fc3 := fc3 (classifier m) |} |}.

(** The [training] flags of the four dropout layers and eight batch norms. *)
Definition training_flags (m : ResNet9) : list bool :=
  [bn_training (bn (conv1 m)); bn_training (bn (conv2 m));
   bn_training (bn (rb1 (res1 m))); bn_training (bn (rb2 (res1 m)));
   drop_training (rdrop (res1 m));
   bn_training (bn (conv3 m)); bn_training (bn (conv4 m));
   bn_training (bn (rb1 (res2 m))); bn_training (bn (rb2 (res2 m)));
   drop_training (rdrop (res2 m));
   drop_training (cdrop1 (classifier m));
   drop_training (cdrop2 (classifier m))].

(** ** Data preparation (cells 6 and 7) *)

Definition sample : Type := image * nat.

Definition train_transform (mean std : stats) (img : image) (g : generator)
  : tensor * generator :=
  let '(img, g) := RandomCrop 32 4 img g in
  let '(img, g) := RandomHorizontalFlip img g in
  (Normalize mean std (ToTensor img), g).

Definition test_transform (mean std : stats) (img : image) (g : generator)
  : tensor * generator :=
  (Normalize mean std (ToTensor img), g).

(** [torchvision.datasets.CIFAR10(..., transform=...)] *)
Record CIFAR10 := {
  samples : list sample;
  transform : image -> generator -> tensor * generator
}.

(** [dataset[index]] *)
Definition getitem (ds : CIFAR10) (index : nat) (g : generator)
  : result (tensor * nat * generator) :=
  match nth_error (samples ds) index with
  | None => Raise IndexError
  | Some (img, target) =>
      let '(x, g) := transform ds img g in Ok (x, target, g)
  end.

(** [torch.utils.data.DataLoader(dataset, batch_size, shuffle)];
    [drop_last] keeps its default [False].  The worker processes are not
    modelled: samples are fetched in order from one generator. *)
Record DataLoader := {
  dataset : CIFAR10;
  dl_batch_size : nat;
  shuffle : bool
}.

(** [len(loader)] *)
Definition len (dl : DataLoader) : nat :=
  (length (samples (dataset dl)) + dl_batch_size dl - 1) / dl_batch_size dl.

(** The sampler: a fresh random permutation per pass when [shuffle], the
    original order otherwise. *)
Definition sampler (dl : DataLoader) (g : generator) : list nat * generator :=
  let n := length (samples (dataset dl)) in
  if shuffle dl then randperm n g else (seq 0 n, g).

(** The batch sampler groups indices by [batch_size], the last group may be
    smaller. *)
Fixpoint batch_sampler (bs : nat) (batch : list nat) (idxs : list nat)
  : list (list nat) :=
  match idxs with
  | [] => match batch with [] => [] | _ :: _ => [batch] end
  | idx :: rest =>
      let batch := batch ++ [idx] in
      if length batch =? bs then batch :: batch_sampler bs [] rest
      else batch_sampler bs batch rest
  end.

(** Fetch and collate one batch: the image tensor and the labels. *)
Fixpoint fetch_samples (ds : CIFAR10) (idxs : list nat) (g : generator)
  : result (list tensor * list nat * generator) :=
  match idxs with
  | [] => Ok ([], [], g)
  | idx :: rest =>
      '(x, target, g) <- getitem ds idx g ;;
      '(xs, targets, g) <- fetch_samples ds rest g ;;
      Ok (x :: xs, target :: targets, g)
  end.

Definition fetch (ds : CIFAR10) (idxs : list nat) (g : generator)
  : result (tensor * list nat * generator) :=
  '(xs, targets, g) <- fetch_samples ds idxs g ;;
  Ok (collate xs, targets, g).

(** ** Optimizer and scheduler (cell 11) *)

Fixpoint map2 {A B C} (f : A -> B -> C) (l1 : list A) (l2 : list B) : list C :=
  match l1, l2 with
  | a :: l1, b :: l2 => f a b :: map2 f l1 l2
  | _, _ => []
  end.

Definition vadd (u v : list R) : list R := map2 Rplus u v.
Definition vsub (u v : list R) : list R := map2 Rminus u v.
Definition vscale (c : R) (u : list R) : list R := map (Rmult c) u.

Definition set_grad (gr : option (list R)) (q : Param) : Param :=
  {| pid := pid q; data := data q; grad := gr |}.

Definition set_data (d : list R) (q : Param) : Param :=
  {| pid := pid q; data := d; grad := grad q |}.

(** [optim.SGD(model.parameters(), lr, momentum, weight_decay)]: one parameter
    group; the momentum buffers are keyed by the parameter's identity. *)
Record SGD := {
  group_lr : R;
  group_momentum : R;
  group_weight_decay : R;
  momentum_buffer : nat -> option (list R)
}.

Definition SGD_new (lr momentum weight_decay : R) : SGD :=
  {| group_lr := lr;
     group_momentum := momentum;
     group_weight_decay := weight_decay;
     momentum_buffer := fun _ => None |}.

(** [optimizer.zero_grad()] *)
Definition zero_grad (m : ResNet9) : ResNet9 :=
  map_parameters (set_grad None) m.

(** [loss.backward()]: accumulates the gradient of the loss into [.grad]. *)
Definition accumulate (loss : tensor) (q : Param) : Param :=
  match grad q with
  | None => set_grad (Some (autograd loss (pid q))) q
  | Some g0 => set_grad (Some (vadd g0 (autograd loss (pid q)))) q
  end.

Definition backward (loss : tensor) (m : ResNet9) : ResNet9 :=
  map_parameters (accumulate loss) m.

(** The largest integer not above [x]. *)
Definition Rfloor (x : R) : Z := (up x - 1)%Z.

(** The integer nearest to [x], the even one of two equally near. *)
Definition nearest_even (x : R) : Z :=
  let f := Rfloor x in
  if Rlt_dec (x - IZR f) (/ 2) then f
  else if Rlt_dec (/ 2) (x - IZR f) then (f + 1)%Z
  else if Z.even f then f else (f + 1)%Z.

(** A Python float as a scalar of the tensors' dtype, [torch.float32]: the
    nearest number with a 24-bit significand (exponents from -126, below
    which the spacing stays [2^-149]), ties to even.  Beyond the largest
    float32 number the conversion gives an infinity, which the reals lack;
    the scalars converted here are far from it. *)
Definition float32 (x : R) : R :=
  if Req_dec_T x 0 then 0%R
  else
    let a := Rabs x in
    let e := Z.max (-126) (Rfloor (ln a / ln 2)) in
    let ulp := powerRZ 2 (e - 23) in
    let y := (IZR (nearest_even (a / ulp)) * ulp)%R in
    if Rlt_dec x 0 then (- y)%R else y.

(** [torch.clamp(x, min=lo, max=hi)] on a float32 tensor: the two Python
    floats are compared as scalars of the tensor's dtype. *)
Definition clamp (lo hi x : R) : R := Rmin (Rmax x (float32 lo)) (float32 hi).

(** [nn.utils.clip_grad_value_(model.parameters(), clip_value)] *)
Definition clip_param (clip_value : R) (q : Param) : Param :=
  match grad q with
  | None => q
  | Some gr => set_grad (Some (map (clamp (- clip_value) clip_value) gr)) q
  end.

Definition clip_grad_value_ (clip_value : R) (m : ResNet9) : ResNet9 :=
  map_parameters (clip_param clip_value) m.

(** [optimizer.step()]: SGD with weight decay and momentum (no dampening, no
    Nesterov), both non-zero here. *)
Definition sgd_buffer (o : SGD) (q : Param) : option (list R) :=
  match grad q with
  | None => None
  | Some d =>
      let d := vadd d (vscale (group_weight_decay o) (data q)) in
      Some match momentum_buffer o (pid q) with
           | None => d
           | Some buf => vadd (vscale (group_momentum o) buf) d
           end
  end.

Definition sgd_param (o : SGD) (q : Param) : Param :=
  match sgd_buffer o q with
  | None => q
  | Some buf => set_data (vsub (data q) (vscale (group_lr o) buf)) q
  end.

Definition SGD_step (o : SGD) (m : ResNet9) : SGD * ResNet9 :=
  ({| group_lr := group_lr o;
      group_momentum := group_momentum o;
      group_weight_decay := group_weight_decay o;
      momentum_buffer := fun k =>
        match find (fun q => pid q =? k) (parameters m) with
        | Some q =>
            match sgd_buffer o q with
            | Some buf => Some buf
            | None => momentum_buffer o k
            end
        | None => momentum_buffer o k
        end |},
   map_parameters (sgd_param o) m).

(** [torch.optim.lr_scheduler.OneCycleLR(optimizer, max_lr, steps_per_epoch,
    epochs)] with its defaults: cosine annealing, two phases,
    [pct_start = 0.3], [div_factor = 25], [final_div_factor = 1e4], cycled
    momentum between 0.85 and 0.95.  [last_epoch] is the index of the
    current step. *)
Record OneCycleLR := {
  total_steps : nat;
  max_lr : R;
  last_epoch : nat
}.

Definition pct_start : R := 0.3%R.
Definition div_factor : R := 25%R.
Definition final_div_factor : R := 10000%R.
Definition base_momentum : R := 0.85%R.
Definition max_momentum : R := 0.95%R.

Definition initial_lr (s : OneCycleLR) : R := (max_lr s / div_factor)%R.
Definition min_lr (s : OneCycleLR) : R := (initial_lr s / final_div_factor)%R.

Definition annealing_cos (start end_ pct : R) : R :=
  let cos_out := (cos (PI * pct) + 1)%R in
  (end_ + (start - end_) / 2 * cos_out)%R.

(** The two phases end at [pct_start * total_steps - 1] and at
    [total_steps - 1]. *)
Definition end_step1 (s : OneCycleLR) : R :=
  (pct_start * INR (total_steps s) - 1)%R.
Definition end_step2 (s : OneCycleLR) : R :=
  (INR (total_steps s) - 1)%R.

Definition anneal_phases (s : OneCycleLR) (step_num : nat)
    (start1 end1 end2 : R) : R :=
  if Rle_dec (INR step_num) (end_step1 s) then
    annealing_cos start1 end1 ((INR step_num - 0) / (end_step1 s - 0))%R
  else
    annealing_cos end1 end2
      ((INR step_num - end_step1 s) / (end_step2 s - end_step1 s))%R.

Definition get_lr (s : OneCycleLR) (step_num : nat) : R :=
  anneal_phases s step_num (initial_lr s) (max_lr s) (min_lr s).

Definition get_momentum (s : OneCycleLR) (step_num : nat) : R :=
  anneal_phases s step_num max_momentum base_momentum max_momentum.

Definition set_group (s : OneCycleLR) (o : SGD) : SGD :=
  {| group_lr := get_lr s (last_epoch s);
     group_momentum := get_momentum s (last_epoch s);
     group_weight_decay := group_weight_decay o;
     momentum_buffer := momentum_buffer o |}.

(** The constructor performs the initial step, which sets step 0. *)
Definition OneCycleLR_new (o : SGD) (max_lr : R)
    (steps_per_epoch epochs : nat) : result (OneCycleLR * SGD) :=
  let total := epochs * steps_per_epoch in
  if total =? 0 then Raise ValueError
  else
    let s := {| total_steps := total; max_lr := max_lr; last_epoch := 0 |} in
    Ok (s, set_group s o).

(** [scheduler.step()] *)
Definition scheduler_step (s : OneCycleLR) (o : SGD)
  : result (OneCycleLR * SGD) :=
  let step_num := S (last_epoch s) in
  if total_steps s <? step_num then Raise ValueError
  else
    let s := {| total_steps := total_steps s;
                max_lr := max_lr s;
                last_epoch := step_num |} in
    Ok (s, set_group s o).

(** ** Training loop (cell 12) *)

(** The objects the loops mutate. *)
Record State := {
  model : ResNet9;
  optimizer : SGD;
  scheduler : OneCycleLR;
  gen : generator
}.

(** Forward pass, loss, [zero_grad], backward pass and gradient clipping:
    the body of the loop up to, and excluding, [optimizer.step()]. *)
Definition forward_backward (m : ResNet9) (inputs : tensor)
    (labels : list nat) (g : generator) : tensor * ResNet9 * generator :=
  let '(outputs, m, g) := forward m inputs g in
  let loss := cross_entropy outputs labels in
  let m := zero_grad m in
  let m := backward loss m in
  let m := if Req_dec_T grad_clip 0 then m else clip_grad_value_ grad_clip m in
  (loss, m, g).

(** One iteration of the inner loop, for batch number [i]. *)
Definition train_batch (trainloader : DataLoader) (st : State)
    (running_loss : R) (i : nat) (idxs : list nat) : result (State * R) :=
  '(inputs, labels, g) <- fetch (dataset trainloader) idxs (gen st) ;;
  let '(loss, m, g) := forward_backward (model st) inputs labels g in
  let '(o, m) := SGD_step (optimizer st) m in
  let running_loss := (running_loss + item loss)%R in
  let running_loss :=
    if (i + 1) mod len trainloader =? 0 then 0%R else running_loss in
  '(s, o) <- scheduler_step (scheduler st) o ;;
  Ok ({| model := m; optimizer := o; scheduler := s; gen := g |},
      running_loss).

(** [for i, data in enumerate(trainloader, 0)] *)
Fixpoint train_batches (trainloader : DataLoader) (st : State)
    (running_loss : R) (i : nat) (batches : list (list nat))
  : result State :=
  match batches with
  | [] => Ok st
  | idxs :: rest =>
      '(st, running_loss) <- train_batch trainloader st running_loss i idxs ;;
      train_batches trainloader st running_loss (S i) rest
  end.

Definition with_gen (st : State) (g : generator) : State :=
  {| model := model st; optimizer := optimizer st;
     scheduler := scheduler st; gen := g |}.

(** One pass over a loader: the batches of indices, and the generator after
    the sampler drew its permutation.  The base seed that building the
    iterator draws from the global generator is not modelled. *)
Definition iter (dl : DataLoader) (g : generator)
  : list (list nat) * generator :=
  let '(idxs, g) := sampler dl g in
  (batch_sampler (dl_batch_size dl) [] idxs, g).

Definition train_epoch (trainloader : DataLoader) (st : State)
  : result State :=
  let '(batches, g) := iter trainloader (gen st) in
  train_batches trainloader (with_gen st g) 0%R 0 batches.

(** [for epoch in range(num_epochs)] *)
Fixpoint training_loop (epochs : nat) (trainloader : DataLoader) (st : State)
  : result State :=
  match epochs with
  | O => Ok st
  | S epochs =>
      st <- train_epoch trainloader st ;;
      training_loop epochs trainloader st
  end.

(** ** Evaluation (cells 13, 14 and 15) *)

(** [predicted == labels] on two 1-D tensors *)
Definition tensor_eq (predicted labels : list nat) : result (list bool) :=
  if length predicted =? length labels
  then Ok (map2 Nat.eqb predicted labels)
  else Raise RuntimeError.

(** [.sum().item()] of a boolean tensor *)
Definition sum_item (c : list bool) : nat := count_occ bool_dec c true.

(** The body of the accuracy loops of cells 13 and 14. *)
Definition accuracy_batch (loader : DataLoader) (acc : State * nat * nat)
    (idxs : list nat) : result (State * nat * nat) :=
  let '(st, correct, total) := acc in
  '(images, labels, g) <- fetch (dataset loader) idxs (gen st) ;;
  let '(outputs, m, g) := forward (model st) images g in
  let predicted := argmax1 outputs in
  let total := total + length labels in
  c <- tensor_eq predicted labels ;;
  let correct := correct + sum_item c in
  Ok ({| model := m; optimizer := optimizer st;
         scheduler := scheduler st; gen := g |}, correct, total).

Fixpoint accuracy_batches (loader : DataLoader) (acc : State * nat * nat)
    (batches : list (list nat)) : result (State * nat * nat) :=
  match batches with
  | [] => Ok acc
  | idxs :: rest =>
      acc <- accuracy_batch loader acc idxs ;;
      accuracy_batches loader acc rest
  end.

(** [correct = 0; total = 0; with torch.no_grad(): for data in loader: ...];
    returns the state left behind and the two counters. *)
Definition accuracy (loader : DataLoader) (st : State)
  : result (State * nat * nat) :=
  let '(batches, g) := iter loader (gen st) in
  accuracy_batches loader (with_gen st g, 0, 0) batches.

(** The reported figure: [100 * correct / total]. *)
Definition percent (correct total : nat) : R :=
  (100 * INR correct / INR total)%R.

(** A boolean tensor after [.squeeze()]: 0-dimensional when it had exactly
    one element, 1-dimensional otherwise. *)
Inductive squeezed :=
| Dim0 (b : bool)
| Dim1 (l : list bool).

Definition squeeze (c : list bool) : squeezed :=
  match c with
  | [b] => Dim0 b
  | _ => Dim1 c
  end.

(** [c[i].item()]: indexing a 0-dimensional tensor is an error. *)
Definition squeezed_item (c : squeezed) (i : nat) : result nat :=
  match c with
  | Dim0 _ => Raise IndexError
  | Dim1 l =>
      match nth_error l i with
      | Some b => Ok (if b then 1 else 0)
      | None => Raise IndexError
      end
  end.

(** [l[i]] and [l[i] = v] on a Python list *)
Definition list_get {A} (l : list A) (i : nat) : result A :=
  match nth_error l i with
  | Some a => Ok a
  | None => Raise IndexError
  end.

Fixpoint list_set {A} (l : list A) (i : nat) (v : A) : list A :=
  match l, i with
  | [], _ => []
  | _ :: l, O => v :: l
  | a :: l, S i => a :: list_set l i v
  end.

(** The per-class counters are the floats [0., 1., 2., ...]: they are
    counted in [nat]. *)
Definition per_class_sample (labels : list nat) (c : squeezed)
    (acc : list nat * list nat) (i : nat) : result (list nat * list nat) :=
  let '(class_correct, class_total) := acc in
  label <- list_get labels i ;;
  old <- list_get class_correct label ;;
  ci <- squeezed_item c i ;;
  let class_correct := list_set class_correct label (old + ci) in
  old <- list_get class_total label ;;
  let class_total := list_set class_total label (old + 1) in
  Ok (class_correct, class_total).

(** [for i in range(batch_size)] *)
Fixpoint per_class_samples (labels : list nat) (c : squeezed)
    (acc : list nat * list nat) (range : list nat)
  : result (list nat * list nat) :=
  match range with
  | [] => Ok acc
  | i :: rest =>
      acc <- per_class_sample labels c acc i ;;
      per_class_samples labels c acc rest
  end.

Definition per_class_batch (loader : DataLoader)
    (acc : State * (list nat * list nat)) (idxs : list nat)
  : result (State * (list nat * list nat)) :=
  let '(st, counters) := acc in
  '(images, labels, g) <- fetch (dataset loader) idxs (gen st) ;;
  let '(outputs, m, g) := forward (model st) images g in
  let predicted := argmax1 outputs in
  c <- tensor_eq predicted labels ;;
  let c := squeeze c in
  counters <- per_class_samples labels c counters (seq 0 batch_size) ;;
  Ok ({| model := m; optimizer := optimizer st;
         scheduler := scheduler st; gen := g |}, counters).

Fixpoint per_class_batches (loader : DataLoader)
    (acc : State * (list nat * list nat)) (batches : list (list nat))
  : result (State * (list nat * list nat)) :=
  match batches with
  | [] => Ok acc
  | idxs :: rest =>
      acc <- per_class_batch loader acc idxs ;;
      per_class_batches loader acc rest
  end.

(** Cell 15; returns the state, [class_correct] and [class_total]. *)
Definition per_class_accuracy (loader : DataLoader) (st : State)
  : result (State * (list nat * list nat)) :=
  let class_correct := repeat 0 10 in
  let class_total := repeat 0 10 in
  let '(batches, g) := iter loader (gen st) in
  per_class_batches loader (with_gen st g, (class_correct, class_total))
    batches.

(** ** The notebook, cell after cell *)

Record Globals := {
  mean_trainset : stats;
  std_trainset : stats;
  trainloader : DataLoader;
  testloader : DataLoader;
  trained : State;
  train_correct : nat;
  train_total : nat;
  after_train_accuracy : State;
  test_correct : nat;
  test_total : nat;
  after_test_accuracy : State;
  class_correct : list nat;
  class_total : list nat;
  final : State
}.

(** The two loaders of cell 7.  Over an empty data set the constructor of
    the shuffling loader raises [ValueError]; the record stands for the
    loader of a non-empty one. *)
Definition make_trainloader (mean std : stats) (train_data : list sample)
  : DataLoader :=
  {| dataset := {| samples := train_data;
                   transform := train_transform mean std |};
     dl_batch_size := batch_size;
     shuffle := true |}.

Definition make_testloader (mean std : stats) (test_data : list sample)
  : DataLoader :=
  {| dataset := {| samples := test_data;
                   transform := test_transform mean std |};
     dl_batch_size := batch_size;
     shuffle := false |}.

(** Cells 9 and 11: the model, the optimizer and the scheduler.  The
    [summary] call of cell 9 only prints: it runs one forward pass in
    inference mode and puts the model's mode back.  Moving tensors with
    [.to(device)] changes no value. *)
Definition setup (trainloader : DataLoader) (init : nat -> list R)
    (g : generator) : result State :=
  let model := ResNet9_new init 3 10 in
  let optimizer := SGD_new lr momentum weight_decay in
  '(scheduler, optimizer) <-
     OneCycleLR_new optimizer 0.1%R (len trainloader) num_epochs ;;
  Ok {| model := model; optimizer := optimizer;
        scheduler := scheduler; gen := g |}.

(** [train_data] and [test_data] are the two splits of the dataset, [init]
    the initial values of the model's parameters, [g] the initial state of
    the random generator. *)
Definition notebook (train_data test_data : list sample)
    (init : nat -> list R) (g : generator) : result Globals :=
  let mean_trainset := np_mean_255 (map fst train_data) in
  let std_trainset := np_std_255 (map fst train_data) in
  let trainloader := make_trainloader mean_trainset std_trainset train_data in
  let testloader := make_testloader mean_trainset std_trainset test_data in
  st <- setup trainloader init g ;;
  st1 <- training_loop num_epochs trainloader st ;;
  '(st2, correct, total) <- accuracy trainloader st1 ;;
  '(st3, correct', total') <- accuracy testloader st2 ;;
  '(st4, (class_correct, class_total)) <-
     per_class_accuracy testloader st3 ;;
  Ok {| mean_trainset := mean_trainset;
        std_trainset := std_trainset;
        trainloader := trainloader;
        testloader := testloader;
        trained := st1;
        train_correct := correct;
        train_total := total;
        after_train_accuracy := st2;
        test_correct := correct';
        test_total := total';
        after_test_accuracy := st3;
        class_correct := class_correct;
        class_total := class_total;
        final := st4 |}.

(** ** Vocabulary of the properties *)

(** Every component of the gradient lies within [bound]. *)
Definition grad_within (bound : R) (q : Param) : Prop :=
  exists gr, grad q = Some gr /\
             Forall (fun x => (- bound <= x <= bound)%R) gr.

(** The indices of a batch are positions of the data set. *)
Definition valid_batch (ds : CIFAR10) (idxs : list nat) : Prop :=
  Forall (fun i => i < length (samples ds)) idxs.

(** The labels a batch of indices denotes. *)
Definition targets_of (ds : CIFAR10) (idxs : list nat) : list nat :=
  map (fun i => match nth_error (samples ds) i with
                | Some (_, target) => target
                | None => 0
                end) idxs.

(** The four dropout layers of the model. *)
Definition dropouts (m : ResNet9) : list Dropout :=
  [rdrop (res1 m); rdrop (res2 m);
   cdrop1 (classifier m); cdrop2 (classifier m)].

(** ** Further vocabulary: sizes, buffers, printed figures *)

(** Number of scalars of the parameters of a layer: a convolution has a
    weight of shape [(out, in, k, k)] and a bias of shape [(out)], a batch
    norm a weight and a bias of shape [(num_features)], a linear layer a
    weight of shape [(out, in)] and a bias of shape [(out)]. *)
Definition Conv2d_numel (m : Conv2d) : N :=
  (N.of_nat (out_channels m) * N.of_nat (in_channels m) *
   N.of_nat (kernel_size m) * N.of_nat (kernel_size m) +
   N.of_nat (out_channels m))%N.

Definition BatchNorm2d_numel (m : BatchNorm2d) : N :=
  (2 * N.of_nat (num_features m))%N.

Definition Linear_numel (m : Linear) : N :=
  (N.of_nat (out_features m) * N.of_nat (in_features m) +
   N.of_nat (out_features m))%N.

Definition ConvBlock_numel (m : ConvBlock) : N :=
  (Conv2d_numel (conv m) + BatchNorm2d_numel (bn m))%N.

Definition ResBlock_numel (m : ResBlock) : N :=
  (ConvBlock_numel (rb1 m) + ConvBlock_numel (rb2 m))%N.

(** The [Total params] figure of [summary(model, ...)]. *)
Definition total_params (m : ResNet9) : N :=
  (ConvBlock_numel (conv1 m) + ConvBlock_numel (conv2 m) +
   ResBlock_numel (res1 m) +
   ConvBlock_numel (conv3 m) + ConvBlock_numel (conv4 m) +
   ResBlock_numel (res2 m) +
   Linear_numel (fc1 (classifier m)) + Linear_numel (fc2 (classifier m)) +
   Linear_numel (fc3 (classifier m)))%N.

(** The [num_batches_tracked] buffers of the eight batch norms. *)
Definition batches_tracked (m : ResNet9) : list nat :=
  [num_batches_tracked (bn (conv1 m)); num_batches_tracked (bn (conv2 m));
   num_batches_tracked (bn (rb1 (res1 m)));
   num_batches_tracked (bn (rb2 (res1 m)));
   num_batches_tracked (bn (conv3 m)); num_batches_tracked (bn (conv4 m));
   num_batches_tracked (bn (rb1 (res2 m)));
   num_batches_tracked (bn (rb2 (res2 m)))].

(** The argument of a [print] of cells 13 to 15: a percentage, or the
    [ZeroDivisionError] of a division by a zero count. *)
Inductive printed :=
| Percent (x : R)
| ZeroDivisionError.

(** [100 * correct / total], and [100 * class_correct[i] / class_total[i]] *)
Definition report (correct total : nat) : printed :=
  if total =? 0 then ZeroDivisionError else Percent (percent correct total).

(** What the optimizer's parameter group holds: the values the scheduler
    computes for its current step index, and the weight decay. *)
Definition group_follows_schedule (st : State) : Prop :=
  group_lr (optimizer st) =
    get_lr (scheduler st) (last_epoch (scheduler st)) /\
  group_momentum (optimizer st) =
    get_momentum (scheduler st) (last_epoch (scheduler st)) /\
  group_weight_decay (optimizer st) = weight_decay.

(** [x] limited to [[-c, c]], in the words of the specification: a
    component of the range is kept, one outside it becomes the nearer end. *)
Definition limited (c x : R) : R :=
  if Rlt_dec c x then c else if Rlt_dec x (- c) then (- c)%R else x.

(** The two random transforms at the head of [train_transform]: the
    reflection-padded crop, then the flip. *)
Definition augment (img : image) (g : generator) : image * generator :=
  let '(img, g) := RandomCrop 32 4 img g in
  RandomHorizontalFlip img g.

(** What position [i] of a split contributes to a batch: in the train
    pipeline the normalised tensor of an augmented copy of the stored image,
    in the test pipeline the normalised tensor of the stored image. *)
Definition train_item (mean std : stats) (data : list sample) (i : nat)
    (x : tensor) : Prop :=
  exists img y g,
    nth_error data i = Some (img, y) /\
    x = Normalize mean std (ToTensor (fst (augment img g))).

Definition test_item (mean std : stats) (data : list sample) (i : nat)
    (x : tensor) : Prop :=
  exists img y,
    nth_error data i = Some (img, y) /\
    x = Normalize mean std (ToTensor img).

(** One batch as an accuracy loop scores it: the state the loop is in, the
    items fetched, their labels and the classes predicted for them. *)
Record scored := {
  sc_state : State;
  sc_items : list tensor;
  sc_labels : list nat;
  sc_predicted : list nat
}.

Definition scores (loader : DataLoader) (idxs : list nat) (b : scored)
  : Prop :=
  exists g,
    fetch_samples (dataset loader) idxs (gen (sc_state b)) =
      Ok (sc_items b, sc_labels b, g) /\
    sc_labels b = targets_of (dataset loader) idxs /\
    sc_predicted b =
      argmax1 (fst (fst (forward (model (sc_state b))
                           (collate (sc_items b)) g))).

(** The predictions of a scored batch that equal the label. *)
Definition hits (b : scored) : nat :=
  sum_item (map2 Nat.eqb (sc_predicted b) (sc_labels b)).

(** No class has more correct predictions than samples. *)
Definition counters_le (class_correct class_total : list nat) : Prop :=
  forall k, nth k class_correct 0 <= nth k class_total 0.

End Notebook.

(** ** A small executable framework

    Scores are integers, one row per sample; the convolution, normalisation
    and linear kernels are the identity, the generator is the tape of the
    coming dropout draws: on [true] a call of the dropout kernel zeroes its
    whole input, on [false] it keeps it.  It serves to run the notebook on
    concrete inputs. *)

Lemma map2_length {A B C} (f : A -> B -> C) (l1 : list A) (l2 : list B) :
  length l1 = length l2 -> length (map2 f l1 l2) = length l1.
Proof.
  revert l2. induction l1 as [|a l1 IH]; intros [|b l2] H; simpl in *;
    try discriminate; auto.
Qed.

Lemma bind_ok {A B} (r : result A) (k : A -> result B) (b : B) :
  bind r k = Ok b -> exists a, r = Ok a /\ k a = Ok b.
Proof. destruct r as [a|e]; cbn; [eauto | discriminate]. Qed.

Module Tiny.

Definition scores : Type := list (list Z).

Definition dropout_all (x : scores) (g : list bool) : scores * list bool :=
  match g with
  | true :: g => (map (map (fun _ => 0%Z)) x, g)
  | false :: g => (x, g)
  | [] => (x, [])
  end.

(** Index of the first maximum of a row. *)
Fixpoint argmax_from (best_i : nat) (best : Z) (i : nat) (row : list Z)
  : nat :=
  match row with
  | [] => best_i
  | x :: row =>
      if (best <? x)%Z then argmax_from i x (S i) row
      else argmax_from best_i best (S i) row
  end.

Definition argmax_row (row : list Z) : nat :=
  match row with
  | [] => 0
  | x :: row => argmax_from 0 x 1 row
  end.

Lemma dropout_all_length (x : scores) (g : list bool) :
  length (fst (dropout_all x g)) = length x.
Proof.
  destruct g as [|[|] g]; simpl; rewrite ?length_map; reflexivity.
Qed.

Definition torch : Torch :=
  {| tensor := scores;
     image := list Z;
     generator := list bool;
     size0 := @length (list Z);
     np_mean_255 := fun _ => [];
     np_std_255 := fun _ => [];
     RandomCrop := fun _ _ img g => (img, g);
     RandomHorizontalFlip := fun img g => (img, g);
     ToTensor := fun img => [img];
     Normalize := fun _ _ x => x;
     randperm := fun n g => (seq 0 n, g);
     collate := map (@concat Z);
     conv2d := fun _ _ x => x;
     batch_norm_batch := fun _ _ x => x;
     batch_norm_running := fun _ _ _ _ x => x;
     running_update := fun m v _ => (m, v);
     relu := map (map (Z.max 0));
     max_pool2d := fun _ x => x;
     flatten := fun x => x;
     linear := fun _ _ x => x;
     tadd := map2 (map2 Z.add);
     dropout_mask := fun _ => dropout_all;
     argmax1 := map argmax_row;
     cross_entropy := fun x _ => x;
     item := fun _ => 0%R;
     autograd := fun _ _ => [];
     randperm_perm := fun n _ => Permutation_refl (seq 0 n);
     size0_collate := length_map (@concat Z);
     size0_conv2d := fun _ _ _ => eq_refl;
     size0_bn_batch := fun _ _ _ => eq_refl;
     size0_bn_running := fun _ _ _ _ _ => eq_refl;
     size0_relu := length_map (map (Z.max 0));
     size0_max_pool2d := fun _ _ => eq_refl;
     size0_flatten := fun _ => eq_refl;
     size0_linear := fun _ _ _ => eq_refl;
     size0_tadd := map2_length (map2 Z.add);
     size0_dropout_mask := fun _ => dropout_all_length;
     length_argmax1 := length_map argmax_row |}.

(** *** Inputs for concrete runs *)

#[local] Existing Instance torch.

(** A picture whose scores favour class 1, labelled 1. *)
Definition picture : image := [0%Z; 5%Z].
Definition one : sample := (picture, 1).

Definition no_weights : nat -> list R := fun _ => [].

(** One test sample, and a model whose parameters nothing updates. *)
Definition one_sample_test : DataLoader := make_testloader [] [] [one].

Definition frozen (tape : list bool) : State :=
  {| model := ResNet9_new no_weights 3 10;
     optimizer := SGD_new lr momentum weight_decay;
     scheduler := {| total_steps := 1; max_lr := 0.1%R; last_epoch := 0 |};
     gen := tape |}.

(** One training sample and one full batch of test samples. *)
Definition small_train : list sample := [one].
Definition small_test : list sample := repeat one 100.

(** The scheduler of the run: 20,000 steps, peak 0.1. *)
Definition run_scheduler : OneCycleLR :=
  {| total_steps := 20000; max_lr := 0.1%R; last_epoch := 0 |}.

(** A test split with 1,000 samples of each of the ten classes. *)
Definition balanced_test : list sample :=
  flat_map (fun _ => map (fun k => (picture, k)) (seq 0 10)) (seq 0 1000).

End Tiny.

(** ** A small real-valued framework

    Tensors hold real numbers, one row per sample; pictures are rows of
    pixel values.  The statistics are the mean and the standard deviation of
    all pixels, the normalisation subtracts and divides by them, and the
    generator is a tape of draws: a [true] makes the crop shift the picture
    by one pixel, the flip reverse it, the sampler reverse the order of the
    indices and the dropout zero its input.  The backward pass gives every
    parameter the same three components. *)

Module Small.

Definition mean_of (l : list R) : R :=
  (fold_right Rplus 0 l / INR (length l))%R.

Definition pixels_mean (imgs : list (list R)) : R := mean_of (concat imgs).

Definition pixels_std (imgs : list (list R)) : R :=
  sqrt (mean_of (map (fun v => Rsqr (v - pixels_mean imgs)) (concat imgs))).

Definition draw {A} (g : list bool) (yes no : A) : A * list bool :=
  match g with
  | true :: g => (yes, g)
  | false :: g => (no, g)
  | [] => (no, [])
  end.

Definition shift (img : list R) : list R := tl img ++ firstn 1 img.

Fixpoint argmax_from (best_i : nat) (best : R) (i : nat) (row : list R)
  : nat :=
  match row with
  | [] => best_i
  | x :: row =>
      if Rlt_dec best x then argmax_from i x (S i) row
      else argmax_from best_i best (S i) row
  end.

Definition argmax_row (row : list R) : nat :=
  match row with
  | [] => 0
  | x :: row => argmax_from 0 x 1 row
  end.

Lemma draw_perm (n : nat) (g : list bool) :
  Permutation (fst (draw g (rev (seq 0 n)) (seq 0 n))) (seq 0 n).
Proof.
  destruct g as [|[|] g]; cbn [draw fst]; auto.
  symmetry. apply Permutation_rev.
Qed.

Lemma draw_length (x : list (list R)) (g : list bool) :
  length (fst (draw g (map (map (fun _ => 0%R)) x) x)) = length x.
Proof.
  destruct g as [|[|] g]; cbn [draw fst]; rewrite ?length_map; reflexivity.
Qed.

Definition torch : Torch :=
  {| tensor := list (list R);
     image := list R;
     generator := list bool;
     size0 := @length (list R);
     np_mean_255 := fun imgs => [(pixels_mean imgs / 255)%R];
     np_std_255 := fun imgs => [(pixels_std imgs / 255)%R];
     RandomCrop := fun _ _ img g => draw g (shift img) img;
     RandomHorizontalFlip := fun img g => draw g (rev img) img;
     ToTensor := fun img => [map (fun v => (v / 255)%R) img];
     Normalize := fun mean std x =>
       map (map (fun v => ((v - hd 0%R mean) / hd 1%R std)%R)) x;
     randperm := fun n g => draw g (rev (seq 0 n)) (seq 0 n);
     collate := map (@concat R);
     conv2d := fun _ _ x => x;
     batch_norm_batch := fun _ _ x => x;
     batch_norm_running := fun _ _ _ _ x => x;
     running_update := fun m v _ => (m, v);
     relu := map (map (Rmax 0));
     max_pool2d := fun _ x => x;
     flatten := fun x => x;
     linear := fun _ _ x => x;
     tadd := map2 (map2 Rplus);
     dropout_mask := fun _ x g => draw g (map (map (fun _ => 0%R)) x) x;
     argmax1 := map argmax_row;
     cross_entropy := fun x _ => x;
     item := fun _ => 0%R;
     autograd := fun _ _ => [0.5; -0.3; 0.05]%R;
     randperm_perm := draw_perm;
     size0_collate := length_map (@concat R);
     size0_conv2d := fun _ _ _ => eq_refl;
     size0_bn_batch := fun _ _ _ => eq_refl;
     size0_bn_running := fun _ _ _ _ _ => eq_refl;
     size0_relu := length_map (map (Rmax 0));
     size0_max_pool2d := fun _ _ => eq_refl;
     size0_flatten := fun _ => eq_refl;
     size0_linear := fun _ _ _ => eq_refl;
     size0_tadd := map2_length (map2 Rplus);
     size0_dropout_mask := fun _ => draw_length;
     length_argmax1 := length_map argmax_row |}.

(** *** Inputs for concrete runs *)

#[local] Existing Instance torch.

(** Four two-pixel pictures of two classes, and a test split of one full
    batch. *)
Definition train_split : list sample :=
  [([0; 255]%R, 1); ([255; 0]%R, 0); ([255; 0]%R, 0); ([0; 255]%R, 1)].

Definition test_split : list sample := repeat ([0; 255]%R, 1) 100.

Definition weights : nat -> list R := fun _ => [0.2; -0.1; 0.4]%R.

(** A tape long enough for the draws of a whole run. *)
Definition tape : list bool := concat (repeat [true; false; true] 400).

(** The state in which the first training step starts. *)
Definition start : State :=
  {| model := ResNet9_new weights 3 10;
     optimizer := SGD_new lr momentum weight_decay;
     scheduler := {| total_steps := 40; max_lr := 0.1%R; last_epoch := 0 |};
     gen := tape |}.

End Small.

(** * Properties *)

(** Comparisons of large literals are settled by evaluation. *)
Ltac nat_lit :=
  first [apply Nat.ltb_lt | apply Nat.leb_le]; vm_compute; reflexivity.

Section Properties.

Context {T : Torch}.

(** ** Shapes of the forward pass *)

Lemma conv_block_shape (init : nat -> list R) (k cin cout n h w : nat)
    (mp : bool) :
  0 < n -> 2 <= h -> 2 <= w ->
  ConvBlock_shape (conv_block init k cin cout mp) [n; cin; h; w] =
  Ok (if mp then [n; cout; h / 2; w / 2] else [n; cout; h; w]).
Proof.
  intros Hn Hh Hw. unfold ConvBlock_shape, Conv2d_shape, conv_out.
  cbn [conv_block conv bn pool in_channels out_channels
       kernel_size padding].
  rewrite Nat.eqb_refl.
  destruct (Nat.ltb_spec (h + 2 * 1) 3); [lia|].
  destruct (Nat.ltb_spec (w + 2 * 1) 3); [lia|].
  cbn [bind].
  replace (h + 2 * 1 - 3 + 1) with h by lia.
  replace (w + 2 * 1 - 3 + 1) with w by lia.
  unfold BatchNorm2d_shape, BatchNorm2d_new.
  cbn [num_features bn_training]. rewrite Nat.eqb_refl. cbn [negb andb].
  destruct (Nat.leb_spec (n * h * w) 1); [nia|].
  cbn [bind]. destruct mp; [|reflexivity].
  unfold MaxPool2d_shape.
  assert (0 < h / 2) by (apply Nat.div_str_pos; lia).
  assert (0 < w / 2) by (apply Nat.div_str_pos; lia).
  destruct (Nat.eqb_spec (h / 2) 0); [lia|].
  destruct (Nat.eqb_spec (w / 2) 0); [lia|].
  reflexivity.
Qed.

(** Whatever the size [n >= 1] of the batch, full or ragged, the scores of a
    batch of [n] pictures of shape 3x32x32 have shape [(n, 10)] and no layer
    raises a shape error. *)
Lemma forward_shape_any_batch (init : nat -> list R) (n : nat) :
  0 < n ->
  forward_shape (ResNet9_new init 3 10) [n; 3; 32; 32] = Ok [n; 10].
Proof.
  intros Hn. unfold forward_shape, ResBlock_shape, ResNet9_new.
  cbn [conv1 conv2 res1 conv3 conv4 res2 classifier rb1 rb2].
  do 4 (rewrite conv_block_shape by (cbn; lia);
        cbv beta iota delta [bind]).
  unfold add_shape at 1.
  destruct (list_eq_dec Nat.eq_dec [n; 128; 32 / 2; 32 / 2]
              [n; 128; 32 / 2; 32 / 2]) as [_|N]; [|congruence].
  do 4 (rewrite conv_block_shape by (cbn; lia);
        cbv beta iota delta [bind]).
  unfold add_shape.
  destruct (list_eq_dec Nat.eq_dec [n; 512; 32 / 2 / 2 / 2; 32 / 2 / 2 / 2]
              [n; 512; 32 / 2 / 2 / 2; 32 / 2 / 2 / 2]) as [_|N];
    [|congruence].
  reflexivity.
Qed.

(** ** The forward pass: parameters, mode flags, batch dimension *)

Lemma ConvBlock_forward_parameters (m : ConvBlock) (x : tensor) :
  ConvBlock_parameters (snd (ConvBlock_forward m x)) = ConvBlock_parameters m.
Proof.
  unfold ConvBlock_forward, BatchNorm2d_forward.
  destruct (bn_training (bn m)); [destruct running_update|]; reflexivity.
Qed.

Lemma ConvBlock_forward_training (m : ConvBlock) (x : tensor) :
  bn_training (bn (snd (ConvBlock_forward m x))) = bn_training (bn m).
Proof.
  unfold ConvBlock_forward, BatchNorm2d_forward.
  destruct (bn_training (bn m)) eqn:E; [destruct running_update|];
    simpl; auto.
Qed.

Lemma ConvBlock_forward_size0 (m : ConvBlock) (x : tensor) :
  size0 (fst (ConvBlock_forward m x)) = size0 x.
Proof.
  unfold ConvBlock_forward, BatchNorm2d_forward, Conv2d_forward.
  destruct (bn_training (bn m)); [destruct running_update|]; simpl;
    destruct (pool m);
    rewrite ?size0_max_pool2d, ?size0_relu, ?size0_bn_batch,
      ?size0_bn_running, ?size0_conv2d; reflexivity.
Qed.

Lemma Dropout_forward_size0 (m : Dropout) (x : tensor) (g : generator) :
  size0 (fst (Dropout_forward m x g)) = size0 x.
Proof.
  unfold Dropout_forward.
  destruct (drop_training m); [apply size0_dropout_mask | reflexivity].
Qed.

Lemma ResBlock_forward_spec (m : ResBlock) (x : tensor) (g : generator) :
  let '(out, m', g') := ResBlock_forward m x g in
  size0 out = size0 x /\
  ResBlock_parameters m' = ResBlock_parameters m /\
  bn_training (bn (rb1 m')) = bn_training (bn (rb1 m)) /\
  bn_training (bn (rb2 m')) = bn_training (bn (rb2 m)) /\
  rdrop m' = rdrop m.
Proof.
  unfold ResBlock_forward, ResBlock_parameters.
  pose proof (ConvBlock_forward_parameters (rb1 m) x) as P1.
  pose proof (ConvBlock_forward_training (rb1 m) x) as F1.
  pose proof (ConvBlock_forward_size0 (rb1 m) x) as S1.
  destruct (ConvBlock_forward (rb1 m) x) as [o1 b1]; cbn [fst snd] in P1, F1, S1.
  pose proof (ConvBlock_forward_parameters (rb2 m) o1) as P2.
  pose proof (ConvBlock_forward_training (rb2 m) o1) as F2.
  pose proof (ConvBlock_forward_size0 (rb2 m) o1) as S2.
  destruct (ConvBlock_forward (rb2 m) o1) as [o2 b2]; cbn [fst snd] in P2, F2, S2.
  pose proof (Dropout_forward_size0 (rdrop m) o2 g) as S3.
  destruct (Dropout_forward (rdrop m) o2 g) as [o3 g3].
  cbn [fst snd rb1 rb2 rdrop] in *.
  repeat split; congruence.
Qed.

Lemma Classifier_forward_size0 (m : Classifier) (x : tensor) (g : generator) :
  size0 (fst (Classifier_forward m x g)) = size0 x.
Proof.
  unfold Classifier_forward, Linear_forward.
  pose proof (Dropout_forward_size0 (cdrop1 m) x g) as S1.
  destruct (Dropout_forward (cdrop1 m) x g) as [o1 g1]; simpl in S1.
  match goal with
  | |- context [Dropout_forward (cdrop2 m) ?y g1] =>
      pose proof (Dropout_forward_size0 (cdrop2 m) y g1) as S2;
      destruct (Dropout_forward (cdrop2 m) y g1) as [o2 g2]
  end.
  simpl in *.
  rewrite size0_linear, S2, size0_relu, size0_linear, size0_relu,
    size0_linear, size0_flatten, size0_max_pool2d.
  exact S1.
Qed.

(** A forward pass returns one row of scores per sample, changes no
    parameter and no mode flag (it may update the batch-norm buffers and
    advance the generator). *)
Lemma forward_spec (m : ResNet9) (x : tensor) (g : generator) :
  let '(out, m', g') := forward m x g in
  size0 out = size0 x /\
  parameters m' = parameters m /\
  training_flags m' = training_flags m.
Proof.
  unfold forward, parameters, training_flags.
  pose proof (ConvBlock_forward_parameters (conv1 m) x) as P1.
  pose proof (ConvBlock_forward_training (conv1 m) x) as F1.
  pose proof (ConvBlock_forward_size0 (conv1 m) x) as S1.
  destruct (ConvBlock_forward (conv1 m) x) as [o1 c1]; cbn [fst snd] in P1, F1, S1.
  pose proof (ConvBlock_forward_parameters (conv2 m) o1) as P2.
  pose proof (ConvBlock_forward_training (conv2 m) o1) as F2.
  pose proof (ConvBlock_forward_size0 (conv2 m) o1) as S2.
  destruct (ConvBlock_forward (conv2 m) o1) as [o2 c2]; cbn [fst snd] in P2, F2, S2.
  pose proof (ResBlock_forward_spec (res1 m) o2 g) as R1.
  destruct (ResBlock_forward (res1 m) o2 g) as [[o3 r1] g3].
  destruct R1 as (S3 & P3 & F3 & F3' & D3).
  pose proof (ConvBlock_forward_parameters (conv3 m) (tadd o3 o2)) as P4.
  pose proof (ConvBlock_forward_training (conv3 m) (tadd o3 o2)) as F4.
  pose proof (ConvBlock_forward_size0 (conv3 m) (tadd o3 o2)) as S4.
  destruct (ConvBlock_forward (conv3 m) (tadd o3 o2)) as [o4 c3];
    cbn [fst snd] in P4, F4, S4.
  pose proof (ConvBlock_forward_parameters (conv4 m) o4) as P5.
  pose proof (ConvBlock_forward_training (conv4 m) o4) as F5.
  pose proof (ConvBlock_forward_size0 (conv4 m) o4) as S5.
  destruct (ConvBlock_forward (conv4 m) o4) as [o5 c4]; cbn [fst snd] in P5, F5, S5.
  pose proof (ResBlock_forward_spec (res2 m) o5 g3) as R2.
  destruct (ResBlock_forward (res2 m) o5 g3) as [[o6 r2] g6].
  destruct R2 as (S6 & P6 & F6 & F6' & D6).
  pose proof (Classifier_forward_size0 (classifier m) (tadd o6 o5) g6) as S7.
  destruct (Classifier_forward (classifier m) (tadd o6 o5) g6) as [o7 g7].
  cbn [fst snd conv1 conv2 res1 conv3 conv4 res2 classifier] in *.
  rewrite size0_tadd in S4 by congruence.
  rewrite size0_tadd in S7 by congruence.
  repeat split; congruence.
Qed.

Lemma parameters_map (f : Param -> Param) (m : ResNet9) :
  parameters (map_parameters f m) = map f (parameters m).
Proof. reflexivity. Qed.

Lemma training_flags_map (f : Param -> Param) (m : ResNet9) :
  training_flags (map_parameters f m) = training_flags m.
Proof. reflexivity. Qed.

(** ** Gradient clipping *)

Lemma Rfloor_eq (x : R) (z : Z) :
  (IZR z <= x < IZR z + 1)%R -> Rfloor x = z.
Proof.
  intros [H1 H2]. unfold Rfloor.
  rewrite <- (up_tech x z H1); [lia|]. rewrite plus_IZR. exact H2.
Qed.

Lemma float32_opp (x : R) : float32 (- x) = (- float32 x)%R.
Proof.
  unfold float32.
  destruct (Req_dec_T x 0) as [->|Hx].
  - rewrite Ropp_0. destruct (Req_dec_T 0 0); [lra|contradiction].
  - destruct (Req_dec_T (- x) 0) as [E|_]; [lra|].
    rewrite Rabs_Ropp.
    destruct (Rlt_dec (- x) 0), (Rlt_dec x 0); lra.
Qed.

(** The clip value as the gradients see it: [0x3DCCCCCD], a little above
    one tenth. *)
Lemma float32_grad_clip :
  float32 grad_clip = (13421773 / 134217728)%R.
Proof.
  unfold float32, grad_clip.
  destruct (Req_dec_T 0.1 0) as [E|_]; [lra|].
  rewrite Rabs_pos_eq by lra.
  assert (L2 : (0 < ln 2)%R) by (pose proof ln_lt_2; lra).
  assert (E4 : Rfloor (ln 0.1 / ln 2) = (-4)%Z).
  { apply Rfloor_eq.
    assert (H16 : ln (/ 16) = (-4 * ln 2)%R).
    { rewrite ln_Rinv by lra. replace 16%R with (2 ^ 4)%R by lra.
      rewrite ln_pow by lra. simpl. lra. }
    assert (H8 : ln (/ 8) = (-3 * ln 2)%R).
    { rewrite ln_Rinv by lra. replace 8%R with (2 ^ 3)%R by lra.
      rewrite ln_pow by lra. simpl. lra. }
    assert (A : (ln (/ 16) < ln 0.1)%R) by (apply ln_increasing; lra).
    assert (B : (ln 0.1 < ln (/ 8))%R) by (apply ln_increasing; lra).
    rewrite H16 in A. rewrite H8 in B.
    split.
    - apply Rmult_le_reg_r with (ln 2); [exact L2|].
      unfold Rdiv. rewrite Rmult_assoc, Rinv_l by lra. lra.
    - apply Rmult_lt_reg_r with (ln 2); [exact L2|].
      unfold Rdiv. rewrite Rmult_assoc, Rinv_l by lra. lra. }
  rewrite E4. change (Z.max (-126) (-4) - 23)%Z with (-27)%Z.
  assert (P : powerRZ 2 (-27) = (/ 134217728)%R).
  { unfold powerRZ. f_equal. change (Pos.to_nat 27) with 27. simpl. lra. }
  rewrite P.
  assert (N : nearest_even (0.1 / / 134217728) = 13421773%Z).
  { unfold nearest_even.
    assert (F : Rfloor (0.1 / / 134217728) = 13421772%Z).
    { apply Rfloor_eq. unfold Rdiv. rewrite Rinv_inv. lra. }
    rewrite F.
    destruct (Rlt_dec _ _) as [H|_].
    { unfold Rdiv in H. rewrite Rinv_inv in H. lra. }
    destruct (Rlt_dec _ _) as [_|H]; [reflexivity|].
    exfalso. apply H. unfold Rdiv. rewrite Rinv_inv. lra. }
  rewrite N.
  destruct (Rlt_dec 0.1 0); lra.
Qed.

Lemma clamp_bounds (c x : R) :
  (0 <= float32 c)%R ->
  (- float32 c <= clamp (- c) c x <= float32 c)%R.
Proof.
  intros Hc. unfold clamp. rewrite float32_opp. split.
  - apply Rmin_glb; [apply Rmax_r | lra].
  - apply Rmin_r.
Qed.

Lemma clip_after_backward (loss : tensor) (q : Param) :
  grad_within (float32 grad_clip)
    (clip_param grad_clip (accumulate loss (set_grad None q))).
Proof.
  unfold clip_param, accumulate, set_grad, grad_within. cbn [grad pid data].
  eexists. split; [reflexivity|].
  apply Forall_map, Forall_forall. intros x _.
  apply clamp_bounds. rewrite float32_grad_clip. lra.
Qed.

Lemma forward_backward_spec (m : ResNet9) (x : tensor) (labels : list nat)
    (g : generator) :
  let '(loss, m', g') := forward_backward m x labels g in
  Forall (grad_within (float32 grad_clip)) (parameters m') /\
  map data (parameters m') = map data (parameters m) /\
  map pid (parameters m') = map pid (parameters m) /\
  training_flags m' = training_flags m.
Proof.
  unfold forward_backward.
  pose proof (forward_spec m x g) as F.
  destruct (forward m x g) as [[out m1] g1]. destruct F as (_ & P & Fl).
  destruct (Req_dec_T grad_clip 0) as [E|_].
  { unfold grad_clip in E. lra. }
  unfold clip_grad_value_, backward, zero_grad.
  rewrite !parameters_map, !training_flags_map, !map_map, P.
  split; [|split; [reflexivity|split; [reflexivity|exact Fl]]].
  apply Forall_map, Forall_forall. intros q _. apply clip_after_backward.
Qed.

(** ** The data loader *)

Lemma batch_sampler_concat (bs : nat) (idxs batch : list nat) :
  concat (batch_sampler bs batch idxs) = batch ++ idxs.
Proof.
  revert batch. induction idxs as [|idx rest IH]; intros batch; simpl.
  - destruct batch; simpl; [reflexivity | now rewrite app_nil_r].
  - destruct (length (batch ++ [idx]) =? bs); simpl; rewrite IH;
      rewrite <- app_assoc; reflexivity.
Qed.

Lemma batch_sampler_length (bs : nat) (idxs batch : list nat) :
  length batch < bs ->
  length (batch_sampler bs batch idxs) =
  (length batch + length idxs + bs - 1) / bs.
Proof.
  revert batch. induction idxs as [|idx rest IH]; intros batch Hb;
    cbn [batch_sampler].
  - destruct batch as [|b batch]; cbn [length] in *.
    + rewrite Nat.div_small; lia.
    + apply Nat.div_unique with (r := length batch); lia.
  - destruct (Nat.eqb_spec (length (batch ++ [idx])) bs) as [E|E];
      rewrite length_app in E; cbn [length] in *.
    + rewrite IH by (cbn [length]; lia). cbn [length].
      replace (length batch + S (length rest) + bs - 1)
        with (1 * bs + (0 + length rest + bs - 1)) by lia.
      rewrite Nat.div_add_l by lia. reflexivity.
    + rewrite IH by (rewrite length_app; cbn [length]; lia).
      rewrite length_app. cbn [length]. f_equal. lia.
Qed.

Lemma batch_sampler_full (bs : nat) (idxs batch : list nat) :
  length batch < bs ->
  (length batch + length idxs) mod bs = 0 ->
  Forall (fun b => length b = bs) (batch_sampler bs batch idxs).
Proof.
  revert batch. induction idxs as [|idx rest IH]; intros batch Hb Hm; simpl.
  - rewrite Nat.add_0_r, Nat.mod_small in Hm by lia.
    destruct batch; [constructor | discriminate].
  - simpl in Hm.
    destruct (Nat.eqb_spec (length (batch ++ [idx])) bs) as [E|E].
    + constructor; [exact E|]. rewrite length_app in E. simpl in E.
      apply IH; [simpl; lia|]. simpl.
      replace (length batch + S (length rest))
        with (length rest + 1 * bs) in Hm by lia.
      rewrite Nat.Div0.mod_add in Hm. exact Hm.
    + rewrite length_app in E. simpl in E.
      apply IH; rewrite length_app; simpl; [lia|].
      rewrite <- Hm. f_equal. lia.
Qed.

Lemma batch_sampler_ragged (bs : nat) (idxs batch : list nat) :
  length batch < bs ->
  (length batch + length idxs) mod bs <> 0 ->
  Exists (fun b => length b < bs) (batch_sampler bs batch idxs).
Proof.
  revert batch. induction idxs as [|idx rest IH]; intros batch Hb Hm; simpl.
  - rewrite Nat.add_0_r in Hm.
    destruct batch as [|b batch]; [simpl in Hm|].
    + rewrite Nat.Div0.mod_0_l in Hm. congruence.
    + constructor. exact Hb.
  - simpl in Hm.
    destruct (Nat.eqb_spec (length (batch ++ [idx])) bs) as [E|E].
    + apply Exists_cons_tl. rewrite length_app in E. simpl in E.
      apply IH; [simpl; lia|]. simpl.
      replace (length batch + S (length rest))
        with (length rest + 1 * bs) in Hm by lia.
      rewrite Nat.Div0.mod_add in Hm. exact Hm.
    + rewrite length_app in E. simpl in E.
      apply IH; rewrite length_app; simpl; [lia|].
      intros H. apply Hm. rewrite <- H. f_equal. lia.
Qed.

(** The indices of one pass are a permutation of the positions of the
    data set. *)
Lemma sampler_perm (dl : DataLoader) (g : generator) :
  Permutation (fst (sampler dl g)) (seq 0 (length (samples (dataset dl)))).
Proof.
  unfold sampler. destruct (shuffle dl); [apply randperm_perm | reflexivity].
Qed.

Lemma iter_perm (dl : DataLoader) (g : generator) :
  Permutation (concat (fst (iter dl g)))
    (seq 0 (length (samples (dataset dl)))).
Proof.
  unfold iter. pose proof (sampler_perm dl g) as P.
  destruct (sampler dl g) as [idxs g']. cbn [fst] in *.
  now rewrite batch_sampler_concat.
Qed.

Lemma iter_valid (dl : DataLoader) (g : generator) :
  Forall (valid_batch (dataset dl)) (fst (iter dl g)).
Proof.
  pose proof (iter_perm dl g) as P.
  apply Forall_forall. intros b Hb. apply Forall_forall. intros i Hi.
  assert (In i (concat (fst (iter dl g)))) as Hin
    by (apply in_concat; eauto).
  apply (Permutation_in _ P), in_seq in Hin. lia.
Qed.

Lemma iter_length (dl : DataLoader) (g : generator) :
  0 < dl_batch_size dl -> length (fst (iter dl g)) = len dl.
Proof.
  intros Hbs. unfold iter. pose proof (sampler_perm dl g) as P.
  destruct (sampler dl g) as [idxs g']. cbn [fst] in *.
  rewrite batch_sampler_length by (cbn [length]; lia). unfold len.
  cbn [length]. now rewrite (Permutation_length P), length_seq.
Qed.

Lemma fetch_samples_ok (ds : CIFAR10) (idxs : list nat) (g : generator) :
  valid_batch ds idxs ->
  exists xs g',
    fetch_samples ds idxs g = Ok (xs, targets_of ds idxs, g') /\
    length xs = length idxs.
Proof.
  revert g. induction idxs as [|i rest IH]; intros g Hv; simpl.
  - exists [], g. split; reflexivity.
  - inversion Hv as [|? ? Hi Hrest]; subst.
    unfold getitem.
    destruct (nth_error (samples ds) i) as [[img y]|] eqn:E.
    2:{ apply nth_error_None in E. lia. }
    destruct (transform ds img g) as [x g1]. simpl.
    destruct (IH g1 Hrest) as (xs & g' & -> & L). simpl.
    exists (x :: xs), g'. split; [reflexivity | simpl; congruence].
Qed.

Lemma fetch_ok (ds : CIFAR10) (idxs : list nat) (g : generator) :
  valid_batch ds idxs ->
  exists images g',
    fetch ds idxs g = Ok (images, targets_of ds idxs, g') /\
    size0 images = length idxs.
Proof.
  intros Hv. unfold fetch.
  destruct (fetch_samples_ok g Hv) as (xs & g' & -> & L). simpl.
  exists (collate xs), g'. split; [reflexivity|].
  now rewrite size0_collate.
Qed.

Lemma targets_of_length (ds : CIFAR10) (idxs : list nat) :
  length (targets_of ds idxs) = length idxs.
Proof. apply length_map. Qed.

Lemma targets_of_app (ds : CIFAR10) (l1 l2 : list nat) :
  targets_of ds (l1 ++ l2) = targets_of ds l1 ++ targets_of ds l2.
Proof. apply map_app. Qed.

Lemma targets_of_seq (ds : CIFAR10) :
  targets_of ds (seq 0 (length (samples ds))) = map snd (samples ds).
Proof.
  unfold targets_of. generalize (samples ds) as l.
  induction l as [|[img y] l IH]; simpl; [reflexivity|].
  f_equal. rewrite <- seq_shift, map_map. exact IH.
Qed.

(** ** The training loop *)

Lemma train_batch_inv (tl : DataLoader) (st st' : State) (rl rl' : R)
    (i : nat) (idxs : list nat) :
  train_batch tl st rl i idxs = Ok (st', rl') ->
  exists inputs labels g loss m g',
    fetch (dataset tl) idxs (gen st) = Ok (inputs, labels, g) /\
    forward_backward (model st) inputs labels g = (loss, m, g') /\
    model st' = snd (SGD_step (optimizer st) m) /\
    scheduler_step (scheduler st) (fst (SGD_step (optimizer st) m)) =
      Ok (scheduler st', optimizer st') /\
    gen st' = g'.
Proof.
  unfold train_batch. intros H.
  destruct (fetch (dataset tl) idxs (gen st)) as [[[inputs labels] g]|e];
    [|discriminate].
  cbn [bind] in H.
  destruct (forward_backward (model st) inputs labels g) as [[loss m] g']
    eqn:FB.
  destruct (SGD_step (optimizer st) m) as [o m'] eqn:SG.
  destruct (scheduler_step (scheduler st) o) as [[s o']|e] eqn:SS;
    [|discriminate].
  cbn [bind] in H. injection H as <- _.
  exists inputs, labels, g, loss, m, g'. rewrite SG. cbn. auto.
Qed.

Lemma scheduler_step_ok (s : OneCycleLR) (o : SGD) :
  last_epoch s < total_steps s ->
  exists s' o',
    scheduler_step s o = Ok (s', o') /\
    last_epoch s' = S (last_epoch s) /\
    total_steps s' = total_steps s /\
    max_lr s' = max_lr s /\
    group_lr o' = get_lr s' (last_epoch s').
Proof.
  intros H. unfold scheduler_step.
  destruct (Nat.ltb_spec (total_steps s) (S (last_epoch s))); [lia|].
  do 2 eexists. split; [reflexivity|]. cbn. auto.
Qed.

Lemma train_batch_ok (tl : DataLoader) (st : State) (rl : R) (i : nat)
    (idxs : list nat) :
  valid_batch (dataset tl) idxs ->
  last_epoch (scheduler st) < total_steps (scheduler st) ->
  exists st' rl',
    train_batch tl st rl i idxs = Ok (st', rl') /\
    last_epoch (scheduler st') = S (last_epoch (scheduler st)) /\
    total_steps (scheduler st') = total_steps (scheduler st) /\
    max_lr (scheduler st') = max_lr (scheduler st) /\
    training_flags (model st') = training_flags (model st).
Proof.
  intros Hv Hs. unfold train_batch.
  destruct (fetch_ok (gen st) Hv) as (inputs & g & -> & _). cbn [bind].
  pose proof (forward_backward_spec (model st) inputs
                (targets_of (dataset tl) idxs) g) as FB.
  destruct (forward_backward _ _ _ g) as [[loss m] g'].
  destruct FB as (_ & _ & _ & Fl).
  unfold SGD_step.
  match goal with
  | |- context [scheduler_step (scheduler st) ?o] =>
      destruct (@scheduler_step_ok (scheduler st) o Hs)
        as (s' & o' & -> & L & Tt & Mx & _)
  end.
  cbn [bind]. do 2 eexists. split; [reflexivity|]. cbn.
  rewrite training_flags_map. auto.
Qed.

Lemma train_batches_ok (tl : DataLoader) (batches : list (list nat)) :
  forall (st : State) (rl : R) (i : nat),
  Forall (valid_batch (dataset tl)) batches ->
  last_epoch (scheduler st) + length batches <= total_steps (scheduler st) ->
  exists st',
    train_batches tl st rl i batches = Ok st' /\
    last_epoch (scheduler st') = last_epoch (scheduler st) + length batches /\
    total_steps (scheduler st') = total_steps (scheduler st) /\
    max_lr (scheduler st') = max_lr (scheduler st) /\
    training_flags (model st') = training_flags (model st).
Proof.
  induction batches as [|idxs rest IH]; intros st rl i Hv Hs;
    cbn [train_batches length] in *.
  - exists st. repeat split; auto.
  - inversion Hv as [|? ? Hi Hrest]; subst.
    destruct (@train_batch_ok tl st rl i idxs Hi)
      as (st1 & rl1 & -> & L & Tt & Mx & Fl); [lia|].
    cbn [bind].
    destruct (IH st1 rl1 (S i) Hrest) as (st' & -> & L' & Tt' & Mx' & Fl');
      [lia|].
    exists st'. repeat split; try congruence. lia.
Qed.

Lemma train_epoch_ok (tl : DataLoader) (st : State) :
  0 < dl_batch_size tl ->
  last_epoch (scheduler st) + len tl <= total_steps (scheduler st) ->
  exists st',
    train_epoch tl st = Ok st' /\
    last_epoch (scheduler st') = last_epoch (scheduler st) + len tl /\
    total_steps (scheduler st') = total_steps (scheduler st) /\
    max_lr (scheduler st') = max_lr (scheduler st) /\
    training_flags (model st') = training_flags (model st).
Proof.
  intros Hbs Hs. unfold train_epoch.
  pose proof (iter_valid tl (gen st)) as Hv.
  pose proof (iter_length tl (gen st) Hbs) as Hl.
  destruct (iter tl (gen st)) as [batches g]. cbn [fst] in *.
  destruct (@train_batches_ok tl batches (with_gen st g) 0%R 0 Hv)
    as (st' & E & H); [cbn; lia|].
  exists st'. rewrite Hl in H. auto.
Qed.

Lemma training_loop_ok (tl : DataLoader) (epochs : nat) :
  forall st : State,
  0 < dl_batch_size tl ->
  last_epoch (scheduler st) + epochs * len tl <= total_steps (scheduler st) ->
  exists st',
    training_loop epochs tl st = Ok st' /\
    last_epoch (scheduler st') = last_epoch (scheduler st) + epochs * len tl /\
    total_steps (scheduler st') = total_steps (scheduler st) /\
    max_lr (scheduler st') = max_lr (scheduler st) /\
    training_flags (model st') = training_flags (model st).
Proof.
  induction epochs as [|epochs IH]; intros st Hbs Hs;
    cbn [training_loop] in *.
  - exists st. repeat split; auto.
  - destruct (@train_epoch_ok tl st Hbs) as (st1 & -> & L & Tt & Mx & Fl);
      [lia|].
    cbn [bind].
    destruct (IH st1 Hbs) as (st' & -> & L' & Tt' & Mx' & Fl'); [lia|].
    exists st'. repeat split; try congruence. lia.
Qed.

(** ** The accuracy loops of cells 13 and 14 *)

Lemma predicted_length (m : ResNet9) (images : tensor) (g : generator) :
  length (argmax1 (fst (fst (forward m images g)))) = size0 images.
Proof.
  rewrite length_argmax1. pose proof (forward_spec m images g) as F.
  destruct (forward m images g) as [[out m'] g']. apply F.
Qed.

Lemma accuracy_batch_ok (loader : DataLoader) (st : State)
    (correct total : nat) (idxs : list nat) :
  valid_batch (dataset loader) idxs ->
  exists st' correct',
    accuracy_batch loader (st, correct, total) idxs =
      Ok (st', correct', total + length idxs) /\
    parameters (model st') = parameters (model st) /\
    training_flags (model st') = training_flags (model st) /\
    scheduler st' = scheduler st.
Proof.
  intros Hv. unfold accuracy_batch.
  destruct (fetch_ok (gen st) Hv) as (images & g & -> & Sz). cbn [bind].
  pose proof (predicted_length (model st) images g) as Lp.
  pose proof (forward_spec (model st) images g) as F.
  destruct (forward (model st) images g) as [[out m'] g'].
  destruct F as (_ & P & Fl). cbn [fst] in Lp.
  unfold tensor_eq. rewrite Lp, Sz, targets_of_length, Nat.eqb_refl.
  cbn [bind]. do 2 eexists. split; [reflexivity|]. cbn. auto.
Qed.

Lemma accuracy_batches_ok (loader : DataLoader) (batches : list (list nat)) :
  forall (st : State) (correct total : nat),
  Forall (valid_batch (dataset loader)) batches ->
  exists st' correct',
    accuracy_batches loader (st, correct, total) batches =
      Ok (st', correct', total + length (concat batches)) /\
    parameters (model st') = parameters (model st) /\
    training_flags (model st') = training_flags (model st) /\
    scheduler st' = scheduler st.
Proof.
  induction batches as [|idxs rest IH]; intros st correct total Hv;
    cbn [accuracy_batches concat].
  - exists st, correct. rewrite Nat.add_0_r. auto.
  - inversion Hv as [|? ? Hi Hrest]; subst.
    destruct (@accuracy_batch_ok loader st correct total idxs Hi)
      as (st1 & c1 & -> & P & Fl & Sc).
    cbn [bind].
    destruct (IH st1 c1 (total + length idxs) Hrest)
      as (st' & c' & -> & P' & Fl' & Sc').
    exists st', c'. rewrite length_app, Nat.add_assoc.
    repeat split; congruence.
Qed.

(** Any pass of cell 13 or 14 over any loader returns, counts every sample
    of the data set once, and leaves the parameters and the mode flags as
    they were. *)
Lemma accuracy_ok (loader : DataLoader) (st : State) :
  exists st' correct,
    accuracy loader st =
      Ok (st', correct, length (samples (dataset loader))) /\
    parameters (model st') = parameters (model st) /\
    training_flags (model st') = training_flags (model st) /\
    scheduler st' = scheduler st.
Proof.
  unfold accuracy.
  pose proof (iter_valid loader (gen st)) as Hv.
  pose proof (iter_perm loader (gen st)) as Hp.
  destruct (iter loader (gen st)) as [batches g]. cbn [fst] in *.
  destruct (@accuracy_batches_ok loader batches (with_gen st g) 0 0 Hv)
    as (st' & c & E & H).
  exists st', c.
  rewrite (Permutation_length Hp), length_seq in E. auto.
Qed.

(** ** The per-class loop of cell 15 *)

Lemma list_set_length {A} (l : list A) (i : nat) (v : A) :
  length (list_set l i v) = length l.
Proof.
  revert i. induction l as [|a l IH]; intros [|i]; simpl; auto.
Qed.

Lemma list_set_nth {A} (l : list A) (i k : nat) (v d : A) :
  i < length l ->
  nth k (list_set l i v) d = if k =? i then v else nth k l d.
Proof.
  revert i k. induction l as [|a l IH]; intros [|i] [|k] H; simpl in *;
    try lia; auto.
  apply IH. lia.
Qed.

Lemma list_get_ok {A} (l : list A) (i : nat) (d : A) :
  i < length l -> list_get l i = Ok (nth i l d).
Proof.
  intros H. unfold list_get.
  destruct (nth_error l i) eqn:E.
  - now rewrite (nth_error_nth _ _ d E).
  - apply nth_error_None in E. lia.
Qed.

(** The inner loop over a full batch adds one to the total of the class of
    every sample. *)
Lemma per_class_samples_ok (c0 : list bool) (todo : list nat) :
  forall (done class_correct class_total : list nat),
  length c0 = length (done ++ todo) ->
  Forall (fun y => y < 10) todo ->
  length class_correct = 10 ->
  length class_total = 10 ->
  exists class_correct' class_total',
    per_class_samples (done ++ todo) (Dim1 c0) (class_correct, class_total)
      (seq (length done) (length todo)) = Ok (class_correct', class_total') /\
    length class_correct' = 10 /\
    length class_total' = 10 /\
    forall k, nth k class_total' 0 =
              nth k class_total 0 + count_occ Nat.eq_dec todo k.
Proof.
  induction todo as [|y todo IH]; intros done cc ct Hc Hy Lcc Lct.
  - exists cc, ct. cbn. repeat split; auto.
  - inversion Hy as [|? ? Hy1 Hy2]; subst.
    cbn [length seq per_class_samples]. unfold per_class_sample.
    assert (G1 : list_get (done ++ y :: todo) (length done) = Ok y).
    { unfold list_get. rewrite nth_error_app2, Nat.sub_diag by lia.
      reflexivity. }
    rewrite G1. cbn [bind].
    rewrite (@list_get_ok _ cc y 0) by lia. cbn [bind].
    assert (G2 : exists b, nth_error c0 (length done) = Some b).
    { destruct (nth_error c0 (length done)) eqn:E; [eauto|].
      apply nth_error_None in E. rewrite Hc, length_app in E.
      cbn [length] in E. lia. }
    destruct G2 as (b & G2). unfold squeezed_item. rewrite G2. cbn [bind].
    rewrite (@list_get_ok _ ct y 0) by lia. cbn [bind].
    specialize (IH (done ++ [y])
                  (list_set cc y (nth y cc 0 + (if b then 1 else 0)))
                  (list_set ct y (nth y ct 0 + 1))).
    rewrite <- app_assoc in IH. cbn [app] in IH.
    rewrite (length_app done [y]) in IH. cbn [length] in IH.
    rewrite (Nat.add_1_r (length done)) in IH.
    destruct IH as (cc' & ct' & E & L1 & L2 & Hn); auto;
      try (rewrite list_set_length; assumption).
    exists cc', ct'. split; [exact E|]. repeat split; auto.
    intros k. rewrite Hn, list_set_nth by lia. cbn [count_occ].
    destruct (Nat.eqb_spec k y) as [Ek|Hk];
      destruct (Nat.eq_dec y k) as [E'|E']; subst; try congruence; lia.
Qed.

(** Every exception of the inner loop is an [IndexError]. *)
Lemma per_class_sample_raises (labels : list nat) (c : squeezed)
    (acc : list nat * list nat) (i : nat) (e : exn) :
  per_class_sample labels c acc i = Raise e -> e = IndexError.
Proof.
  unfold per_class_sample, list_get, squeezed_item.
  destruct acc as [cc ct].
  destruct (nth_error labels i) as [label|]; cbn [bind];
    [|intros [= <-]; reflexivity].
  destruct (nth_error cc label); cbn [bind]; [|intros [= <-]; reflexivity].
  destruct c as [b|l]; cbn [bind]; [intros [= <-]; reflexivity|].
  destruct (nth_error l i); cbn [bind]; [|intros [= <-]; reflexivity].
  destruct (nth_error ct label); cbn [bind]; [|intros [= <-]; reflexivity].
  discriminate.
Qed.

(** The inner loop raises as soon as its range reaches past the labels of
    the batch. *)
Lemma per_class_samples_short (labels : list nat) (c : squeezed)
    (range : list nat) :
  forall acc : list nat * list nat,
  Exists (fun i => length labels <= i) range ->
  per_class_samples labels c acc range = Raise IndexError.
Proof.
  induction range as [|i rest IH]; intros acc Hex;
    [inversion Hex|].
  cbn [per_class_samples].
  destruct (per_class_sample labels c acc i) as [acc'|e] eqn:E.
  - cbn [bind]. apply IH.
    inversion Hex as [? ? Hi|? ? Hr]; subst; [|exact Hr].
    exfalso. unfold per_class_sample, list_get in E. destruct acc as [cc ct].
    destruct (nth_error labels i) eqn:N; [|discriminate].
    assert (i < length labels) by (apply nth_error_Some; congruence). lia.
  - cbn [bind]. now rewrite (per_class_sample_raises _ _ _ _ E).
Qed.

Lemma per_class_samples_raises (labels : list nat) (c : squeezed)
    (range : list nat) (e : exn) :
  forall acc : list nat * list nat,
  per_class_samples labels c acc range = Raise e -> e = IndexError.
Proof.
  induction range as [|i rest IH]; intros acc; cbn [per_class_samples];
    [discriminate|].
  destruct (per_class_sample labels c acc i) as [acc'|e'] eqn:E;
    cbn [bind].
  - apply IH.
  - intros [= <-]. exact (per_class_sample_raises _ _ _ _ E).
Qed.

Lemma squeeze_long (c : list bool) : length c <> 1 -> squeeze c = Dim1 c.
Proof. destruct c as [|b [|b' c]]; simpl; congruence. Qed.

(** What a batch of cell 15 reduces to once the batch is fetched and
    scored: the inner loop over [range(batch_size)]. *)
Lemma per_class_batch_eq (loader : DataLoader) (st : State)
    (counters : list nat * list nat) (idxs : list nat) :
  valid_batch (dataset loader) idxs ->
  exists (st' : State) (c : list bool),
    length c = length idxs /\
    parameters (model st') = parameters (model st) /\
    training_flags (model st') = training_flags (model st) /\
    per_class_batch loader (st, counters) idxs =
      (counters' <- per_class_samples (targets_of (dataset loader) idxs)
                      (squeeze c) counters (seq 0 batch_size) ;;
       Ok (st', counters')).
Proof.
  intros Hv. unfold per_class_batch.
  destruct (fetch_ok (gen st) Hv) as (images & g & -> & Sz). cbn [bind].
  pose proof (predicted_length (model st) images g) as Lp.
  pose proof (forward_spec (model st) images g) as F.
  destruct (forward (model st) images g) as [[out m'] g'].
  destruct F as (_ & P & Fl). cbn [fst] in Lp.
  unfold tensor_eq. rewrite Lp, Sz, targets_of_length, Nat.eqb_refl.
  cbn [bind].
  eexists {| model := m'; optimizer := optimizer st;
             scheduler := scheduler st; gen := g' |}, _.
  split; [|split; [exact P|split; [exact Fl|reflexivity]]].
  rewrite map2_length; rewrite ?targets_of_length; congruence.
Qed.

Lemma per_class_batch_short (loader : DataLoader) (st : State)
    (counters : list nat * list nat) (idxs : list nat) :
  valid_batch (dataset loader) idxs ->
  length idxs < batch_size ->
  per_class_batch loader (st, counters) idxs = Raise IndexError.
Proof.
  intros Hv Hl.
  destruct (@per_class_batch_eq loader st counters idxs Hv)
    as (st' & c & _ & _ & _ & ->).
  rewrite per_class_samples_short; [reflexivity|].
  apply Exists_exists. exists (length idxs). split.
  - apply in_seq. lia.
  - now rewrite targets_of_length.
Qed.

Lemma per_class_batch_raises (loader : DataLoader) (st : State)
    (counters : list nat * list nat) (idxs : list nat) (e : exn) :
  valid_batch (dataset loader) idxs ->
  per_class_batch loader (st, counters) idxs = Raise e -> e = IndexError.
Proof.
  intros Hv.
  destruct (@per_class_batch_eq loader st counters idxs Hv)
    as (st' & c & _ & _ & _ & ->).
  destruct (per_class_samples _ _ _ _) eqn:E; cbn [bind]; [discriminate|].
  intros [= <-]. exact (per_class_samples_raises _ _ _ _ E).
Qed.

Lemma per_class_batch_full (loader : DataLoader) (st : State)
    (class_correct class_total : list nat) (idxs : list nat) :
  valid_batch (dataset loader) idxs ->
  length idxs = batch_size ->
  Forall (fun y => y < 10) (targets_of (dataset loader) idxs) ->
  length class_correct = 10 ->
  length class_total = 10 ->
  exists st' class_correct' class_total',
    per_class_batch loader (st, (class_correct, class_total)) idxs =
      Ok (st', (class_correct', class_total')) /\
    length class_correct' = 10 /\
    length class_total' = 10 /\
    (forall k, nth k class_total' 0 =
               nth k class_total 0 +
               count_occ Nat.eq_dec (targets_of (dataset loader) idxs) k) /\
    parameters (model st') = parameters (model st).
Proof.
  intros Hv Hl Hy Lcc Lct.
  destruct (@per_class_batch_eq loader st (class_correct, class_total)
              idxs Hv) as (st' & c & Lc & P & _ & ->).
  rewrite squeeze_long by (rewrite Lc, Hl; discriminate).
  destruct (@per_class_samples_ok c (targets_of (dataset loader) idxs) []
              class_correct class_total)
    as (cc' & ct' & E & L1 & L2 & Hn); auto.
  { cbn [app]. now rewrite targets_of_length. }
  cbn [app length] in E. rewrite targets_of_length, Hl in E.
  rewrite E. cbn [bind]. exists st', cc', ct'. auto.
Qed.

Lemma per_class_batches_ragged (loader : DataLoader)
    (batches : list (list nat)) :
  forall acc : State * (list nat * list nat),
  Forall (valid_batch (dataset loader)) batches ->
  Exists (fun b => length b < batch_size) batches ->
  per_class_batches loader acc batches = Raise IndexError.
Proof.
  induction batches as [|idxs rest IH]; intros [st counters] Hv Hex;
    [inversion Hex|].
  inversion Hv as [|? ? Hi Hrest]; subst.
  cbn [per_class_batches].
  destruct (per_class_batch loader (st, counters) idxs) as [acc'|e] eqn:E;
    cbn [bind].
  - apply IH; [exact Hrest|].
    inversion Hex as [? ? Hs|? ? Hr]; subst; [|exact Hr].
    rewrite per_class_batch_short in E by assumption. discriminate.
  - now rewrite (per_class_batch_raises _ _ _ Hi E).
Qed.

Lemma per_class_batches_full (loader : DataLoader)
    (batches : list (list nat)) :
  forall (st : State) (class_correct class_total : list nat),
  Forall (valid_batch (dataset loader)) batches ->
  Forall (fun b => length b = batch_size) batches ->
  Forall (fun y => y < 10) (targets_of (dataset loader) (concat batches)) ->
  length class_correct = 10 ->
  length class_total = 10 ->
  exists st' class_correct' class_total',
    per_class_batches loader (st, (class_correct, class_total)) batches =
      Ok (st', (class_correct', class_total')) /\
    length class_correct' = 10 /\
    length class_total' = 10 /\
    (forall k, nth k class_total' 0 =
               nth k class_total 0 +
               count_occ Nat.eq_dec
                 (targets_of (dataset loader) (concat batches)) k) /\
    parameters (model st') = parameters (model st).
Proof.
  induction batches as [|idxs rest IH]; intros st cc ct Hv Hf Hy Lcc Lct;
    cbn [per_class_batches concat] in *.
  - exists st, cc, ct. cbn. repeat split; auto.
  - inversion Hv as [|? ? Hi Hrest]; subst.
    inversion Hf as [|? ? Hfi Hfrest]; subst.
    rewrite targets_of_app in Hy. apply Forall_app in Hy as [Hy1 Hy2].
    destruct (@per_class_batch_full loader st cc ct idxs)
      as (st1 & cc1 & ct1 & -> & L1 & L2 & Hn & P); auto.
    cbn [bind].
    destruct (IH st1 cc1 ct1) as (st' & cc' & ct' & -> & L1' & L2' & Hn' & P');
      auto.
    exists st', cc', ct'. repeat split; auto; [|congruence].
    intros k. rewrite Hn', Hn, targets_of_app, count_occ_app. lia.
Qed.

Lemma iter_full (dl : DataLoader) (g : generator) :
  0 < dl_batch_size dl ->
  length (samples (dataset dl)) mod dl_batch_size dl = 0 ->
  Forall (fun b => length b = dl_batch_size dl) (fst (iter dl g)).
Proof.
  intros Hbs Hm. unfold iter. pose proof (sampler_perm dl g) as P.
  destruct (sampler dl g) as [idxs g']. cbn [fst] in *.
  apply batch_sampler_full; cbn [length]; [lia|].
  now rewrite (Permutation_length P), length_seq.
Qed.

Lemma iter_ragged (dl : DataLoader) (g : generator) :
  0 < dl_batch_size dl ->
  length (samples (dataset dl)) mod dl_batch_size dl <> 0 ->
  Exists (fun b => length b < dl_batch_size dl) (fst (iter dl g)).
Proof.
  intros Hbs Hm. unfold iter. pose proof (sampler_perm dl g) as P.
  destruct (sampler dl g) as [idxs g']. cbn [fst] in *.
  apply batch_sampler_ragged; cbn [length]; [lia|].
  now rewrite (Permutation_length P), length_seq.
Qed.

(** The labels seen during one pass are the labels of the data set, in the
    order of the pass. *)
Lemma iter_targets (dl : DataLoader) (g : generator) :
  Permutation (targets_of (dataset dl) (concat (fst (iter dl g))))
    (map snd (samples (dataset dl))).
Proof.
  rewrite <- targets_of_seq. unfold targets_of.
  apply Permutation_map, iter_perm.
Qed.

(** Over a data set made of full batches with labels below 10, cell 15
    returns and [class_total] counts the samples of every class. *)
Lemma per_class_accuracy_full (loader : DataLoader) (st : State) :
  dl_batch_size loader = batch_size ->
  length (samples (dataset loader)) mod batch_size = 0 ->
  Forall (fun y => y < 10) (map snd (samples (dataset loader))) ->
  exists st' class_correct class_total,
    per_class_accuracy loader st = Ok (st', (class_correct, class_total)) /\
    length class_total = 10 /\
    (forall k, nth k class_total 0 =
               count_occ Nat.eq_dec (map snd (samples (dataset loader))) k) /\
    parameters (model st') = parameters (model st).
Proof.
  intros Hbs Hm Hy. unfold per_class_accuracy.
  pose proof (iter_valid loader (gen st)) as Hv.
  pose proof (iter_targets loader (gen st)) as Ht.
  pose proof (iter_full loader (gen st)) as Hf.
  rewrite Hbs in Hf. specialize (Hf ltac:(unfold batch_size; lia) Hm).
  destruct (iter loader (gen st)) as [batches g]. cbn [fst] in *.
  destruct (@per_class_batches_full loader batches (with_gen st g)
              (repeat 0 10) (repeat 0 10))
    as (st' & cc & ct & E & _ & L & Hn & P); auto.
  { eapply Permutation_Forall; [symmetry; exact Ht | exact Hy]. }
  exists st', cc, ct. repeat split; auto.
  intros k. rewrite Hn.
  rewrite (proj1 (Permutation_count_occ Nat.eq_dec _ _) Ht k).
  destruct (Nat.lt_ge_cases k 10) as [Hk|Hk].
  - do 10 (destruct k as [|k]; [reflexivity|]). lia.
  - rewrite nth_overflow by (cbn; lia). reflexivity.
Qed.

(** Over a data set whose size is not a multiple of [batch_size], cell 15
    indexes the last batch past its end. *)
Lemma per_class_accuracy_ragged (loader : DataLoader) (st : State) :
  dl_batch_size loader = batch_size ->
  length (samples (dataset loader)) mod batch_size <> 0 ->
  per_class_accuracy loader st = Raise IndexError.
Proof.
  intros Hbs Hm. unfold per_class_accuracy.
  pose proof (iter_valid loader (gen st)) as Hv.
  pose proof (iter_ragged loader (gen st)) as Hr.
  rewrite Hbs in Hr. specialize (Hr ltac:(unfold batch_size; lia) Hm).
  destruct (iter loader (gen st)) as [batches g]. cbn [fst] in *.
  now apply per_class_batches_ragged.
Qed.

(** ** The notebook as a whole *)

Lemma len_make_trainloader (mean std : stats) (train_data : list sample) :
  len (make_trainloader mean std train_data) =
  (length train_data + batch_size - 1) / batch_size.
Proof. reflexivity. Qed.

Lemma setup_ok (tl : DataLoader) (init : nat -> list R) (g : generator) :
  0 < len tl ->
  exists st,
    setup tl init g = Ok st /\
    total_steps (scheduler st) = num_epochs * len tl /\
    last_epoch (scheduler st) = 0 /\
    max_lr (scheduler st) = 0.1%R /\
    model st = ResNet9_new init 3 10.
Proof.
  intros H. unfold setup, OneCycleLR_new.
  destruct (Nat.eqb_spec (num_epochs * len tl) 0) as [E|_].
  { unfold num_epochs in E. lia. }
  cbn [bind]. eexists. split; [reflexivity|]. cbn. auto.
Qed.

Lemma setup_inv (tl : DataLoader) (init : nat -> list R) (g : generator)
    (st : State) :
  setup tl init g = Ok st ->
  total_steps (scheduler st) = num_epochs * len tl /\
  last_epoch (scheduler st) = 0 /\
  max_lr (scheduler st) = 0.1%R /\
  model st = ResNet9_new init 3 10.
Proof.
  unfold setup, OneCycleLR_new.
  destruct (num_epochs * len tl =? 0); cbn [bind]; [discriminate|].
  intros [= <-]. cbn. auto.
Qed.

(** What each cell computed, read off a completed run. *)
Lemma notebook_inv (train_data test_data : list sample)
    (init : nat -> list R) (g : generator) (G : Globals) :
  notebook train_data test_data init g = Ok G ->
  mean_trainset G = np_mean_255 (map fst train_data) /\
  std_trainset G = np_std_255 (map fst train_data) /\
  trainloader G =
    make_trainloader (mean_trainset G) (std_trainset G) train_data /\
  testloader G =
    make_testloader (mean_trainset G) (std_trainset G) test_data /\
  (exists st,
     setup (trainloader G) init g = Ok st /\
     training_loop num_epochs (trainloader G) st = Ok (trained G)) /\
  accuracy (trainloader G) (trained G) =
    Ok (after_train_accuracy G, train_correct G, train_total G) /\
  accuracy (testloader G) (after_train_accuracy G) =
    Ok (after_test_accuracy G, test_correct G, test_total G) /\
  per_class_accuracy (testloader G) (after_test_accuracy G) =
    Ok (final G, (class_correct G, class_total G)).
Proof.
  unfold notebook. intros H.
  destruct (setup _ init g) as [st|] eqn:E0; [|discriminate].
  cbn [bind] in H.
  destruct (training_loop _ _ st) as [st1|] eqn:E1; [|discriminate].
  cbn [bind] in H.
  destruct (accuracy _ st1) as [[[st2 c] t]|] eqn:E2; [|discriminate].
  cbn [bind] in H.
  destruct (accuracy _ st2) as [[[st3 c'] t']|] eqn:E3; [|discriminate].
  cbn [bind] in H.
  destruct (per_class_accuracy _ st3) as [[st4 [cc ct]]|] eqn:E4;
    [|discriminate].
  cbn [bind] in H. injection H as <-. cbn.
  repeat split; eauto.
Qed.

(** The notebook runs to its end on a non-empty train split and a test
    split made of full batches with labels below 10. *)
Lemma notebook_ok (train_data test_data : list sample)
    (init : nat -> list R) (g : generator) :
  train_data <> [] ->
  length test_data mod batch_size = 0 ->
  Forall (fun y => y < 10) (map snd test_data) ->
  exists G, notebook train_data test_data init g = Ok G.
Proof.
  intros Hn Hm Hy. unfold notebook.
  set (tl := make_trainloader _ _ train_data).
  set (el := make_testloader _ _ test_data).
  assert (Hlen : 0 < len tl).
  { unfold tl. rewrite len_make_trainloader. unfold batch_size.
    destruct train_data as [|a l]; [congruence|]. cbn [length].
    apply Nat.div_str_pos. lia. }
  destruct (setup_ok tl init g Hlen) as (st & -> & Tt & L & _).
  cbn [bind].
  destruct (@training_loop_ok tl num_epochs st) as (st1 & -> & _);
    [unfold tl; cbn; unfold batch_size; lia | lia |].
  cbn [bind].
  destruct (accuracy_ok tl st1) as (st2 & c & -> & _). cbn [bind].
  destruct (accuracy_ok el st2) as (st3 & c' & -> & _). cbn [bind].
  destruct (@per_class_accuracy_full el st3) as (st4 & cc & ct & -> & _);
    auto.
  cbn [bind]. eauto.
Qed.

Lemma scheduler_step_inv (s s' : OneCycleLR) (o o' : SGD) :
  scheduler_step s o = Ok (s', o') ->
  last_epoch s' = S (last_epoch s) /\
  total_steps s' = total_steps s /\
  max_lr s' = max_lr s /\
  group_lr o' = get_lr s' (last_epoch s').
Proof.
  unfold scheduler_step.
  destruct (total_steps s <? S (last_epoch s)); [discriminate|].
  intros [= <- <-]. cbn. auto.
Qed.

(** Ten counters account for every label below 10. *)
Lemma count_labels (l : list nat) :
  length l =
  list_sum (map (count_occ Nat.eq_dec l) (seq 0 10)) +
  length (filter (fun y => 10 <=? y) l).
Proof.
  induction l as [|y l IH]; [reflexivity|].
  cbn [length filter]. rewrite IH. cbn [seq map list_sum].
  do 10 (destruct y as [|y]; [cbn; lia|]). cbn. lia.
Qed.

Lemma labels_below_10 (l : list nat) (c : nat) :
  length l = 10 * c ->
  (forall k, k < 10 -> count_occ Nat.eq_dec l k = c) ->
  Forall (fun y => y < 10) l.
Proof.
  intros Hl Hc. pose proof (count_labels l) as H.
  cbn [seq map list_sum] in H.
  rewrite !Hc in H by lia.
  assert (E : filter (fun y => 10 <=? y) l = []).
  { destruct (filter _ l); [reflexivity|]. exfalso.
    cbn [length list_sum fold_right] in H. lia. }
  apply Forall_forall. intros y Hy.
  destruct (Nat.leb_spec 10 y) as [Hge|Hlt]; [|exact Hlt].
  assert (In y (filter (fun y => 10 <=? y) l)) as Hin.
  { apply filter_In. split; [exact Hy|]. now apply Nat.leb_le. }
  rewrite E in Hin. destruct Hin.
Qed.

(** Under [model.eval()], which the notebook never calls, a forward pass
    consumes no randomness and changes nothing in the model: its scores
    are a function of the model and the input alone. *)
Lemma forward_inference_mode (m : ResNet9) (x : tensor) (g g' : generator) :
  forward (train false m) x g =
    (fst (fst (forward (train false m) x g')), train false m, g).
Proof.
  unfold forward, ConvBlock_forward, ResBlock_forward, Classifier_forward,
    ConvBlock_forward, BatchNorm2d_forward, Dropout_forward.
  destruct m as [c1 c2 [r11 r12 d1] c3 c4 [r21 r22 d2] [d3 l1 l2 d4 l3]].
  reflexivity.
Qed.

(** ** The claims *)

(** C3, at the place where the code departs from it: over a test split
    whose size is not a multiple of the batch size, the per-class loop of
    cell 15 indexes the labels of the smaller last batch with
    [range(batch_size)] and raises [IndexError].  The other components do
    handle the smaller batch: the accuracy loop of cells 13 and 14, which
    reads [labels.size(0)], returns and counts every sample once, and the
    forward pass maps a batch of any size [n >= 1] to scores of shape
    [(n, 10)]. *)
Theorem per_class_ragged_batch (mean std : stats) (test_data : list sample)
    (st : State) :
  length test_data mod batch_size <> 0 ->
  per_class_accuracy (make_testloader mean std test_data) st =
    Raise IndexError /\
  (exists st' correct,
      accuracy (make_testloader mean std test_data) st =
        Ok (st', correct, length test_data)) /\
  (forall init n, 0 < n ->
      forward_shape (ResNet9_new init 3 10) [n; 3; 32; 32] = Ok [n; 10]).
Proof.
  intros H. split; [|split].
  - apply per_class_accuracy_ragged; [reflexivity | exact H].
  - destruct (accuracy_ok (make_testloader mean std test_data) st)
      as (st' & c & E & _).
    exists st', c. exact E.
  - intros init n Hn. now apply forward_shape_any_batch.
Qed.

Lemma clamp_limited (c x : R) :
  (0 <= float32 c)%R -> clamp (- c) c x = limited (float32 c) x.
Proof.
  intros Hc. unfold clamp, limited. rewrite float32_opp.
  unfold Rmin, Rmax.
  destruct (Rlt_dec (float32 c) x), (Rlt_dec x (- float32 c));
    repeat destruct (Rle_dec _ _); lra.
Qed.

Lemma forward_backward_grads (m m' : ResNet9) (inputs loss : tensor)
    (labels : list nat) (g g' : generator) :
  forward_backward m inputs labels g = (loss, m', g') ->
  loss = cross_entropy (fst (fst (forward m inputs g))) labels /\
  map grad (parameters m') =
  map (fun q => Some (map (limited (float32 grad_clip))
                        (autograd loss (pid q))))
      (parameters m).
Proof.
  unfold forward_backward.
  pose proof (forward_spec m inputs g) as F.
  destruct (forward m inputs g) as [[out m1] g1]. destruct F as (_ & P & _).
  destruct (Req_dec_T grad_clip 0) as [E|_].
  { unfold grad_clip in E. lra. }
  intros [= <- <- _]. split; [reflexivity|].
  unfold clip_grad_value_, backward, zero_grad.
  rewrite !parameters_map, !map_map, P.
  apply map_ext. intros q. cbn. f_equal.
  apply map_ext. intros x. apply clamp_limited.
  rewrite float32_grad_clip. lra.
Qed.

(** C4, as the code has it: in every training step that completes, the
    model handed to [optimizer.step()] holds, for every parameter, the
    gradient of this batch's loss with every component limited to
    [[-c, c]], where [c] is the clip value 0.1 as a float32 scalar,
    [13421773 / 2^27]: a little above one tenth, by less than [2e-9].  The
    clipping sits between the backward pass and the update, its guard
    [if grad_clip] always holds, and it leaves the parameters' values
    alone. *)
Theorem gradients_clipped_at_update (tl : DataLoader) (st st' : State)
    (rl rl' : R) (i : nat) (idxs : list nat) :
  train_batch tl st rl i idxs = Ok (st', rl') ->
  exists inputs labels g loss m g',
    fetch (dataset tl) idxs (gen st) = Ok (inputs, labels, g) /\
    forward_backward (model st) inputs labels g = (loss, m, g') /\
    model st' = snd (SGD_step (optimizer st) m) /\
    loss = cross_entropy (fst (fst (forward (model st) inputs g))) labels /\
    map grad (parameters m) =
      map (fun q => Some (map (limited (float32 grad_clip))
                            (autograd loss (pid q))))
          (parameters (model st)) /\
    Forall (grad_within (float32 grad_clip)) (parameters m) /\
    map data (parameters m) = map data (parameters (model st)) /\
    float32 grad_clip = (13421773 / 134217728)%R /\
    (0.1 < float32 grad_clip < 0.1 + 2 / 1000000000)%R.
Proof.
  intros H. apply train_batch_inv in H.
  destruct H as (inputs & labels & g & loss & m & g' & Fe & FB & M & _).
  pose proof (forward_backward_spec (model st) inputs labels g) as S.
  rewrite FB in S. destruct S as (C & D & _).
  destruct (forward_backward_grads _ _ _ _ FB) as (L & Gr).
  exists inputs, labels, g, loss, m, g'.
  repeat (split; [assumption|]).
  rewrite float32_grad_clip. split; [reflexivity | lra].
Qed.

(** C5: with 50,000 training samples there are 500 batches per epoch, each
    training batch advances the scheduler's step index by exactly one, and
    the 40 epochs of the training loop run to their end with the index at
    20,000 (it starts at 0, of 20,000 steps in total). *)
Theorem scheduler_stepped_per_batch (mean std : stats)
    (train_data : list sample) (init : nat -> list R) (g : generator) :
  length train_data = 50000 ->
  let tl := make_trainloader mean std train_data in
  len tl = 500 /\
  (forall st rl i idxs st' rl',
      train_batch tl st rl i idxs = Ok (st', rl') ->
      last_epoch (scheduler st') = S (last_epoch (scheduler st))) /\
  exists st0 st1,
    setup tl init g = Ok st0 /\
    last_epoch (scheduler st0) = 0 /\
    total_steps (scheduler st0) = 20000 /\
    training_loop num_epochs tl st0 = Ok st1 /\
    last_epoch (scheduler st1) = 20000.
Proof.
  intros Hl tl.
  assert (L : len tl = 500).
  { unfold tl. rewrite len_make_trainloader, Hl. reflexivity. }
  split; [exact L|]. split.
  - intros st rl i idxs st' rl' H. apply train_batch_inv in H.
    destruct H as (? & ? & ? & ? & m & ? & _ & _ & _ & S & _).
    apply scheduler_step_inv in S. apply S.
  - destruct (setup_ok tl init g) as (st0 & E0 & Tt & L0 & _);
      [rewrite L; lia|].
    rewrite L in Tt.
    destruct (@training_loop_ok tl num_epochs st0) as (st1 & E1 & L1 & _).
    { unfold tl, make_trainloader, batch_size. cbn. lia. }
    { rewrite L0, Tt, L. lia. }
    exists st0, st1. rewrite L0, L in L1.
    repeat split; auto.
Qed.

Lemma train_transform_augment (mean std : stats) (img : image)
    (g : generator) :
  train_transform mean std img g =
  (Normalize mean std (ToTensor (fst (augment img g))), snd (augment img g)).
Proof.
  unfold train_transform, augment.
  destruct (RandomCrop 32 4 img g) as [img1 g1].
  destruct (RandomHorizontalFlip img1 g1) as [img2 g2]. reflexivity.
Qed.

Lemma fetch_samples_train (mean std : stats) (data : list sample)
    (idxs : list nat) :
  forall (g g' : generator) (xs : list tensor) (ys : list nat),
  fetch_samples (dataset (make_trainloader mean std data)) idxs g =
    Ok (xs, ys, g') ->
  Forall2 (train_item mean std data) idxs xs.
Proof.
  induction idxs as [|i rest IH]; intros g g' xs ys H;
    cbn [fetch_samples] in H.
  - injection H as <- _ _. constructor.
  - apply bind_ok in H as ([[x y] g1] & E & H).
    apply bind_ok in H as ([[xs' ys'] g2] & E' & H).
    injection H as <- _ _.
    constructor; [|eapply IH; exact E'].
    unfold getitem in E. cbn [make_trainloader dataset samples transform] in E.
    destruct (nth_error data i) as [[img y0]|] eqn:N; [|discriminate].
    rewrite train_transform_augment in E. injection E as <- _ _.
    exists img, y0, g. auto.
Qed.

Lemma fetch_samples_test (mean std : stats) (data : list sample)
    (idxs : list nat) :
  forall (g g' : generator) (xs : list tensor) (ys : list nat),
  fetch_samples (dataset (make_testloader mean std data)) idxs g =
    Ok (xs, ys, g') ->
  Forall2 (test_item mean std data) idxs xs /\ g' = g.
Proof.
  induction idxs as [|i rest IH]; intros g g' xs ys H;
    cbn [fetch_samples] in H.
  - injection H as <- _ <-. split; [constructor | reflexivity].
  - apply bind_ok in H as ([[x y] g1] & E & H).
    apply bind_ok in H as ([[xs' ys'] g2] & E' & H).
    injection H as <- _ <-.
    unfold getitem in E. cbn [make_testloader dataset samples transform] in E.
    destruct (nth_error data i) as [[img y0]|] eqn:N; [|discriminate].
    unfold test_transform in E. injection E as <- _ <-.
    destruct (IH _ _ _ _ E') as (F & ->).
    split; [|reflexivity].
    constructor; [|exact F]. exists img, y0. auto.
Qed.

Lemma fetch_collate (ds : CIFAR10) (idxs : list nat) (g : generator) :
  valid_batch ds idxs ->
  exists xs g',
    fetch_samples ds idxs g = Ok (xs, targets_of ds idxs, g') /\
    fetch ds idxs g = Ok (collate xs, targets_of ds idxs, g').
Proof.
  intros Hv. destruct (fetch_samples_ok g Hv) as (xs & g' & E & _).
  exists xs, g'. split; [exact E|]. unfold fetch. rewrite E. reflexivity.
Qed.

(** C7: in a completed run the two statistics are the ones computed from
    the raw (unaugmented) images of the train split, and they are the
    vectors by which every item of every batch of either loader is
    normalised: an item of a train batch is the normalised tensor of an
    augmented copy of the train image at its position, an item of a test
    batch the normalised tensor of the test image at its position.  Every
    cell draws its batches from these two loaders. *)
Theorem normalization_statistics (train_data test_data : list sample)
    (init : nat -> list R) (g : generator) (G : Globals) :
  notebook train_data test_data init g = Ok G ->
  let mean := np_mean_255 (map fst train_data) in
  let std := np_std_255 (map fst train_data) in
  mean_trainset G = mean /\
  std_trainset G = std /\
  (forall idxs g0,
      valid_batch (dataset (trainloader G)) idxs ->
      exists xs labels g1,
        fetch (dataset (trainloader G)) idxs g0 =
          Ok (collate xs, labels, g1) /\
        Forall2 (train_item mean std train_data) idxs xs) /\
  (forall idxs g0,
      valid_batch (dataset (testloader G)) idxs ->
      exists xs labels,
        fetch (dataset (testloader G)) idxs g0 =
          Ok (collate xs, labels, g0) /\
        Forall2 (test_item mean std test_data) idxs xs).
Proof.
  intros H mean std. apply notebook_inv in H.
  destruct H as (M & S & Tl & El & _).
  split; [exact M|]. split; [exact S|].
  rewrite Tl, El, M, S. fold mean std. split.
  - intros idxs g0 Hv.
    destruct (fetch_collate g0 Hv) as (xs & g1 & E & F).
    do 3 eexists. split; [exact F|].
    eapply fetch_samples_train. exact E.
  - intros idxs g0 Hv.
    destruct (fetch_collate g0 Hv) as (xs & g1 & E & F).
    apply fetch_samples_test in E as (I & ->).
    do 2 eexists. split; [exact F | exact I].
Qed.

(** C8: over a test split of 10,000 samples with 1,000 samples of each of
    the ten classes, the per-class evaluation returns, every per-class
    total is 1,000, and the totals sum to 10,000. *)
Theorem per_class_totals (mean std : stats) (test_data : list sample)
    (st : State) :
  length test_data = 10000 ->
  (forall k, k < 10 -> count_occ Nat.eq_dec (map snd test_data) k = 1000) ->
  exists st' class_correct class_total,
    per_class_accuracy (make_testloader mean std test_data) st =
      Ok (st', (class_correct, class_total)) /\
    class_total = repeat 1000 10 /\
    list_sum class_total = 10000.
Proof.
  intros Hl Hc.
  destruct (@per_class_accuracy_full (make_testloader mean std test_data) st)
    as (st' & cc & ct & E & L & Hn & _).
  - reflexivity.
  - change (length test_data mod batch_size = 0). rewrite Hl. reflexivity.
  - change (Forall (fun y => y < 10) (map snd test_data)).
    apply labels_below_10 with (c := 1000); [|exact Hc].
    rewrite length_map. exact Hl.
  - assert (Ect : ct = repeat 1000 10).
    { apply (nth_ext _ _ 0 0); [rewrite L; reflexivity|].
      intros k Hk. rewrite L in Hk. rewrite Hn.
      change (samples (dataset (make_testloader mean std test_data)))
        with test_data.
      rewrite Hc by exact Hk.
      do 10 (destruct k as [|k]; [reflexivity|]). lia. }
    exists st', cc, ct. split; [exact E|]. split; [exact Ect|].
    rewrite Ect. reflexivity.
Qed.

(** C9: a pass of the accuracy loop over any pipeline returns and leaves
    every parameter of the model as it was; within a training step the
    forward pass, the backward pass and the clipping leave the values of
    all parameters unchanged, and the optimizer's update is what rewrites
    them. *)
Theorem parameters_read_only_in_evaluation (loader : DataLoader)
    (st : State) :
  (exists st' correct total,
      accuracy loader st = Ok (st', correct, total) /\
      parameters (model st') = parameters (model st)) /\
  (forall m x labels gen,
      map data (parameters (snd (fst (forward_backward m x labels gen)))) =
      map data (parameters m)) /\
  (forall o m,
      parameters (snd (SGD_step o m)) = map (sgd_param o) (parameters m)).
Proof.
  split; [|split].
  - destruct (accuracy_ok loader st) as (st' & c & E & P & _).
    exists st', c, (length (samples (dataset loader))). auto.
  - intros m x labels gen.
    pose proof (forward_backward_spec m x labels gen) as S.
    destruct (forward_backward m x labels gen) as [[loss m'] g'].
    apply S.
  - intros o m. reflexivity.
Qed.

Lemma accuracy_batch_trace (loader : DataLoader) (st st' : State)
    (c t c' t' : nat) (idxs : list nat) :
  accuracy_batch loader (st, c, t) idxs = Ok (st', c', t') ->
  exists b,
    sc_state b = st /\ scores loader idxs b /\
    c' = c + hits b /\ t' = t + length (sc_labels b) /\
    parameters (model st') = parameters (model st).
Proof.
  unfold accuracy_batch, fetch. intros H.
  apply bind_ok in H as ([[images labels] g] & E & H).
  apply bind_ok in E as ([[xs ys] g1] & E & E1).
  injection E1 as <- <- <-.
  pose proof (forward_spec (model st) (collate xs) g1) as F.
  destruct (forward (model st) (collate xs) g1) as [[out m'] g'] eqn:Fw.
  destruct F as (_ & P & _).
  apply bind_ok in H as (eq & Te & H). injection H as <- <- <-.
  unfold tensor_eq in Te.
  destruct (length (argmax1 out) =? length ys); [|discriminate].
  injection Te as <-.
  assert (Hy : ys = targets_of (dataset loader) idxs).
  { clear - E. revert xs ys g1 E. generalize (gen st).
    induction idxs as [|i rest IH]; intros g xs ys g1 E;
      cbn [fetch_samples] in E.
    - injection E as _ <- _. reflexivity.
    - apply bind_ok in E as ([[x y] g2] & E & H).
      apply bind_ok in H as ([[xs' ys'] g3] & E' & H).
      injection H as _ <- _.
      unfold getitem in E.
      cbn [targets_of map].
      destruct (nth_error (samples (dataset loader)) i) as [[img y0]|];
        [|discriminate].
      destruct (transform (dataset loader) img g) as [x0 g0].
      injection E as _ <- _. f_equal. exact (IH _ _ _ _ E'). }
  exists {| sc_state := st; sc_items := xs; sc_labels := ys;
            sc_predicted := argmax1 out |}.
  cbn [sc_state sc_items sc_labels sc_predicted model].
  split; [reflexivity|]. split.
  - exists g1. cbn [sc_state sc_items sc_labels sc_predicted].
    rewrite Fw. auto.
  - unfold hits. cbn [sc_labels sc_predicted]. auto.
Qed.

Lemma accuracy_batches_trace (loader : DataLoader)
    (batches : list (list nat)) :
  forall (st st' : State) (c t c' t' : nat),
  accuracy_batches loader (st, c, t) batches = Ok (st', c', t') ->
  exists trace,
    Forall2 (scores loader) batches trace /\
    Forall (fun b => parameters (model (sc_state b)) = parameters (model st))
      trace /\
    c' = c + list_sum (map hits trace) /\
    t' = t + list_sum (map (fun b => length (sc_labels b)) trace).
Proof.
  induction batches as [|idxs rest IH]; intros st st' c t c' t' H;
    cbn [accuracy_batches] in H.
  - injection H as _ <- <-. exists []. cbn. auto.
  - apply bind_ok in H as ([[st1 c1] t1] & E & H).
    apply accuracy_batch_trace in E as (b & Sb & Sc & -> & -> & P).
    apply IH in H as (trace & F2 & Fp & -> & ->).
    exists (b :: trace).
    split; [constructor; assumption|]. split.
    + constructor; [now rewrite Sb|].
      eapply Forall_impl; [|exact Fp]. intros a Ha.
      cbv beta in Ha |- *. now rewrite Ha.
    + unfold list_sum. cbn [map fold_right]. split; lia.
Qed.

(** C10: in a completed run the reported train accuracy counts, batch by
    batch over one pass of the train loader, the predictions that equal the
    label.  The batches cut the random permutation drawn for this pass;
    every item scored is the normalised tensor of an augmented copy (random
    reflection-padded crop, then random flip) of the train image at its
    position, not of the stored image; the predictions come from the
    trained parameters; and the pass scores as many items as the split has
    samples. *)
Theorem train_accuracy_over_augmented (train_data test_data : list sample)
    (init : nat -> list R) (g : generator) (G : Globals) :
  notebook train_data test_data init g = Ok G ->
  let mean := np_mean_255 (map fst train_data) in
  let std := np_std_255 (map fst train_data) in
  let batches := fst (iter (trainloader G) (gen (trained G))) in
  exists trace,
    concat batches =
      fst (randperm (length train_data) (gen (trained G))) /\
    Forall2 (fun idxs b =>
               scores (trainloader G) idxs b /\
               Forall2 (train_item mean std train_data) idxs (sc_items b) /\
               parameters (model (sc_state b)) =
                 parameters (model (trained G)))
      batches trace /\
    train_correct G = list_sum (map hits trace) /\
    train_total G = list_sum (map (fun b => length (sc_labels b)) trace) /\
    train_total G = length train_data.
Proof.
  intros H mean std batches. apply notebook_inv in H.
  destruct H as (M & S & Tl & _ & _ & A & _).
  destruct (accuracy_ok (trainloader G) (trained G)) as (st' & c & E & _).
  rewrite A in E. injection E as _ _ Ht.
  unfold accuracy in A. subst batches.
  destruct (iter (trainloader G) (gen (trained G))) as [batches g1] eqn:I.
  cbn [fst].
  apply accuracy_batches_trace in A as (trace & F2 & Fp & Hc & Hn).
  exists trace. split; [|split; [|split; [exact Hc|split; [exact Hn|]]]].
  - unfold iter, sampler in I. rewrite Tl in I.
    cbn [make_trainloader shuffle dataset samples dl_batch_size] in I.
    destruct (randperm (length train_data) (gen (trained G)))
      as [idxs g2].
    injection I as <- _. cbn [fst]. apply batch_sampler_concat.
  - clear - F2 Fp Tl M S. subst mean std. rewrite <- M, <- S.
    induction F2 as [|idxs b batches trace Sc F2 IH]; constructor.
    + inversion Fp as [|? ? Pb _]; subst.
      split; [exact Sc|]. split; [|exact Pb].
      destruct Sc as (g0 & Fe & _). rewrite Tl in Fe.
      eapply fetch_samples_train. exact Fe.
    + apply IH. now inversion Fp.
  - rewrite Ht, Tl. reflexivity.
Qed.

Lemma dropouts_active (m : ResNet9) :
  training_flags m = repeat true 12 ->
  Forall (fun d => forall x gen,
              Dropout_forward d x gen = dropout_mask (drop_p d) x gen)
         (dropouts m).
Proof.
  unfold training_flags, dropouts. cbn [repeat].
  intros [= _ _ _ _ D1 _ _ _ _ D2 D3 D4].
  repeat constructor; intros x gen; unfold Dropout_forward;
    rewrite ?D1, ?D2, ?D3, ?D4; reflexivity.
Qed.

(** C2, at the place where the code departs from it: the notebook never
    leaves training mode.  In a completed run every mode flag of the model
    is still [true] when cells 13, 14 and 15 start, so each forward pass of
    the evaluation applies the random-zeroing kernel in its four dropout
    layers (and normalises with batch statistics) instead of passing its
    input through. *)
Theorem evaluation_in_training_mode (train_data test_data : list sample)
    (init : nat -> list R) (g : generator) (G : Globals) :
  notebook train_data test_data init g = Ok G ->
  training_flags (model (trained G)) = repeat true 12 /\
  training_flags (model (after_train_accuracy G)) = repeat true 12 /\
  training_flags (model (after_test_accuracy G)) = repeat true 12 /\
  Forall (fun d => forall x gen,
              Dropout_forward d x gen = dropout_mask (drop_p d) x gen)
         (dropouts (model (after_train_accuracy G))).
Proof.
  intros H. apply notebook_inv in H.
  destruct H as (_ & _ & Tl & _ & (st0 & E0 & E1) & A1 & A2 & _).
  pose proof (setup_inv _ _ _ E0) as (Tt & L0 & _ & M0).
  assert (F1 : training_flags (model (trained G)) = repeat true 12).
  { destruct (@training_loop_ok (trainloader G) num_epochs st0)
      as (st1 & E1' & _ & _ & _ & Fl).
    - rewrite Tl. unfold make_trainloader, batch_size. cbn. lia.
    - rewrite L0, Tt. lia.
    - rewrite E1 in E1'. injection E1' as <-. rewrite Fl, M0. reflexivity. }
  assert (F2 : training_flags (model (after_train_accuracy G)) =
               repeat true 12).
  { destruct (accuracy_ok (trainloader G) (trained G))
      as (st' & c & E & _ & Fl & _).
    rewrite A1 in E. injection E as <- _ _. congruence. }
  assert (F3 : training_flags (model (after_test_accuracy G)) =
               repeat true 12).
  { destruct (accuracy_ok (testloader G) (after_train_accuracy G))
      as (st' & c & E & _ & Fl & _).
    rewrite A2 in E. injection E as <- _ _. congruence. }
  repeat split; auto. now apply dropouts_active.
Qed.

End Properties.

(** ** The learning-rate schedule *)

Section Schedule.

Local Open Scope R_scope.

Lemma annealing_cos_0 (a b : R) : annealing_cos a b 0 = a.
Proof. unfold annealing_cos. rewrite Rmult_0_r, cos_0. field. Qed.

Lemma annealing_cos_1 (a b : R) : annealing_cos a b 1 = b.
Proof. unfold annealing_cos. rewrite Rmult_1_r, cos_PI. field. Qed.

Lemma cos_PI_decreasing (p q : R) :
  0 <= p -> p < q -> q <= 1 -> cos (PI * q) < cos (PI * p).
Proof.
  intros Hp Hpq Hq. pose proof PI_RGT_0 as HPI.
  apply cos_decreasing_1; nra.
Qed.

Lemma annealing_cos_rising (a b p q : R) :
  a < b -> 0 <= p -> p < q -> q <= 1 ->
  annealing_cos a b p < annealing_cos a b q.
Proof.
  intros Hab Hp Hpq Hq. unfold annealing_cos.
  pose proof (cos_PI_decreasing Hp Hpq Hq). nra.
Qed.

Lemma annealing_cos_falling (a b p q : R) :
  b < a -> 0 <= p -> p < q -> q <= 1 ->
  annealing_cos a b q < annealing_cos a b p.
Proof.
  intros Hab Hp Hpq Hq. unfold annealing_cos.
  pose proof (cos_PI_decreasing Hp Hpq Hq). nra.
Qed.

(** Just past the end of the second phase the cosine turns back up, by
    less than [2 / 49000000]. *)
Lemma cos_past_end :
  -1 < cos (PI * (14001 / 14000)) < -1 + 2 / 49000000.
Proof.
  pose proof PI_RGT_0 as HPI. pose proof PI_4 as HPI4.
  replace (PI * (14001 / 14000)) with (2 * (PI / 28000) + PI) by field.
  rewrite neg_cos, cos_2a_sin.
  assert (H0 : 0 < PI / 28000) by lra.
  pose proof (sin_lt_x _ H0) as H1.
  assert (H2 : 0 < sin (PI / 28000)) by (apply sin_gt_0; lra).
  assert (H3 : sin (PI / 28000) < 4 / 28000) by lra.
  split; nra.
Qed.

Variable s : OneCycleLR.
Hypothesis total_steps_s : total_steps s = 20000%nat.
Hypothesis max_lr_s : max_lr s = 0.1.

Lemma end_step1_s : end_step1 s = 5999.
Proof.
  unfold end_step1, pct_start. rewrite total_steps_s, INR_IZR_INZ.
  replace (Z.of_nat 20000) with 20000%Z by (vm_compute; reflexivity).
  lra.
Qed.

Lemma end_step2_s : end_step2 s = 19999.
Proof.
  unfold end_step2. rewrite total_steps_s, INR_IZR_INZ.
  replace (Z.of_nat 20000) with 20000%Z by (vm_compute; reflexivity).
  lra.
Qed.

Lemma INR_5999 : INR 5999 = 5999.
Proof.
  rewrite INR_IZR_INZ.
  replace (Z.of_nat 5999) with 5999%Z by (vm_compute; reflexivity).
  reflexivity.
Qed.

Lemma get_lr_phase1 (k : nat) :
  (k <= 5999)%nat ->
  get_lr s k = annealing_cos 0.004 0.1 (INR k / 5999).
Proof.
  intros Hk. unfold get_lr, anneal_phases, initial_lr, div_factor.
  rewrite end_step1_s, max_lr_s.
  apply le_INR in Hk. rewrite INR_5999 in Hk.
  destruct (Rle_dec (INR k) 5999) as [_|N]; [|contradiction].
  f_equal; lra.
Qed.

Lemma get_lr_phase2 (k : nat) :
  (5999 < k)%nat ->
  get_lr s k = annealing_cos 0.1 0.0000004 ((INR k - 5999) / 14000).
Proof.
  intros Hk. unfold get_lr, anneal_phases, min_lr, initial_lr, div_factor,
    final_div_factor.
  rewrite end_step1_s, end_step2_s, max_lr_s.
  apply lt_INR in Hk. rewrite INR_5999 in Hk.
  destruct (Rle_dec (INR k) 5999) as [N|_]; [lra|].
  f_equal; lra.
Qed.

(** At the peak both phases agree. *)
Lemma get_lr_peak :
  get_lr s 5999 = annealing_cos 0.1 0.0000004 ((INR 5999 - 5999) / 14000).
Proof.
  rewrite get_lr_phase1 by apply Nat.le_refl. rewrite INR_5999.
  replace (5999 / 5999) with 1 by field.
  replace ((5999 - 5999) / 14000) with 0 by field.
  now rewrite annealing_cos_0, annealing_cos_1.
Qed.

Lemma get_lr_phase2' (k : nat) :
  (5999 <= k)%nat ->
  get_lr s k = annealing_cos 0.1 0.0000004 ((INR k - 5999) / 14000).
Proof.
  intros Hk. destruct (Nat.eq_dec k 5999) as [->|Hn].
  - apply get_lr_peak.
  - apply get_lr_phase2. apply Nat.le_neq. split; auto.
Qed.

Lemma INR_le_lit (k n : nat) (z : Z) :
  Z.of_nat n = z -> (k <= n)%nat -> INR k <= IZR z.
Proof.
  intros <- H. rewrite <- INR_IZR_INZ. now apply le_INR.
Qed.

(** C6: every call of the scheduler sets the optimizer's learning rate to
    the schedule's value at the new step index.  Over the 20,000 steps of
    the run, with peak 0.1, that value starts at 0.004 (the peak over 25),
    rises strictly at every step up to step 5,999 where it equals the peak
    0.1, then falls strictly at every step down to 0.0000004 at step
    19,999, the step of the last update; the value left by the last call of
    the scheduler, at index 20,000, stays within 0.00000001 of it. *)
Theorem one_cycle_schedule :
  (forall o s' o',
      scheduler_step s o = Ok (s', o') ->
      group_lr o' = get_lr s (S (last_epoch s))) /\
  get_lr s 0 = 0.004 /\
  get_lr s 5999 = 0.1 /\
  get_lr s 19999 = 0.0000004 /\
  (forall k, (k < 5999)%nat -> get_lr s k < get_lr s (S k)) /\
  (forall k, (5999 <= k < 19999)%nat -> get_lr s (S k) < get_lr s k) /\
  0.0000004 < get_lr s 20000 < 0.00000041.
Proof.
  split; [|split; [|split; [|split; [|split; [|split]]]]].
  - intros o s' o'. unfold scheduler_step.
    destruct (total_steps s <? S (last_epoch s))%nat; [discriminate|].
    intros [= <- <-]. reflexivity.
  - rewrite get_lr_phase1 by nat_lit. cbn [INR].
    replace (0 / 5999) with 0 by field. apply annealing_cos_0.
  - rewrite get_lr_peak, INR_5999.
    replace ((5999 - 5999) / 14000) with 0 by field. apply annealing_cos_0.
  - rewrite get_lr_phase2 by nat_lit. rewrite INR_IZR_INZ.
    replace (Z.of_nat 19999) with 19999%Z by (vm_compute; reflexivity).
    replace ((19999 - 5999) / 14000) with 1 by field.
    apply annealing_cos_1.
  - intros k Hk. rewrite !get_lr_phase1 by lia.
    pose proof (pos_INR k) as H0.
    assert (H1 : INR (S k) <= 5999).
    { apply (@INR_le_lit (S k) 5999 5999%Z);
        [vm_compute; reflexivity | lia]. }
    rewrite S_INR in *.
    apply annealing_cos_rising; lra.
  - intros k [Hk1 Hk2]. rewrite !get_lr_phase2' by lia.
    assert (H0 : 5999 <= INR k).
    { rewrite <- INR_5999. now apply le_INR. }
    assert (H1 : INR (S k) <= 19999).
    { apply (@INR_le_lit (S k) 19999 19999%Z);
        [vm_compute; reflexivity | lia]. }
    rewrite S_INR in *.
    apply annealing_cos_falling; lra.
  - rewrite get_lr_phase2 by nat_lit. rewrite INR_IZR_INZ.
    replace (Z.of_nat 20000) with 20000%Z by (vm_compute; reflexivity).
    replace ((20000 - 5999) / 14000) with (14001 / 14000) by field.
    unfold annealing_cos. pose proof cos_past_end as H. lra.
Qed.

End Schedule.

(** * Further properties of the notebook's code *)

(** From here on [lia] also decides goals with divisions by constants. *)
From Stdlib Require Import ZifyNat.
Ltac Zify.zify_post_hook ::= Z.to_euclidean_division_equations.

Section Extras.

Context {T : Torch}.

(** ** Shapes accepted by the model *)

Lemma conv_block_shape_inv (init : nat -> list R) (k cin cout : nat)
    (mp : bool) (s s' : shape) :
  ConvBlock_shape (conv_block init k cin cout mp) s = Ok s' ->
  exists n h w,
    s = [n; cin; h; w] /\ 1 < n * h * w /\
    if mp then 1 <= h / 2 /\ 1 <= w / 2 /\ s' = [n; cout; h / 2; w / 2]
    else s' = [n; cout; h; w].
Proof.
  unfold ConvBlock_shape, Conv2d_shape, conv_out.
  cbn [conv_block conv bn pool in_channels out_channels kernel_size padding].
  destruct s as [|n [|c [|h [|w [|]]]]]; cbn [bind]; try discriminate.
  destruct (Nat.eqb_spec c cin) as [->|]; [|discriminate].
  destruct (Nat.ltb_spec (h + 2 * 1) 3); [discriminate|].
  destruct (Nat.ltb_spec (w + 2 * 1) 3); [discriminate|].
  cbn [bind].
  replace (h + 2 * 1 - 3 + 1) with h by lia.
  replace (w + 2 * 1 - 3 + 1) with w by lia.
  unfold BatchNorm2d_shape, BatchNorm2d_new.
  cbn [num_features bn_training]. rewrite Nat.eqb_refl. cbn [negb andb].
  destruct (Nat.leb_spec (n * h * w) 1); [discriminate|].
  cbn [bind]. intros E. exists n, h, w. split; [reflexivity|].
  split; [assumption|].
  destruct mp; [|congruence].
  unfold MaxPool2d_shape in E.
  destruct (Nat.eqb_spec (h / 2) 0); [discriminate|].
  destruct (Nat.eqb_spec (w / 2) 0); [discriminate|].
  cbn [orb] in E. injection E as <-. repeat split; lia.
Qed.

Lemma conv_block_plain_inv (init : nat -> list R)
    (k cin cout n c h w : nat) (s' : shape) :
  ConvBlock_shape (conv_block init k cin cout false) [n; c; h; w] = Ok s' ->
  c = cin /\ 1 < n * h * w /\ s' = [n; cout; h; w].
Proof.
  intros E. apply conv_block_shape_inv in E.
  destruct E as (? & ? & ? & Heq & P & Hs). cbv iota in Hs.
  injection Heq as <- <- <- <-. subst. auto.
Qed.

Lemma conv_block_pool_inv (init : nat -> list R)
    (k cin cout n c h w : nat) (s' : shape) :
  ConvBlock_shape (conv_block init k cin cout true) [n; c; h; w] = Ok s' ->
  exists h' w',
    h' = h / 2 /\ w' = w / 2 /\ 1 <= h' /\ 1 <= w' /\
    s' = [n; cout; h'; w'].
Proof.
  intros E. apply conv_block_shape_inv in E.
  destruct E as (? & ? & ? & Heq & P & Hs). cbv iota in Hs.
  destruct Hs as (? & ? & ->). injection Heq as <- <- <- <-.
  exists (h / 2), (w / 2). auto.
Qed.

Lemma forward_shape_new (init : nat -> list R)
    (in_channels num_classes n c h w : nat) (s : shape) :
  forward_shape (ResNet9_new init in_channels num_classes) [n; c; h; w] =
    Ok s <->
  c = in_channels /\ 1 <= n /\ 32 <= h < 64 /\ 32 <= w < 64 /\
  s = [n; num_classes].
Proof.
  split.
  - unfold forward_shape, ResBlock_shape, ResNet9_new.
    cbn [conv1 conv2 res1 conv3 conv4 res2 classifier rb1 rb2].
    intros H.
    apply bind_ok in H as (s1 & E1 & H).
    apply conv_block_plain_inv in E1 as (-> & P1 & ->).
    apply bind_ok in H as (s2 & E2 & H).
    apply conv_block_pool_inv in E2
      as (h2 & w2 & Eh2 & Ew2 & Hh2 & Hw2 & ->).
    apply bind_ok in H as (r & E3 & H).
    apply bind_ok in E3 as (s3 & E3 & E3').
    apply conv_block_plain_inv in E3 as (_ & _ & ->).
    apply conv_block_plain_inv in E3' as (_ & _ & ->).
    apply bind_ok in H as (s4 & E4 & H).
    unfold add_shape in E4.
    destruct (list_eq_dec _ _ _) as [_|]; [|discriminate].
    injection E4 as <-.
    apply bind_ok in H as (s5 & E5 & H).
    apply conv_block_pool_inv in E5
      as (h5 & w5 & Eh5 & Ew5 & Hh5 & Hw5 & ->).
    apply bind_ok in H as (s6 & E6 & H).
    apply conv_block_pool_inv in E6
      as (h6 & w6 & Eh6 & Ew6 & Hh6 & Hw6 & ->).
    apply bind_ok in H as (r' & E7 & H).
    apply bind_ok in E7 as (s7 & E7 & E7').
    apply conv_block_plain_inv in E7 as (_ & _ & ->).
    apply conv_block_plain_inv in E7' as (_ & _ & ->).
    apply bind_ok in H as (s8 & E8 & H).
    unfold add_shape in E8.
    destruct (list_eq_dec _ _ _) as [_|]; [|discriminate].
    injection E8 as <-.
    unfold Classifier_shape, MaxPool2d_shape in H.
    destruct (Nat.eqb_spec (h6 / 4) 0); [discriminate|].
    destruct (Nat.eqb_spec (w6 / 4) 0); [discriminate|].
    cbn [orb bind Flatten_shape fold_right Linear_shape Linear_new
         fc1 fc2 fc3 in_features out_features] in H.
    destruct (Nat.eqb_spec (512 * (h6 / 4 * (w6 / 4 * 1))) 512)
      as [E|]; [|discriminate].
    cbn in H. injection H as <-.
    assert (h6 / 4 = 1 /\ w6 / 4 = 1) as [Eh Ew] by nia.
    assert (1 <= n) by (destruct n; [cbn in P1; lia | lia]).
    clear P1 E. repeat split; lia.
  - intros (-> & Hn & Hh & Hw & ->).
    unfold forward_shape, ResBlock_shape, ResNet9_new.
    cbn [conv1 conv2 res1 conv3 conv4 res2 classifier rb1 rb2].
    do 4 (rewrite conv_block_shape by lia; cbv beta iota delta [bind]).
    unfold add_shape at 1.
    destruct (list_eq_dec _ _ _) as [_|N]; [|congruence].
    do 4 (rewrite conv_block_shape by lia; cbv beta iota delta [bind]).
    unfold add_shape.
    destruct (list_eq_dec _ _ _) as [_|N]; [|congruence].
    unfold Classifier_shape, MaxPool2d_shape.
    assert (h / 2 / 2 / 2 / 4 = 1) as Eh by lia.
    assert (w / 2 / 2 / 2 / 4 = 1) as Ew by lia.
    rewrite Eh, Ew. reflexivity.
Qed.

(** The freshly built model maps a batch of [n >= 1] images of shape
    [(c, h, w)] to scores exactly when the images have [in_channels]
    channels and sides of 32 to 63 pixels; the scores then have shape
    [(n, num_classes)].  Every other image size raises in some layer. *)
Theorem forward_shape_accepts (init : nat -> list R)
    (in_channels num_classes n c h w : nat) (s : shape) :
  1 <= n ->
  forward_shape (ResNet9_new init in_channels num_classes) [n; c; h; w] =
    Ok s <->
  c = in_channels /\ 32 <= h < 64 /\ 32 <= w < 64 /\ s = [n; num_classes].
Proof.
  intros Hn. rewrite forward_shape_new. intuition.
Qed.

(** ** Size of the model *)

(** The model has 38 parameter tensors, numbered in registration order,
    holding [6,732,736 + 576 * in_channels + 129 * num_classes] scalars:
    the 6,735,754 that the notebook's summary prints for [ResNet9(3, 10)]. *)
Theorem ResNet9_size (init : nat -> list R) (channels classes : nat) :
  map pid (parameters (ResNet9_new init channels classes)) =
    seq 0 38 /\
  total_params (ResNet9_new init channels classes) =
    (6732736 + 576 * N.of_nat channels + 129 * N.of_nat classes)%N /\
  total_params (ResNet9_new init 3 10) = 6735754%N.
Proof.
  split; [reflexivity|]. split; [|reflexivity].
  unfold total_params, ResBlock_numel, ConvBlock_numel, Conv2d_numel,
    BatchNorm2d_numel, Linear_numel.
  cbn [ResNet9_new conv_block BatchNorm2d_new Linear_new conv1 conv2 res1
       conv3 conv4 res2 classifier rb1 rb2 conv bn fc1 fc2 fc3
       in_channels out_channels kernel_size num_features
       in_features out_features].
  lia.
Qed.

(** ** Gradients of a training step *)

(** After the backward pass and the clipping of a training step, the
    gradient of every parameter is the clipped gradient of this step's loss
    alone: whatever gradients the parameters held before are cleared, not
    accumulated.  The loss is the cross entropy of the scores of this
    batch. *)
Theorem gradients_not_accumulated (m : ResNet9) (inputs : tensor)
    (labels : list nat) (g : generator) :
  let '(loss, m', _) := forward_backward m inputs labels g in
  loss = cross_entropy (fst (fst (forward m inputs g))) labels /\
  map grad (parameters m') =
  map (fun q => Some (map (clamp (- grad_clip) grad_clip)
                        (autograd loss (pid q))))
      (parameters m).
Proof.
  unfold forward_backward.
  pose proof (forward_spec m inputs g) as F.
  destruct (forward m inputs g) as [[out m1] g1]. destruct F as (_ & P & _).
  destruct (Req_dec_T grad_clip 0) as [E|_].
  { unfold grad_clip in E. lra. }
  split; [reflexivity|].
  unfold clip_grad_value_, backward, zero_grad.
  rewrite !parameters_map, !map_map, P. reflexivity.
Qed.

(** ** Hyperparameters seen by the optimizer *)

Lemma annealing_cos_between (a b pct : R) :
  (Rmin a b <= annealing_cos a b pct <= Rmax a b)%R.
Proof.
  unfold annealing_cos. pose proof (COS_bound (PI * pct)) as [Hl Hu].
  unfold Rmin, Rmax. destruct (Rle_dec a b); split; nra.
Qed.

(** At every step index, for every length of the schedule, the learning
    rate lies between the floor [max_lr / 25 / 10000] and the peak
    [max_lr], and the cycled momentum between 0.85 and 0.95. *)
Theorem schedule_bounds (s : OneCycleLR) (k : nat) :
  (0 <= max_lr s)%R ->
  (max_lr s / 25 / 10000 <= get_lr s k <= max_lr s)%R /\
  (0.85 <= get_momentum s k <= 0.95)%R.
Proof.
  intros H. unfold get_lr, get_momentum, anneal_phases, min_lr, initial_lr,
    div_factor, final_div_factor, max_momentum, base_momentum.
  destruct (Rle_dec (INR k) (end_step1 s)).
  - match goal with
    | |- context [annealing_cos (max_lr s / 25) ?b ?p] =>
        pose proof (annealing_cos_between (max_lr s / 25) b p) as B1;
        pose proof (annealing_cos_between 0.95 0.85 p) as B2
    end.
    revert B1 B2. unfold Rmin, Rmax.
    repeat destruct (Rle_dec _ _); intros; split; lra.
  - match goal with
    | |- context [annealing_cos (max_lr s) ?b ?p] =>
        pose proof (annealing_cos_between (max_lr s) b p) as B1;
        pose proof (annealing_cos_between 0.85 0.95 p) as B2
    end.
    revert B1 B2. unfold Rmin, Rmax.
    repeat destruct (Rle_dec _ _); intros; split; lra.
Qed.

Lemma train_batch_group (tl : DataLoader) (st st' : State) (rl rl' : R)
    (i : nat) (idxs : list nat) :
  train_batch tl st rl i idxs = Ok (st', rl') ->
  group_weight_decay (optimizer st) = weight_decay ->
  group_follows_schedule st'.
Proof.
  intros H W. apply train_batch_inv in H.
  destruct H as (? & ? & ? & ? & m & ? & _ & _ & _ & Hs & _).
  unfold scheduler_step in Hs.
  destruct (total_steps (scheduler st) <? S (last_epoch (scheduler st)));
    [discriminate|].
  injection Hs as Es Eo. unfold group_follows_schedule.
  rewrite <- Es, <- Eo. cbn. auto.
Qed.

Lemma train_batches_group (tl : DataLoader) (batches : list (list nat)) :
  forall (st st' : State) (rl : R) (i : nat),
  train_batches tl st rl i batches = Ok st' ->
  group_follows_schedule st -> group_follows_schedule st'.
Proof.
  induction batches as [|idxs rest IH]; intros st st' rl i H Inv;
    cbn [train_batches] in H.
  - injection H as <-. exact Inv.
  - apply bind_ok in H as ([st1 rl1] & E & H).
    apply (IH _ _ _ _ H).
    eapply train_batch_group; [exact E | apply Inv].
Qed.

Lemma training_loop_group (tl : DataLoader) (epochs : nat) :
  forall st st' : State,
  training_loop epochs tl st = Ok st' ->
  group_follows_schedule st -> group_follows_schedule st'.
Proof.
  induction epochs as [|epochs IH]; intros st st' H Inv;
    cbn [training_loop] in H.
  - injection H as <-. exact Inv.
  - apply bind_ok in H as (st1 & E & H). apply (IH _ _ H).
    unfold train_epoch in E. destruct (iter tl (gen st)) as [batches g].
    eapply train_batches_group; [exact E | exact Inv].
Qed.

Lemma OneCycleLR_new_start (o o' : SGD) (peak : R)
    (steps_per_epoch epochs : nat) (s : OneCycleLR) :
  OneCycleLR_new o peak steps_per_epoch epochs = Ok (s, o') ->
  4 <= epochs * steps_per_epoch ->
  last_epoch s = 0 /\
  group_lr o' = get_lr s 0 /\
  group_momentum o' = get_momentum s 0 /\
  group_weight_decay o' = group_weight_decay o /\
  get_lr s 0 = (peak / 25)%R /\
  get_momentum s 0 = 0.95%R.
Proof.
  unfold OneCycleLR_new. intros H Ht.
  remember (epochs * steps_per_epoch) as total eqn:Et. clear Et.
  destruct (total =? 0); [discriminate|]. injection H as <- <-.
  assert (L : (4 <= INR total)%R).
  { replace 4%R with (INR 4) by (cbn; lra). now apply le_INR. }
  split; [reflexivity|]. split; [reflexivity|]. split; [reflexivity|].
  split; [reflexivity|].
  unfold get_lr, get_momentum, anneal_phases, end_step1, pct_start,
    initial_lr, div_factor, max_momentum.
  cbn [total_steps max_lr INR].
  destruct (Rle_dec 0 (0.3 * INR total - 1)) as [_|N]; [|exfalso; lra].
  replace ((0 - 0) / (0.3 * INR total - 1 - 0))%R with 0%R by (field; lra).
  rewrite !annealing_cos_0. split; reflexivity.
Qed.

(** The learning rate 0.01 and the momentum 0.9 given to the optimizer are
    replaced when the scheduler is built: training starts with learning
    rate 0.004 and momentum 0.95, with the weight decay 0.0005.  After any
    number of completed epochs the optimizer holds the learning rate and
    the momentum of the schedule at the current step index. *)
Theorem optimizer_follows_schedule (tl : DataLoader)
    (init : nat -> list R) (g : generator) (st0 : State) :
  setup tl init g = Ok st0 ->
  group_lr (optimizer st0) = 0.004%R /\
  group_momentum (optimizer st0) = 0.95%R /\
  group_weight_decay (optimizer st0) = 0.0005%R /\
  forall epochs st,
    training_loop epochs tl st0 = Ok st -> group_follows_schedule st.
Proof.
  unfold setup. intros H.
  apply bind_ok in H as ([s o] & E & H). injection H as <-.
  assert (Ht : 4 <= num_epochs * len tl).
  { unfold OneCycleLR_new in E.
    destruct (Nat.eqb_spec (num_epochs * len tl) 0) as [|Hn];
      [discriminate|].
    unfold num_epochs in *. lia. }
  destruct (OneCycleLR_new_start _ _ _ _ E Ht)
    as (L0 & Hlr & Hmo & Hwd & Elr & Emo).
  cbn [optimizer scheduler].
  split; [rewrite Hlr, Elr; lra|].
  split; [rewrite Hmo, Emo; reflexivity|].
  split; [rewrite Hwd; reflexivity|].
  intros epochs st Et. eapply training_loop_group; [exact Et|].
  unfold group_follows_schedule. cbn [optimizer scheduler].
  rewrite L0. auto.
Qed.

(** ** The scheduler's budget of steps *)

Lemma training_loop_snoc (tl : DataLoader) (epochs : nat) :
  forall st : State,
  training_loop (S epochs) tl st =
  (st' <- training_loop epochs tl st ;; train_epoch tl st').
Proof.
  induction epochs as [|epochs IH]; intros st.
  - cbn [training_loop bind]. destruct (train_epoch tl st); reflexivity.
  - change (training_loop (S (S epochs)) tl st)
      with (st1 <- train_epoch tl st ;; training_loop (S epochs) tl st1).
    cbn [training_loop].
    destruct (train_epoch tl st) as [st1|e]; cbn [bind]; [|reflexivity].
    apply IH.
Qed.

Lemma train_epoch_exhausted (tl : DataLoader) (st : State) :
  0 < dl_batch_size tl -> 0 < len tl ->
  total_steps (scheduler st) <= last_epoch (scheduler st) ->
  train_epoch tl st = Raise ValueError.
Proof.
  intros Hbs Hlen Hs. unfold train_epoch.
  pose proof (iter_valid tl (gen st)) as Hv.
  pose proof (iter_length tl (gen st) Hbs) as Hl.
  destruct (iter tl (gen st)) as [batches g]. cbn [fst] in *.
  destruct batches as [|idxs rest]; [cbn in Hl; lia|].
  inversion Hv as [|? ? Hi _]; subst.
  cbn [train_batches]. unfold train_batch.
  destruct (fetch_ok (gen (with_gen st g)) Hi) as (inputs & g' & -> & _).
  cbn [bind].
  destruct (forward_backward _ _ _ g') as [[loss m] g''].
  unfold SGD_step, scheduler_step. cbn [scheduler with_gen].
  destruct (Nat.ltb_spec (total_steps (scheduler st))
              (S (last_epoch (scheduler st)))); [reflexivity | lia].
Qed.

(** The scheduler is built for exactly [num_epochs] epochs: from the state
    of the setup, training for up to 40 epochs returns with the step index
    at [epochs * len(trainloader)], and training for more raises the
    scheduler's [ValueError]. *)
Theorem training_budget (tl : DataLoader) (init : nat -> list R)
    (g : generator) (st0 : State) (epochs : nat) :
  0 < dl_batch_size tl ->
  setup tl init g = Ok st0 ->
  (epochs <= num_epochs ->
   exists st,
     training_loop epochs tl st0 = Ok st /\
     last_epoch (scheduler st) = epochs * len tl) /\
  (num_epochs < epochs -> training_loop epochs tl st0 = Raise ValueError).
Proof.
  intros Hbs H. pose proof (setup_inv _ _ _ H) as (Tt & L0 & _).
  assert (Hlen : 0 < len tl).
  { unfold setup, OneCycleLR_new in H.
    destruct (Nat.eqb_spec (num_epochs * len tl) 0) as [|Hn];
      [discriminate|].
    unfold num_epochs in Hn. lia. }
  split.
  - intros He.
    destruct (@training_loop_ok _ tl epochs st0 Hbs) as (st & E & L & _).
    { rewrite L0, Tt. cbn [Nat.add]. apply Nat.mul_le_mono_r. exact He. }
    exists st. split; [exact E|]. rewrite L, L0. reflexivity.
  - intros He.
    assert (Hind : forall d,
               training_loop (S (num_epochs + d)) tl st0 = Raise ValueError).
    { induction d as [|d IH].
      - rewrite Nat.add_0_r, training_loop_snoc.
        destruct (@training_loop_ok _ tl num_epochs st0 Hbs)
          as (st & -> & L & Tt' & _).
        { rewrite L0, Tt. apply Nat.le_refl. }
        cbn [bind]. apply train_epoch_exhausted; auto.
        rewrite Tt', Tt, L, L0. apply Nat.le_refl.
      - rewrite Nat.add_succ_r, training_loop_snoc, IH. reflexivity. }
    replace epochs with (S (num_epochs + (epochs - S num_epochs))) by lia.
    apply Hind.
Qed.

(** ** Figures reported by the accuracy cells *)

Lemma sum_item_le (c : list bool) : sum_item c <= length c.
Proof. apply count_occ_bound. Qed.

Lemma accuracy_batch_le (loader : DataLoader) (st st' : State)
    (c t c' t' : nat) (idxs : list nat) :
  accuracy_batch loader (st, c, t) idxs = Ok (st', c', t') ->
  c' + t <= c + t' /\ optimizer st' = optimizer st.
Proof.
  unfold accuracy_batch. intros H.
  apply bind_ok in H as ([[images labels] g] & _ & H).
  destruct (forward (model st) images g) as [[out m'] g'].
  apply bind_ok in H as (eq & E & H). injection H as <- <- <-.
  unfold tensor_eq in E.
  destruct (Nat.eqb_spec (length (argmax1 out)) (length labels)) as [L|];
    [|discriminate].
  injection E as <-. split; [|reflexivity].
  pose proof (sum_item_le (map2 Nat.eqb (argmax1 out) labels)) as Hle.
  rewrite map2_length in Hle by exact L. lia.
Qed.

Lemma accuracy_batches_le (loader : DataLoader) (batches : list (list nat)) :
  forall (st st' : State) (c t c' t' : nat),
  accuracy_batches loader (st, c, t) batches = Ok (st', c', t') ->
  c' + t <= c + t' /\ optimizer st' = optimizer st.
Proof.
  induction batches as [|idxs rest IH]; intros st st' c t c' t' H;
    cbn [accuracy_batches] in H.
  - injection H as <- <- <-. split; [lia | reflexivity].
  - apply bind_ok in H as ([[st1 c1] t1] & E & H).
    apply accuracy_batch_le in E as (L1 & O1).
    apply IH in H as (L2 & O2). split; [lia | congruence].
Qed.

Lemma percent_bounds (correct total : nat) :
  0 < total -> correct <= total ->
  (0 <= percent correct total <= 100)%R.
Proof.
  intros Ht Hc. unfold percent.
  assert (0 < INR total)%R by (apply lt_0_INR; exact Ht).
  pose proof (pos_INR correct). apply le_INR in Hc.
  split.
  - apply Rmult_le_pos; [nra|]. left. now apply Rinv_0_lt_compat.
  - apply Rmult_le_reg_r with (INR total); [assumption|].
    unfold Rdiv. rewrite Rmult_assoc, Rinv_l by lra. lra.
Qed.

(** On any loader, the accuracy cell returns, scores every sample of the
    data set once, never counts more correct predictions than samples, and
    leaves optimizer and scheduler alone.  Its [print] shows a percentage
    between 0 and 100, unless the data set is empty: then the division
    raises [ZeroDivisionError]. *)
Theorem accuracy_figures (loader : DataLoader) (st : State) :
  exists st' correct,
    accuracy loader st =
      Ok (st', correct, length (samples (dataset loader))) /\
    correct <= length (samples (dataset loader)) /\
    optimizer st' = optimizer st /\
    scheduler st' = scheduler st /\
    match report correct (length (samples (dataset loader))) with
    | ZeroDivisionError => samples (dataset loader) = []
    | Percent x => samples (dataset loader) <> [] /\ (0 <= x <= 100)%R
    end.
Proof.
  destruct (accuracy_ok loader st) as (st' & c & E & _ & _ & Sc).
  exists st', c. split; [exact E|].
  assert (L : c <= length (samples (dataset loader)) /\
              optimizer st' = optimizer st).
  { unfold accuracy in E. destruct (iter loader (gen st)) as [batches g].
    apply accuracy_batches_le in E as (L & O). split; [lia | exact O]. }
  destruct L as (L & O). split; [exact L|]. split; [exact O|].
  split; [exact Sc|]. unfold report.
  destruct (samples (dataset loader)) as [|a l] eqn:Es; cbn [length Nat.eqb].
  - reflexivity.
  - split; [discriminate|]. apply percent_bounds; cbn [length] in *; lia.
Qed.

(** ** Counters of the per-class cell *)

Lemma list_get_inv {A} (l : list A) (i : nat) (a d : A) :
  list_get l i = Ok a -> i < length l /\ nth i l d = a.
Proof.
  unfold list_get. destruct (nth_error l i) eqn:E; [|discriminate].
  intros [= <-]. split; [apply nth_error_Some; congruence|].
  now apply nth_error_nth.
Qed.

Lemma per_class_sample_inv (labels : list nat) (c : squeezed)
    (cc ct cc' ct' : list nat) (i : nat) :
  per_class_sample labels c (cc, ct) i = Ok (cc', ct') ->
  length cc' = length cc /\ length ct' = length ct /\
  (counters_le cc ct -> counters_le cc' ct').
Proof.
  unfold per_class_sample. intros H.
  apply bind_ok in H as (label & _ & H).
  apply bind_ok in H as (old & E1 & H).
  apply bind_ok in H as (ci & E2 & H).
  apply bind_ok in H as (old' & E3 & H). injection H as <- <-.
  apply (list_get_inv _ _ 0) in E1 as (L1 & <-).
  apply (list_get_inv _ _ 0) in E3 as (L3 & <-).
  rewrite !list_set_length. split; [reflexivity|]. split; [reflexivity|].
  intros Inv k. rewrite !list_set_nth by assumption.
  assert (ci <= 1).
  { unfold squeezed_item in E2. destruct c as [|l]; [discriminate|].
    destruct (nth_error l i) as [[|]|]; try discriminate;
      injection E2 as <-; lia. }
  destruct (k =? label); [|apply Inv]. specialize (Inv label). lia.
Qed.

Lemma per_class_samples_inv (labels : list nat) (c : squeezed)
    (range : list nat) :
  forall cc ct cc' ct' : list nat,
  per_class_samples labels c (cc, ct) range = Ok (cc', ct') ->
  length cc' = length cc /\ length ct' = length ct /\
  (counters_le cc ct -> counters_le cc' ct').
Proof.
  induction range as [|i rest IH]; intros cc ct cc' ct' H;
    cbn [per_class_samples] in H.
  - injection H as <- <-. auto.
  - apply bind_ok in H as ([cc1 ct1] & E & H).
    apply per_class_sample_inv in E as (L1 & L2 & I1).
    apply IH in H as (L1' & L2' & I2).
    repeat split; [congruence | congruence | auto].
Qed.

Lemma per_class_batch_inv (loader : DataLoader) (st st' : State)
    (cc ct cc' ct' : list nat) (idxs : list nat) :
  per_class_batch loader (st, (cc, ct)) idxs = Ok (st', (cc', ct')) ->
  length cc' = length cc /\ length ct' = length ct /\
  (counters_le cc ct -> counters_le cc' ct').
Proof.
  unfold per_class_batch. intros H.
  apply bind_ok in H as ([[images labels] g] & _ & H).
  destruct (forward (model st) images g) as [[out m'] g'].
  apply bind_ok in H as (eq & _ & H).
  apply bind_ok in H as ([cc1 ct1] & E & H). injection H as _ <- <-.
  exact (per_class_samples_inv _ _ _ _ _ E).
Qed.

Lemma per_class_batches_inv (loader : DataLoader)
    (batches : list (list nat)) :
  forall (st st' : State) (cc ct cc' ct' : list nat),
  per_class_batches loader (st, (cc, ct)) batches = Ok (st', (cc', ct')) ->
  length cc' = length cc /\ length ct' = length ct /\
  (counters_le cc ct -> counters_le cc' ct').
Proof.
  induction batches as [|idxs rest IH]; intros st st' cc ct cc' ct' H;
    cbn [per_class_batches] in H.
  - injection H as <- <- <-. auto.
  - apply bind_ok in H as ([st1 [cc1 ct1]] & E & H).
    apply per_class_batch_inv in E as (L1 & L2 & I1).
    apply IH in H as (L1' & L2' & I2).
    repeat split; [congruence | congruence | auto].
Qed.

(** Over a data set made of full batches with labels below 10, cell 15
    returns; for every class, [class_total] is the number of samples of
    the class and [class_correct] does not exceed it.  The per-class
    [print] shows a percentage between 0 and 100 for a class that has
    samples and raises [ZeroDivisionError] for a class that has none. *)
Theorem per_class_figures (loader : DataLoader) (st : State) :
  dl_batch_size loader = batch_size ->
  length (samples (dataset loader)) mod batch_size = 0 ->
  Forall (fun y => y < 10) (map snd (samples (dataset loader))) ->
  exists st' class_correct class_total,
    per_class_accuracy loader st = Ok (st', (class_correct, class_total)) /\
    length class_correct = 10 /\ length class_total = 10 /\
    forall k,
      let count :=
        count_occ Nat.eq_dec (map snd (samples (dataset loader))) k in
      nth k class_total 0 = count /\
      nth k class_correct 0 <= count /\
      match report (nth k class_correct 0) (nth k class_total 0) with
      | ZeroDivisionError => count = 0
      | Percent x => 0 < count /\ (0 <= x <= 100)%R
      end.
Proof.
  intros Hbs Hm Hy.
  destruct (per_class_accuracy_full loader st Hbs Hm Hy)
    as (st' & cc & ct & E & Lt & Hn & _).
  exists st', cc, ct. split; [exact E|].
  unfold per_class_accuracy in E.
  destruct (iter loader (gen st)) as [batches g].
  apply per_class_batches_inv in E as (Lc & _ & Inv).
  split; [rewrite Lc; reflexivity|]. split; [exact Lt|].
  assert (I : counters_le cc ct).
  { apply Inv. intros k. do 11 (destruct k as [|k]; [cbn; lia|]). cbn. lia. }
  intros k count. subst count. rewrite <- Hn.
  split; [reflexivity|]. split; [apply I|].
  unfold report. destruct (Nat.eqb_spec (nth k ct 0) 0) as [E0|N0];
    [exact E0|].
  split; [lia|]. apply percent_bounds; [lia | apply I].
Qed.

(** ** When cell 15, and the notebook, return *)

Lemma per_class_samples_bad (labels : list nat) (c : squeezed)
    (i y : nat) (range : list nat) :
  forall cc ct : list nat,
  length cc = 10 ->
  In i range -> nth_error labels i = Some y -> 10 <= y ->
  per_class_samples labels c (cc, ct) range = Raise IndexError.
Proof.
  induction range as [|j rest IH]; intros cc ct Lc Hin Hy Hge;
    [destruct Hin|].
  cbn [per_class_samples].
  destruct (per_class_sample labels c (cc, ct) j) as [[cc1 ct1]|e] eqn:E;
    cbn [bind].
  - pose proof (per_class_sample_inv _ _ _ _ _ E) as (L1 & _ & _).
    destruct Hin as [->|Hin].
    + exfalso. unfold per_class_sample in E. unfold list_get at 1 in E.
      rewrite Hy in E. cbn [bind] in E.
      unfold list_get at 1 in E.
      destruct (nth_error cc y) eqn:N; [|discriminate].
      assert (y < length cc) by (apply nth_error_Some; congruence). lia.
    + apply IH; auto. congruence.
  - now rewrite (per_class_sample_raises _ _ _ _ E).
Qed.

Lemma per_class_batch_bad (loader : DataLoader) (st : State)
    (cc ct : list nat) (idxs : list nat) :
  valid_batch (dataset loader) idxs ->
  length idxs = batch_size ->
  Exists (fun y => 10 <= y) (targets_of (dataset loader) idxs) ->
  length cc = 10 ->
  per_class_batch loader (st, (cc, ct)) idxs = Raise IndexError.
Proof.
  intros Hv Hl Hex Lc.
  destruct (@per_class_batch_eq _ loader st (cc, ct) idxs Hv)
    as (st' & c & _ & _ & _ & ->).
  apply Exists_exists in Hex as (y & Hin & Hge).
  apply In_nth_error in Hin as (i & Hi).
  assert (i < batch_size).
  { rewrite <- Hl, <- (targets_of_length (dataset loader)).
    apply nth_error_Some. congruence. }
  rewrite (@per_class_samples_bad _ _ i y); auto.
  apply in_seq. lia.
Qed.

Lemma per_class_batches_bad (loader : DataLoader)
    (batches : list (list nat)) :
  forall (st : State) (cc ct : list nat),
  Forall (valid_batch (dataset loader)) batches ->
  Forall (fun b => length b = batch_size) batches ->
  Exists (fun b => Exists (fun y => 10 <= y) (targets_of (dataset loader) b))
    batches ->
  length cc = 10 ->
  per_class_batches loader (st, (cc, ct)) batches = Raise IndexError.
Proof.
  induction batches as [|idxs rest IH]; intros st cc ct Hv Hf Hex Lc;
    [inversion Hex|].
  inversion Hv as [|? ? Hi Hrest]; subst.
  inversion Hf as [|? ? Hfi Hfrest]; subst.
  cbn [per_class_batches].
  destruct (per_class_batch loader (st, (cc, ct)) idxs)
    as [[st1 [cc1 ct1]]|e] eqn:E; cbn [bind].
  - pose proof (per_class_batch_inv _ _ _ _ _ E) as (L1 & _ & _).
    inversion Hex as [? ? Hb|? ? Hr]; subst.
    + rewrite per_class_batch_bad in E by assumption. discriminate.
    + apply IH; auto. congruence.
  - now rewrite (per_class_batch_raises _ _ _ Hi E).
Qed.

Lemma per_class_accuracy_bad (loader : DataLoader) (st : State) :
  dl_batch_size loader = batch_size ->
  length (samples (dataset loader)) mod batch_size <> 0 \/
  Exists (fun y => 10 <= y) (map snd (samples (dataset loader))) ->
  per_class_accuracy loader st = Raise IndexError.
Proof.
  intros Hbs H.
  destruct (Nat.eq_dec (length (samples (dataset loader)) mod batch_size) 0)
    as [Hm|Hm]; [|now apply per_class_accuracy_ragged].
  destruct H as [H|Hex]; [contradiction|].
  unfold per_class_accuracy.
  pose proof (iter_valid loader (gen st)) as Hv.
  pose proof (iter_targets loader (gen st)) as Ht.
  pose proof (iter_full loader (gen st)) as Hf.
  rewrite Hbs in Hf. specialize (Hf ltac:(unfold batch_size; lia) Hm).
  destruct (iter loader (gen st)) as [batches g]. cbn [fst] in *.
  apply per_class_batches_bad; auto.
  apply Exists_exists in Hex as (y & Hin & Hge).
  apply (Permutation_in _ (Permutation_sym Ht)) in Hin.
  unfold targets_of in Hin. apply in_map_iff in Hin as (i & Ei & Hi).
  apply in_concat in Hi as (b & Hb & Hib).
  apply Exists_exists. exists b. split; [exact Hb|].
  apply Exists_exists. exists y. split; [|exact Hge].
  unfold targets_of. apply in_map_iff. eauto.
Qed.

(** Cell 15 returns exactly on the data sets made of full batches whose
    labels are all below 10; on every other data set it raises
    [IndexError], from [labels[i]] on a smaller last batch or from
    [class_correct[label]] on a label past the ten counters. *)
Theorem per_class_outcome (loader : DataLoader) (st : State) :
  dl_batch_size loader = batch_size ->
  let labels := map snd (samples (dataset loader)) in
  (length labels mod batch_size = 0 /\ Forall (fun y => y < 10) labels ->
   exists r, per_class_accuracy loader st = Ok r) /\
  (length labels mod batch_size <> 0 \/ Exists (fun y => 10 <= y) labels ->
   per_class_accuracy loader st = Raise IndexError).
Proof.
  intros Hbs labels. subst labels. rewrite length_map. split.
  - intros (Hm & Hy).
    destruct (per_class_accuracy_full loader st Hbs Hm Hy)
      as (st' & cc & ct & E & _). eauto.
  - now apply per_class_accuracy_bad.
Qed.



(** ** What evaluation does to the batch-norm buffers *)

Lemma ConvBlock_forward_tracked (m : ConvBlock) (x : tensor) :
  num_batches_tracked (bn (snd (ConvBlock_forward m x))) =
  if bn_training (bn m) then S (num_batches_tracked (bn m))
  else num_batches_tracked (bn m).
Proof.
  unfold ConvBlock_forward, BatchNorm2d_forward.
  destruct (bn_training (bn m)); [destruct running_update|]; reflexivity.
Qed.

Lemma forward_tracked (m : ResNet9) (x : tensor) (g : generator) :
  training_flags m = repeat true 12 ->
  batches_tracked (snd (fst (forward m x g))) = map S (batches_tracked m).
Proof.
  unfold training_flags, batches_tracked. cbn [repeat map].
  intros [= F1 F2 F3 F4 _ F5 F6 F7 F8 _ _ _].
  unfold forward, ResBlock_forward.
  pose proof (ConvBlock_forward_tracked (conv1 m) x) as T1.
  destruct (ConvBlock_forward (conv1 m) x) as [o1 c1].
  pose proof (ConvBlock_forward_tracked (conv2 m) o1) as T2.
  destruct (ConvBlock_forward (conv2 m) o1) as [o2 c2].
  pose proof (ConvBlock_forward_tracked (rb1 (res1 m)) o2) as T3.
  destruct (ConvBlock_forward (rb1 (res1 m)) o2) as [o3 b1].
  pose proof (ConvBlock_forward_tracked (rb2 (res1 m)) o3) as T4.
  destruct (ConvBlock_forward (rb2 (res1 m)) o3) as [o4 b2].
  destruct (Dropout_forward (rdrop (res1 m)) o4 g) as [o5 g5].
  pose proof (ConvBlock_forward_tracked (conv3 m) (tadd o5 o2)) as T5.
  destruct (ConvBlock_forward (conv3 m) (tadd o5 o2)) as [o6 c3].
  pose proof (ConvBlock_forward_tracked (conv4 m) o6) as T6.
  destruct (ConvBlock_forward (conv4 m) o6) as [o7 c4].
  pose proof (ConvBlock_forward_tracked (rb1 (res2 m)) o7) as T7.
  destruct (ConvBlock_forward (rb1 (res2 m)) o7) as [o8 b3].
  pose proof (ConvBlock_forward_tracked (rb2 (res2 m)) o8) as T8.
  destruct (ConvBlock_forward (rb2 (res2 m)) o8) as [o9 b4].
  destruct (Dropout_forward (rdrop (res2 m)) o9 g5) as [o10 g10].
  destruct (Classifier_forward (classifier m) (tadd o10 o7) g10) as [o11 g11].
  cbn [fst snd conv1 conv2 res1 conv3 conv4 res2 rb1 rb2] in *.
  rewrite F1 in T1. rewrite F2 in T2. rewrite F3 in T3. rewrite F4 in T4.
  rewrite F5 in T5. rewrite F6 in T6. rewrite F7 in T7. rewrite F8 in T8.
  congruence.
Qed.

Lemma accuracy_batches_tracked (loader : DataLoader)
    (batches : list (list nat)) :
  forall (st st' : State) (c t c' t' : nat),
  accuracy_batches loader (st, c, t) batches = Ok (st', c', t') ->
  training_flags (model st) = repeat true 12 ->
  batches_tracked (model st') =
  map (fun k => k + length batches) (batches_tracked (model st)).
Proof.
  induction batches as [|idxs rest IH]; intros st st' c t c' t' H Fl;
    cbn [accuracy_batches length] in *.
  - injection H as <- _ _. rewrite <- (map_id (batches_tracked (model st)))
      at 1. apply map_ext. intros k. lia.
  - apply bind_ok in H as ([[st1 c1] t1] & E & H).
    unfold accuracy_batch in E.
    apply bind_ok in E as ([[images labels] g] & _ & E).
    pose proof (@forward_tracked (model st) images g Fl) as Tr.
    pose proof (forward_spec (model st) images g) as Sp.
    destruct (forward (model st) images g) as [[out m'] g'].
    destruct Sp as (_ & _ & Fl'). cbn [fst snd] in Tr.
    apply bind_ok in E as (eq & _ & E). injection E as <- _ _.
    rewrite (IH _ _ _ _ _ _ H) by (cbn [model]; congruence).
    cbn [model]. rewrite Tr, map_map. apply map_ext. intros k. lia.
Qed.

(** As the notebook runs it, in training mode, a pass of the accuracy cell
    is not free of side effects on the model: it advances the
    [num_batches_tracked] buffer of each of the eight batch norms by the
    number of batches of the loader, since every batch updates the running
    statistics. *)
Theorem evaluation_updates_buffers (loader : DataLoader) (st : State) :
  0 < dl_batch_size loader ->
  training_flags (model st) = repeat true 12 ->
  exists st' correct total,
    accuracy loader st = Ok (st', correct, total) /\
    batches_tracked (model st') =
    map (fun k => k + len loader) (batches_tracked (model st)).
Proof.
  intros Hbs Fl.
  destruct (accuracy_ok loader st) as (st' & c & E & _).
  exists st', c, (length (samples (dataset loader))). split; [exact E|].
  unfold accuracy in E.
  pose proof (iter_length loader (gen st) Hbs) as Hl.
  destruct (iter loader (gen st)) as [batches g]. cbn [fst] in Hl.
  rewrite <- Hl.
  exact (accuracy_batches_tracked _ _ _ _ _ E Fl).
Qed.

(** ** Evaluation in inference mode *)

Lemma forward_flags_false (m : ResNet9) (x : tensor) (g g' : generator) :
  training_flags m = repeat false 12 ->
  forward m x g = (fst (fst (forward m x g')), m, g).
Proof.
  destruct m as [[cv1 [? ? ? ? ? ? t1] p1] [cv2 [? ? ? ? ? ? t2] p2]
                 [[cv3 [? ? ? ? ? ? t3] p3] [cv4 [? ? ? ? ? ? t4] p4] [q1 d1]]
                 [cv5 [? ? ? ? ? ? t5] p5] [cv6 [? ? ? ? ? ? t6] p6]
                 [[cv7 [? ? ? ? ? ? t7] p7] [cv8 [? ? ? ? ? ? t8] p8] [q2 d2]]
                 [[q3 d3] l1 l2 [q4 d4] l3]].
  unfold training_flags. cbn [repeat conv1 conv2 res1 conv3 conv4 res2
    classifier rb1 rb2 rdrop cdrop1 cdrop2 bn bn_training drop_training].
  intros [= -> -> -> -> -> -> -> -> -> -> -> ->]. reflexivity.
Qed.

Lemma fetch_test (mean std : stats) (test_data : list sample)
    (idxs : list nat) :
  valid_batch (dataset (make_testloader mean std test_data)) idxs ->
  exists images,
    size0 images = length idxs /\
    forall g,
      fetch (dataset (make_testloader mean std test_data)) idxs g =
      Ok (images,
          targets_of (dataset (make_testloader mean std test_data)) idxs, g).
Proof.
  intros Hv. unfold fetch.
  assert (H : exists xs, length xs = length idxs /\ forall g,
               fetch_samples (dataset (make_testloader mean std test_data))
                 idxs g =
               Ok (xs, targets_of
                         (dataset (make_testloader mean std test_data)) idxs,
                   g)).
  { induction idxs as [|i rest IH].
    - exists []. split; reflexivity.
    - inversion Hv as [|? ? Hi Hrest]; subst.
      destruct (IH Hrest) as (xs & L & Hxs).
      cbn [fetch_samples targets_of map]. unfold getitem.
      unfold targets_of in Hxs.
      cbn [make_testloader dataset samples transform] in *.
      destruct (nth_error test_data i) as [[img y]|] eqn:E.
      2:{ apply nth_error_None in E. lia. }
      exists (Normalize mean std (ToTensor img) :: xs).
      split; [cbn; congruence|].
      intros g. unfold test_transform. cbn [bind].
      rewrite Hxs. reflexivity. }
  destruct H as (xs & L & Hxs). exists (collate xs).
  split; [now rewrite size0_collate|].
  intros g. rewrite Hxs. reflexivity.
Qed.

Lemma accuracy_batches_inference (mean std : stats)
    (test_data : list sample) (m : ResNet9) (o : SGD) (s : OneCycleLR)
    (g0 : generator) (batches : list (list nat)) :
  training_flags m = repeat false 12 ->
  Forall (valid_batch (dataset (make_testloader mean std test_data)))
    batches ->
  exists k,
    forall g c t,
      accuracy_batches (make_testloader mean std test_data)
        ({| model := m; optimizer := o; scheduler := s; gen := g |}, c, t)
        batches =
      Ok ({| model := m; optimizer := o; scheduler := s; gen := g |},
          c + k, t + length (concat batches)).
Proof.
  intros Fl Hv. induction batches as [|idxs rest IH].
  - exists 0. intros g c t. cbn. now rewrite !Nat.add_0_r.
  - inversion Hv as [|? ? Hi Hrest]; subst.
    destruct (IH Hrest) as (k & Hk).
    destruct (fetch_test Hi) as (images & Sz & Hf).
    pose proof (predicted_length m images g0) as Lp.
    set (labels := targets_of (dataset (make_testloader mean std test_data))
                     idxs) in *.
    set (out := fst (fst (forward m images g0))) in *.
    exists (sum_item (map2 Nat.eqb (argmax1 out) labels) + k).
    intros g c t. cbn [accuracy_batches concat]. unfold accuracy_batch.
    cbn [gen model optimizer scheduler]. rewrite Hf. cbn [bind].
    rewrite (@forward_flags_false m images g g0 Fl). fold out.
    unfold tensor_eq. unfold labels at 1.
    rewrite Lp, Sz, targets_of_length, Nat.eqb_refl. cbn [bind].
    rewrite Hk, length_app. unfold labels. rewrite targets_of_length.
    f_equal. f_equal; [f_equal|]; lia.
Qed.

(** Had the model been switched to inference mode, the test-accuracy cell
    would be repeatable: over the unshuffled, unaugmented test pipeline it
    returns the model, the optimizer and the scheduler exactly as it
    received them, and its figure does not depend on the state of the
    random generator.  Nothing is said of the generator it leaves behind. *)
Theorem inference_mode_evaluation (mean std : stats)
    (test_data : list sample) (m : ResNet9) (o : SGD) (s : OneCycleLR)
    (g0 : generator) :
  training_flags m = repeat false 12 ->
  exists correct,
    forall g, exists g',
      accuracy (make_testloader mean std test_data)
        {| model := m; optimizer := o; scheduler := s; gen := g |} =
      Ok ({| model := m; optimizer := o; scheduler := s; gen := g' |},
          correct, length test_data).
Proof.
  intros Fl.
  assert (Hi : forall g,
             iter (make_testloader mean std test_data) g =
             (batch_sampler batch_size [] (seq 0 (length test_data)), g))
    by reflexivity.
  pose proof (iter_valid (make_testloader mean std test_data) g0) as Hv.
  pose proof (iter_perm (make_testloader mean std test_data) g0) as Hp.
  rewrite Hi in Hv, Hp. cbn [fst] in Hv, Hp.
  destruct (accuracy_batches_inference o s g0 Fl Hv) as (k & Hk).
  exists k. intros g. exists g. unfold accuracy. cbn [gen]. rewrite Hi.
  unfold with_gen. cbn [model optimizer scheduler].
  rewrite Hk. rewrite (Permutation_length Hp), length_seq. reflexivity.
Qed.

(** ** Batches of one pass *)

Lemma batch_sampler_sizes (bs : nat) (idxs batch : list nat) :
  length batch < bs ->
  exists full last,
    batch_sampler bs batch idxs = full ++ last /\
    Forall (fun b => length b = bs) full /\
    (last = [] \/ exists b, last = [b] /\ 0 < length b < bs).
Proof.
  revert batch. induction idxs as [|idx rest IH]; intros batch Hb;
    cbn [batch_sampler].
  - exists []. destruct batch as [|b batch].
    + exists []. auto.
    + exists [b :: batch]. split; [reflexivity|]. split; [constructor|].
      right. eexists. split; [reflexivity|]. cbn [length] in *. lia.
  - destruct (Nat.eqb_spec (length (batch ++ [idx])) bs) as [E|E].
    + destruct (IH []) as (full & last & -> & Hf & Hl);
        [cbn [length]; lia|].
      exists ((batch ++ [idx]) :: full), last.
      split; [reflexivity|]. split; [constructor; assumption | exact Hl].
    + apply IH. rewrite length_app in *. cbn [length] in *. lia.
Qed.

(** One pass over a loader cuts a permutation of the positions of the data
    set (the positions in order when the loader does not shuffle) into
    [len(loader)] batches: every batch but the last has [batch_size]
    indices, and the last one, when it is smaller, is not empty. *)
Theorem pass_partition (dl : DataLoader) (g : generator) :
  0 < dl_batch_size dl ->
  let batches := fst (iter dl g) in
  let n := length (samples (dataset dl)) in
  Permutation (concat batches) (seq 0 n) /\
  (shuffle dl = false -> concat batches = seq 0 n) /\
  length batches = len dl /\
  exists full last,
    batches = full ++ last /\
    Forall (fun b => length b = dl_batch_size dl) full /\
    (last = [] \/ exists b, last = [b] /\ 0 < length b < dl_batch_size dl).
Proof.
  intros Hbs batches n. subst batches n.
  split; [apply iter_perm|]. split; [|split; [now apply iter_length|]].
  - intros Hs. unfold iter, sampler. rewrite Hs. cbn [fst].
    apply batch_sampler_concat.
  - unfold iter. destruct (sampler dl g) as [idxs g']. cbn [fst].
    apply batch_sampler_sizes. cbn [length]. exact Hbs.
Qed.

End Extras.

(** ** Concrete runs on the small framework *)

Module Examples.

#[local] Existing Instance Tiny.torch.
Import Tiny.

(** C1, at the place where the code departs from it: two consecutive runs
    of the test-accuracy cell over the same one-sample, unshuffled,
    unaugmented test pipeline, with the same parameters, report 1 correct
    out of 1 and then 0 correct out of 1.  The model is still in training
    mode, and the second run draws a dropout mask that zeroes the input of
    the classifier head. *)
Theorem evaluation_twice_differs :
  let st := frozen [false; false; false; false; false; false; true; false] in
  exists st1 st2,
    accuracy one_sample_test st = Ok (st1, 1, 1) /\
    accuracy one_sample_test st1 = Ok (st2, 0, 1) /\
    parameters (model st1) = parameters (model st) /\
    parameters (model st2) = parameters (model st).
Proof.
  cbv zeta. do 2 eexists.
  split; [vm_compute; reflexivity|].
  split; [vm_compute; reflexivity|].
  split; vm_compute; reflexivity.
Qed.

(** With no unit dropped the same two runs agree: the difference above
    comes from the dropout draws alone. *)
Example evaluation_twice_without_drops :
  let st := frozen (repeat false 8) in
  exists st1 st2,
    accuracy one_sample_test st = Ok (st1, 1, 1) /\
    accuracy one_sample_test st1 = Ok (st2, 1, 1).
Proof.
  cbv zeta. do 2 eexists. split; vm_compute; reflexivity.
Qed.

(** The prediction for the picture: class 1 in inference mode, whatever the
    generator holds; class 0 as the notebook evaluates it, when the
    classifier's first dropout zeroes its input. *)
Example prediction_depends_on_mode :
  let m := ResNet9_new no_weights 3 10 in
  let x := collate [ToTensor picture] in
  let tape := [false; false; true; false] in
  argmax1 (fst (fst (forward (train false m) x tape))) = [1] /\
  argmax1 (fst (fst (forward m x tape))) = [0].
Proof. split; vm_compute; reflexivity. Qed.

(** *** The theorems above at concrete inputs *)

Lemma small_notebook :
  exists G, notebook small_train small_test no_weights [] = Ok G.
Proof.
  apply notebook_ok.
  - discriminate.
  - vm_compute. reflexivity.
  - unfold small_test. rewrite map_repeat. apply Forall_forall.
    intros y Hy. apply repeat_spec in Hy. subst. cbn. lia.
Qed.

Lemma evaluation_in_training_mode_witness :
  exists G,
    notebook small_train small_test no_weights [] = Ok G /\
    training_flags (model (after_train_accuracy G)) = repeat true 12.
Proof.
  destruct small_notebook as [G HG]. exists G. split; [exact HG|].
  exact (proj1 (proj2 (evaluation_in_training_mode _ _ _ _ HG))).
Defined.

Lemma per_class_ragged_batch_witness :
  length (repeat one 150) mod batch_size <> 0 /\
  per_class_accuracy (make_testloader [] [] (repeat one 150)) (frozen []) =
    Raise IndexError.
Proof.
  assert (H : length (repeat one 150) mod batch_size <> 0)
    by (vm_compute; discriminate).
  split; [exact H|].
  exact (proj1 (per_class_ragged_batch [] [] (repeat one 150) (frozen []) H)).
Defined.

Lemma scheduler_stepped_per_batch_witness :
  length (repeat one 50000) = 50000 /\
  len (make_trainloader [] [] (repeat one 50000)) = 500.
Proof.
  assert (H : length (repeat one 50000) = 50000) by apply repeat_length.
  split; [exact H|].
  exact (proj1 (scheduler_stepped_per_batch [] [] _ no_weights [] H)).
Defined.

Lemma one_cycle_schedule_witness :
  total_steps run_scheduler = 20000 /\
  max_lr run_scheduler = 0.1%R /\
  get_lr run_scheduler 5999 = 0.1%R.
Proof.
  split; [reflexivity|]. split; [reflexivity|].
  exact (proj1 (proj2 (proj2
           (@one_cycle_schedule run_scheduler eq_refl eq_refl)))).
Defined.

Lemma balanced_counts (k : nat) :
  k < 10 -> count_occ Nat.eq_dec (map snd balanced_test) k = 1000.
Proof.
  intros Hk.
  do 10 (destruct k as [|k]; [vm_compute; reflexivity|]). lia.
Qed.

Lemma per_class_totals_witness :
  length balanced_test = 10000 /\
  exists st' class_correct class_total,
    per_class_accuracy (make_testloader [] [] balanced_test) (frozen []) =
      Ok (st', (class_correct, class_total)) /\
    class_total = repeat 1000 10.
Proof.
  assert (H : length balanced_test = 10000) by (vm_compute; reflexivity).
  split; [exact H|].
  destruct (per_class_totals [] [] balanced_test (frozen []) H balanced_counts)
    as (st' & cc & ct & E & C & _).
  exists st', cc, ct. split; [exact E | exact C].
Defined.

End Examples.

(** ** The further properties at concrete inputs *)

Module Runs.

#[local] Existing Instance Tiny.torch.
Import Tiny.

Lemma small_labels : Forall (fun y => y < 10) (map snd small_test).
Proof.
  unfold small_test. rewrite map_repeat. apply Forall_forall.
  intros y Hy. apply repeat_spec in Hy. subst. cbn. lia.
Qed.

Lemma small_setup :
  exists st0, setup (make_trainloader [] [] small_train) no_weights [] = Ok st0.
Proof.
  destruct (@setup_ok _ (make_trainloader [] [] small_train) no_weights [])
    as (st0 & E & _); [vm_compute; lia|].
  exists st0. exact E.
Qed.

Lemma forward_shape_accepts_witness :
  forward_shape (ResNet9_new no_weights 3 10) [100; 3; 32; 32] =
    Ok [100; 10].
Proof.
  apply (@forward_shape_accepts no_weights 3 10 100 3 32 32 [100; 10]).
  - lia.
  - repeat split; lia.
Defined.

Lemma schedule_bounds_witness :
  (0 <= max_lr run_scheduler)%R /\
  (max_lr run_scheduler / 25 / 10000 <= get_lr run_scheduler 5999
     <= max_lr run_scheduler)%R.
Proof.
  assert (H : (0 <= max_lr run_scheduler)%R) by (cbn; lra).
  split; [exact H|].
  exact (proj1 (@schedule_bounds run_scheduler 5999 H)).
Defined.

Lemma optimizer_follows_schedule_witness :
  exists st0,
    setup (make_trainloader [] [] small_train) no_weights [] = Ok st0 /\
    group_lr (optimizer st0) = 0.004%R.
Proof.
  destruct small_setup as [st0 E]. exists st0. split; [exact E|].
  exact (proj1 (optimizer_follows_schedule _ _ _ E)).
Defined.

Lemma training_budget_witness :
  exists st0 st,
    setup (make_trainloader [] [] small_train) no_weights [] = Ok st0 /\
    training_loop 1 (make_trainloader [] [] small_train) st0 = Ok st /\
    last_epoch (scheduler st) = 1 * len (make_trainloader [] [] small_train).
Proof.
  destruct small_setup as [st0 E].
  assert (Hb : 0 < dl_batch_size (make_trainloader [] [] small_train))
    by (vm_compute; lia).
  assert (He : 1 <= num_epochs) by (vm_compute; lia).
  destruct (proj1 (training_budget _ _ _ 1 Hb E) He) as (st & L & S).
  exists st0, st. split; [exact E|]. split; [exact L | exact S].
Defined.

Lemma per_class_figures_witness :
  exists st' class_correct class_total,
    per_class_accuracy (make_testloader [] [] small_test) (frozen []) =
      Ok (st', (class_correct, class_total)) /\
    length class_total = 10.
Proof.
  destruct (@per_class_figures _ (make_testloader [] [] small_test)
              (frozen []) eq_refl eq_refl small_labels)
    as (st' & cc & ct & E & _ & L & _).
  exists st', cc, ct. split; [exact E | exact L].
Defined.

Lemma per_class_outcome_witness :
  (exists r,
     per_class_accuracy (make_testloader [] [] small_test) (frozen []) =
       Ok r) /\
  per_class_accuracy (make_testloader [] [] (repeat one 150)) (frozen []) =
    Raise IndexError.
Proof.
  split.
  - exact (proj1 (@per_class_outcome _ (make_testloader [] [] small_test)
                    (frozen []) eq_refl)
             (conj eq_refl small_labels)).
  - apply (proj2 (@per_class_outcome _
                    (make_testloader [] [] (repeat one 150))
                    (frozen []) eq_refl)).
    left. vm_compute. discriminate.
Defined.

Lemma evaluation_updates_buffers_witness :
  exists st' correct total,
    accuracy one_sample_test (frozen []) = Ok (st', correct, total) /\
    batches_tracked (model st') =
    map (fun k => k + len one_sample_test)
      (batches_tracked (model (frozen []))).
Proof.
  apply evaluation_updates_buffers.
  - vm_compute. lia.
  - reflexivity.
Defined.

Lemma inference_mode_evaluation_witness :
  exists correct,
    forall g, exists g',
      accuracy (make_testloader [] [] small_test)
        {| model := train false (ResNet9_new no_weights 3 10);
           optimizer := SGD_new lr momentum weight_decay;
           scheduler := run_scheduler;
           gen := g |} =
      Ok ({| model := train false (ResNet9_new no_weights 3 10);
             optimizer := SGD_new lr momentum weight_decay;
             scheduler := run_scheduler;
             gen := g' |}, correct, length small_test).
Proof.
  apply (@inference_mode_evaluation _ [] [] small_test
           (train false (ResNet9_new no_weights 3 10))
           (SGD_new lr momentum weight_decay) run_scheduler []).
  reflexivity.
Defined.

Lemma pass_partition_witness :
  Permutation (concat (fst (iter (make_testloader [] [] small_test) [])))
    (seq 0 (length small_test)).
Proof.
  assert (H : 0 < dl_batch_size (make_testloader [] [] small_test))
    by (vm_compute; lia).
  exact (proj1 (@pass_partition _ (make_testloader [] [] small_test) [] H)).
Defined.



End Runs.

(** ** Concrete runs on the real-valued framework *)

Module SmallRuns.

#[local] Existing Instance Small.torch.
Import Small.

(** The statistics of the four train pictures, whose pixels are 0 and 255
    in equal numbers: mean and standard deviation one half. *)
Example train_split_statistics :
  np_mean_255 (map fst train_split) = [0.5%R] /\
  np_std_255 (map fst train_split) = [0.5%R].
Proof.
  assert (M : pixels_mean (map fst train_split) = 127.5%R).
  { unfold pixels_mean, mean_of. cbn. lra. }
  split.
  - cbn [np_mean_255 torch]. rewrite M. f_equal. lra.
  - cbn [np_std_255 torch]. unfold pixels_std. rewrite M.
    replace (mean_of _) with (Rsqr 127.5).
    + rewrite sqrt_Rsqr by lra. f_equal. lra.
    + unfold mean_of, Rsqr. cbn. lra.
Qed.

(** The crop and the flip change the picture, depending on the draws. *)
Example augment_changes :
  fst (augment [0; 255]%R [true; false]) = [255; 0]%R /\
  fst (augment [0; 255]%R [false; false]) = [0; 255]%R.
Proof. split; reflexivity. Qed.

Lemma augmented_notebook :
  exists G, notebook train_split test_split weights tape = Ok G.
Proof.
  apply notebook_ok.
  - discriminate.
  - unfold test_split. rewrite repeat_length. reflexivity.
  - unfold test_split. rewrite map_repeat. apply Forall_forall.
    intros y Hy. apply repeat_spec in Hy. subst. cbn. lia.
Qed.

Lemma first_step :
  exists st' rl',
    train_batch (make_trainloader [0.5%R] [0.5%R] train_split) start 0%R 0
      [0; 1; 2; 3] = Ok (st', rl').
Proof.
  destruct (@train_batch_ok _ (make_trainloader [0.5%R] [0.5%R] train_split)
              start 0%R 0 [0; 1; 2; 3]) as (st' & rl' & E & _).
  - repeat constructor.
  - cbn. lia.
  - eauto.
Qed.

Lemma gradients_clipped_at_update_witness :
  exists st' rl' inputs labels g loss m g',
    train_batch (make_trainloader [0.5%R] [0.5%R] train_split) start 0%R 0
      [0; 1; 2; 3] = Ok (st', rl') /\
    forward_backward (model start) inputs labels g = (loss, m, g') /\
    model st' = snd (SGD_step (optimizer start) m) /\
    map grad (parameters m) =
      map (fun q => Some (map (limited (float32 grad_clip))
                            (autograd loss (pid q))))
          (parameters (model start)) /\
    Forall (grad_within (float32 grad_clip)) (parameters m).
Proof.
  destruct first_step as (st' & rl' & E).
  destruct (@gradients_clipped_at_update _ _ _ _ _ _ _ _ E)
    as (inputs & labels & g & loss & m & g' & _ & FB & M & _ & Gr & W & _).
  exists st', rl', inputs, labels, g, loss, m, g'. auto.
Defined.

(** C4, where the code departs from it: in the first training step the
    backward pass gives every parameter the components 0.5, -0.3 and 0.05;
    the model handed to [optimizer.step()] holds [13421773 / 2^27], its
    opposite and 0.05, and the first of them is above 0.1. *)
Lemma gradient_component_above_tenth :
  exists st' rl' inputs labels g loss m g',
    train_batch (make_trainloader [0.5%R] [0.5%R] train_split) start 0%R 0
      [0; 1; 2; 3] = Ok (st', rl') /\
    fetch (dataset (make_trainloader [0.5%R] [0.5%R] train_split))
      [0; 1; 2; 3] (gen start) = Ok (inputs, labels, g) /\
    forward_backward (model start) inputs labels g = (loss, m, g') /\
    model st' = snd (SGD_step (optimizer start) m) /\
    map grad (parameters m) =
      repeat (Some [13421773 / 134217728; - (13421773 / 134217728);
                    0.05]%R) 38 /\
    ~ Forall (grad_within 0.1%R) (parameters m).
Proof.
  destruct first_step as (st' & rl' & E).
  destruct (@train_batch_inv _ _ _ _ _ _ _ _ E)
    as (inputs & labels & g & loss & m & g' & Fe & FB & M & _).
  destruct (@forward_backward_grads _ _ _ _ _ _ _ _ FB) as (_ & Gr).
  assert (HL : forall q : Param,
             Some (map (limited (float32 grad_clip)) (autograd loss (pid q)))
             = Some [13421773 / 134217728; - (13421773 / 134217728);
                     0.05]%R).
  { intros q. cbn [autograd torch map]. rewrite float32_grad_clip.
    unfold limited. repeat destruct (Rlt_dec _ _); try lra.
    reflexivity. }
  rewrite (map_ext _ _ HL) in Gr.
  change (map _ (parameters (model start)))
    with (repeat (Some [13421773 / 134217728; - (13421773 / 134217728);
                        0.05]%R) 38) in Gr.
  exists st', rl', inputs, labels, g, loss, m, g'.
  repeat (split; [assumption|]).
  intros F. destruct (parameters m) as [|q l]; [discriminate|].
  cbn [map repeat] in Gr. injection Gr as Hq _.
  inversion F as [|? ? (gr & Hg & Hb) _]; subst.
  rewrite Hq in Hg. injection Hg as <-.
  inversion Hb as [|? ? Hx _]; subst. lra.
Qed.

Lemma normalization_statistics_witness :
  exists G,
    notebook train_split test_split weights tape = Ok G /\
    mean_trainset G = np_mean_255 (map fst train_split) /\
    std_trainset G = np_std_255 (map fst train_split) /\
    (exists xs labels g1,
       fetch (dataset (trainloader G)) [3; 0] tape =
         Ok (collate xs, labels, g1) /\
       Forall2 (train_item (np_mean_255 (map fst train_split))
                  (np_std_255 (map fst train_split)) train_split)
         [3; 0] xs) /\
    (exists xs labels,
       fetch (dataset (testloader G)) [0; 1] tape =
         Ok (collate xs, labels, tape) /\
       Forall2 (test_item (np_mean_255 (map fst train_split))
                  (np_std_255 (map fst train_split)) test_split)
         [0; 1] xs).
Proof.
  destruct augmented_notebook as [G HG]. exists G. split; [exact HG|].
  destruct (notebook_inv _ _ _ _ HG) as (_ & _ & Tl & El & _).
  destruct (normalization_statistics _ _ _ _ HG) as (M & S & Tr & Te).
  split; [exact M|]. split; [exact S|]. split.
  - apply Tr. rewrite Tl. repeat constructor.
  - apply Te. rewrite El. unfold valid_batch.
    cbn [make_testloader dataset samples]. unfold test_split.
    rewrite repeat_length. repeat constructor; lia.
Defined.

Lemma train_accuracy_over_augmented_witness :
  exists G trace,
    notebook train_split test_split weights tape = Ok G /\
    Forall2 (fun idxs b =>
               scores (trainloader G) idxs b /\
               Forall2 (train_item (np_mean_255 (map fst train_split))
                          (np_std_255 (map fst train_split)) train_split)
                 idxs (sc_items b) /\
               parameters (model (sc_state b)) =
                 parameters (model (trained G)))
      (fst (iter (trainloader G) (gen (trained G)))) trace /\
    train_correct G = list_sum (map hits trace) /\
    train_total G = length train_split.
Proof.
  destruct augmented_notebook as [G HG].
  destruct (train_accuracy_over_augmented _ _ _ _ HG)
    as (trace & _ & F & C & _ & L).
  exists G, trace. auto.
Defined.

End SmallRuns.
